(** * FTP analysis pipeline: CSV parsers, segment extraction, statistics,
      pacing, heart-rate drift and watts-per-kg grading, and the callers of
      these in the two components of the page.

    Shallow embedding of [src/utils/csvParser.ts] and [src/utils/ftpAnalysis.ts],
    and of the functions that call them: [validateManualData] and
    [handleDataAnalysis] of [src/components/PowerInputForm.tsx], and
    [handleAnalyze] of [src/App.tsx].

    Numbers.  A TypeScript [number] is an IEEE-754 binary64 value and is
    modelled by Rocq's primitive [float], whose operations are the same
    correctly rounded binary64 operations.  The library functions on numbers
    ([Math.round], [toFixed], [parseFloat], number to string) are defined on
    the exact mantissa and exponent of a number.  [Math.pow], whose result
    the language leaves to the implementation, is a parameter.

    Arrays are lists; the length of an array and the counter of a loop that
    counts over an array are natural numbers, turned into numbers by
    [JS.of_nat].  An array has fewer than 2^32 elements.

    Strings.  A string is a sequence of code units below 128.

    Exceptions are results [Throw]; a [try ... catch] that returns [null] is
    [try_or_null].

    Effects.  [Math.random] is the sequence of the numbers it draws, and a
    function that draws threads the number of draws made.  The answer of the
    user to a [confirm] dialog is an input, and an [alert] is an output.  What
    [handleAnalyze] writes (component state, the stored item, the hash of the
    URL) is a record, and the callback it hands to [setTimeout] is a function
    on that record.  Console output is left out. *)

From Stdlib Require Import ZArith List Bool String Ascii Floats Lia.
From Stdlib Require Uint63.
From Stdlib Require Import DecimalString.
Import ListNotations.

Set Warnings "-inexact-float".

(** ** The parts of the ECMAScript library used by the sources *)

Module JS.

Local Open Scope float_scope.

Definition number := float.

(** The binary64 value nearest to an integer (ties to even). *)
Definition of_Z (z : Z) : number :=
  SF2Prim (binary_normalize prec emax z 0 false).

(** The number that an array length or a loop counter is (below 2^63). *)
Definition of_nat (n : nat) : number := of_uint63 (Uint63.of_Z (Z.of_nat n)).

(** The binary64 value nearest to [m * 10^e10], sign [neg]. *)
Definition of_decimal (neg : bool) (m : Z) (e10 : Z) : number :=
  match m with
  | Zpos p =>
      let nd := Z.of_nat (String.length (NilZero.string_of_uint (Pos.to_uint p))) in
      if (310 <? nd + e10)%Z then (if neg then neg_infinity else infinity)
      else if (nd + e10 <? -330)%Z then (if neg then neg_zero else zero)
      else if (0 <=? e10)%Z
      then SF2Prim (binary_normalize prec emax
                      (cond_Zopp neg (Zpos p * 10 ^ e10)) 0 neg)
      else SF2Prim (SFdiv prec emax (S754_finite neg p 0)
                      (S754_finite false (Z.to_pos (10 ^ (- e10))) 0))
  | _ => if neg then neg_zero else zero
  end.

Definition isNaN (x : number) : bool := is_nan x.

(** [Math.round]: the nearest integer, ties towards +Infinity; the sign of a
    zero result is the sign of the argument. *)
Definition Math_round (x : number) : number :=
  match Prim2SF x with
  | S754_finite s m e =>
      if (0 <=? e)%Z then x
      else
        let n := Z.shiftr (2 * cond_Zopp s (Zpos m) + 2 ^ (- e)) (1 - e) in
        if (n =? 0)%Z then (if s then neg_zero else zero) else of_Z n
  | _ => x
  end.

(** [Math.floor]. *)
Definition Math_floor (x : number) : number :=
  match Prim2SF x with
  | S754_finite s m e =>
      if (0 <=? e)%Z then x
      else
        let n := Z.shiftr (cond_Zopp s (Zpos m)) (- e) in
        if (n =? 0)%Z then zero else of_Z n
  | _ => x
  end.

(** The integer an index argument stands for: truncation towards zero, 0 for
    NaN; an infinite argument is sent beyond every array length. *)
Definition ToIntegerOrInfinity (x : number) : Z :=
  match Prim2SF x with
  | S754_finite s m e =>
      cond_Zopp s (if (0 <=? e)%Z then Zpos m * 2 ^ e else Zpos m / 2 ^ (- e))
  | S754_infinity s => cond_Zopp s (2 ^ 1024)
  | _ => 0
  end.

Definition Math_abs (x : number) : number := abs x.
Definition Math_sqrt (x : number) : number := sqrt x.

Definition max2 (a b : number) : number :=
  if is_nan a || is_nan b then nan
  else if a <? b then b
  else if b <? a then a
  else if get_sign a then b else a.

Definition min2 (a b : number) : number :=
  if is_nan a || is_nan b then nan
  else if b <? a then b
  else if a <? b then a
  else if get_sign a then a else b.

(** [Math.max(...xs)] and [Math.min(...xs)]. *)
Definition Math_max (xs : list number) : number := fold_left max2 xs neg_infinity.
Definition Math_min (xs : list number) : number := fold_left min2 xs infinity.

(** [xs.reduce((a, b) => a + b, 0)]. *)
Definition sum (xs : list number) : number := fold_left add xs 0.

(** [xs.slice(from, to)] and [xs.slice(from)]: a negative index counts from
    the end, and both are clamped to the array. *)
Definition clamp_index (len i : Z) : Z :=
  if (i <? 0)%Z then Z.max (len + i) 0 else Z.min i len.

Definition slice {A} (xs : list A) (from to : number) : list A :=
  let len := Z.of_nat (List.length xs) in
  let k := clamp_index len (ToIntegerOrInfinity from) in
  let final := clamp_index len (ToIntegerOrInfinity to) in
  firstn (Z.to_nat (final - k)) (skipn (Z.to_nat k) xs).

Definition slice_from {A} (xs : list A) (from : number) : list A :=
  slice xs from (of_nat (List.length xs)).

(** [xs.push(x)]. *)
Definition push {A} (xs : list A) (x : A) : list A := xs ++ [x].

(** *** Strings *)

Local Open Scope string_scope.

Definition is_whitespace (c : ascii) : bool :=
  let n := nat_of_ascii c in
  ((9 <=? n) && (n <=? 13) || (n =? 32))%nat.

Fixpoint trimStart (s : string) : string :=
  match s with
  | String c r => if is_whitespace c then trimStart r else s
  | EmptyString => s
  end.

Fixpoint rev_append (s acc : string) : string :=
  match s with
  | String c r => rev_append r (String c acc)
  | EmptyString => acc
  end.

Definition reverse (s : string) : string := rev_append s "".

(** [s.trim()]. *)
Definition trim (s : string) : string :=
  reverse (trimStart (reverse (trimStart s))).

(** [s.split(sep)] for a one-character separator: never empty. *)
Fixpoint split_on (sep : ascii) (cur : string) (s : string) : list string :=
  match s with
  | EmptyString => [reverse cur]
  | String c r =>
      if Ascii.eqb c sep then reverse cur :: split_on sep "" r
      else split_on sep (String c cur) r
  end.

Definition split (sep : ascii) (s : string) : list string := split_on sep "" s.

Definition lower (c : ascii) : ascii :=
  let n := nat_of_ascii c in
  if ((65 <=? n) && (n <=? 90))%nat then ascii_of_nat (n + 32) else c.

(** [s.toLowerCase()]. *)
Fixpoint toLowerCase (s : string) : string :=
  match s with
  | String c r => String (lower c) (toLowerCase r)
  | EmptyString => EmptyString
  end.

(** [s.includes(sub)]. *)
Fixpoint includes (s sub : string) : bool :=
  String.prefix sub s ||
  match s with
  | String _ r => includes r sub
  | EmptyString => false
  end.

(** [xs.findIndex(p)], [None] for -1. *)
Fixpoint findIndex {A} (p : A -> bool) (xs : list A) : option nat :=
  match xs with
  | [] => None
  | x :: r => if p x then Some 0%nat else option_map S (findIndex p r)
  end.

Fixpoint zeros (n : nat) : string :=
  match n with
  | O => ""
  | S k => String "0" (zeros k)
  end.

Definition string_of_Z (z : Z) : string := NilZero.string_of_int (Z.to_int z).

(** *** Numbers to strings *)

(** [m * 2^e * 10^k] as a fraction with a positive denominator. *)
Definition scaled (m : positive) (e k : Z) : Z * Z :=
  ((Zpos m * (if 0 <=? e then 2 ^ e else 1) * (if 0 <=? k then 10 ^ k else 1))%Z,
   ((if 0 <=? e then 1 else 2 ^ (- e)) * (if 0 <=? k then 1 else 10 ^ (- k)))%Z).

(** The decimal exponent [n] with [10^(n-1) <= num/den < 10^n]. *)
Fixpoint small_exponent (fuel : nat) (num den : Z) (j : Z) : Z :=
  match fuel with
  | O => 1 - j
  | S f => if (den <=? num * 10 ^ j)%Z then 1 - j
           else small_exponent f num den (j + 1)
  end.

Definition decimal_exponent (num den : Z) : Z :=
  if (den <=? num)%Z then Z.of_nat (String.length (string_of_Z (num / den)))
  else small_exponent 400 num den 1.

(** The shortest digit string [s] (as an integer, with its exponent [n]) that
    reads back as [x], nearest to [x] among the strings of that length. *)
Fixpoint shortest (fuel : nat) (x : number) (m : positive) (e n : Z) (k : Z)
  : Z * Z :=
  let '(num, den) := scaled m e (k - n) in
  let lo := (num / den)%Z in
  let hi := (lo + 1)%Z in
  let ok s := PrimFloat.eqb (of_decimal false s (n - k)) x in
  let pick s := if (s =? 10 ^ k)%Z then (1%Z, (n + 1)%Z) else (s, n) in
  match fuel with
  | O => (lo, n)
  | S f =>
      match ok lo, ok hi with
      | true, true =>
          match (2 * num ?= (2 * lo + 1) * den)%Z with
          | Lt => (lo, n)
          | Gt => pick hi
          | Eq => if Z.even lo then (lo, n) else pick hi
          end
      | true, false => (lo, n)
      | false, true => pick hi
      | false, false => shortest f x m e n (k + 1)
      end
  end.

Definition positive_toString (x : number) (m : positive) (e : Z) : string :=
  let '(num, den) := scaled m e 0 in
  let '(s, n) := shortest 17 x m e (decimal_exponent num den) 1 in
  let digits := string_of_Z s in
  let k := String.length digits in
  if ((Z.of_nat k <=? n) && (n <=? 21))%Z
  then digits ++ zeros (Z.to_nat n - k)
  else if ((0 <? n) && (n <=? 21))%Z
  then substring 0 (Z.to_nat n) digits ++ "." ++
       substring (Z.to_nat n) (k - Z.to_nat n) digits
  else if ((-6 <? n) && (n <=? 0))%Z
  then "0." ++ zeros (Z.to_nat (- n)) ++ digits
  else
    let ex := (n - 1)%Z in
    let tail := "e" ++ (if (ex <? 0)%Z then "-" else "+") ++ string_of_Z (Z.abs ex) in
    if (k =? 1)%nat then digits ++ tail
    else substring 0 1 digits ++ "." ++ substring 1 (k - 1) digits ++ tail.

(** [String(x)], and [x] inside a template literal. *)
Definition Number_toString (x : number) : string :=
  match Prim2SF x with
  | S754_nan => "NaN"
  | S754_zero _ => "0"
  | S754_infinity s => if s then "-Infinity" else "Infinity"
  | S754_finite s m e => (if s then "-" else "") ++ positive_toString (abs x) m e
  end.

Definition fixed_digits (n : Z) (d : nat) : string :=
  let ds := string_of_Z n in
  let ds := zeros (S d - String.length ds) ++ ds in
  let k := (String.length ds - d)%nat in
  if (d =? 0)%nat then ds else substring 0 k ds ++ "." ++ substring k d ds.

(** [x.toFixed(d)]. *)
Definition toFixed (x : number) (d : nat) : string :=
  match Prim2SF x with
  | S754_nan => "NaN"
  | S754_zero _ => fixed_digits 0 d
  | S754_infinity _ => Number_toString x
  | S754_finite s m e =>
      if (1e21 <=? abs x)%float then Number_toString x
      else
        let '(num, den) := scaled m e (Z.of_nat d) in
        (if s then "-" else "") ++ fixed_digits ((2 * num + den) / (2 * den)) d
  end.

(** *** Strings to numbers *)

Definition digit_of (radix : Z) (c : ascii) : option Z :=
  let n := Z.of_nat (nat_of_ascii c) in
  let v := if ((48 <=? n) && (n <=? 57))%Z then (n - 48)%Z
           else if ((97 <=? n) && (n <=? 122))%Z then (n - 87)%Z
           else if ((65 <=? n) && (n <=? 90))%Z then (n - 55)%Z
           else radix in
  if (v <? radix)%Z then Some v else None.

(** The longest run of digits at the head of [s]: the integer accumulated on
    [acc], the number of digits read, and the rest. *)
Fixpoint scan_digits (radix : Z) (acc : Z) (cnt : nat) (s : string)
  : Z * nat * string :=
  match s with
  | String c r =>
      match digit_of radix c with
      | Some d => scan_digits radix (acc * radix + d)%Z (S cnt) r
      | None => (acc, cnt, s)
      end
  | EmptyString => (acc, cnt, s)
  end.

Definition scan_sign (s : string) : bool * string :=
  match s with
  | String "+" r => (false, r)
  | String "-" r => (true, r)
  | _ => (false, s)
  end.

Definition drop (n : nat) (s : string) : string :=
  substring n (String.length s - n) s.

Definition scan_exponent (s : string) : Z * string :=
  match s with
  | String c r =>
      if Ascii.eqb c "e" || Ascii.eqb c "E" then
        let '(eneg, r1) := scan_sign r in
        let '(ev, ne, r2) := scan_digits 10 0 0 r1 in
        if (ne =? 0)%nat then (0%Z, s) else (cond_Zopp eneg ev, r2)
      else (0%Z, s)
  | EmptyString => (0%Z, s)
  end.

(** The longest prefix of [s] that is a [StrDecimalLiteral], with its value. *)
Definition scan_decimal (s : string) : option (number * string) :=
  let '(neg, r) := scan_sign s in
  if String.prefix "Infinity" r
  then Some (if neg then neg_infinity else infinity, drop 8 r)
  else
    let '(ip, ni, r1) := scan_digits 10 0 0 r in
    let '(mant, nf, r2) :=
      match r1 with
      | String "." r' => scan_digits 10 ip 0 r'
      | _ => (ip, 0%nat, r1)
      end in
    if (ni + nf =? 0)%nat then None
    else
      let '(ex, r3) := scan_exponent r2 in
      Some (of_decimal neg mant (ex - Z.of_nat nf), r3).

(** [parseFloat(s)]. *)
Definition parseFloat (s : string) : number :=
  match scan_decimal (trimStart s) with
  | Some (v, _) => v
  | None => nan
  end.

Definition radix_literal (radix : Z) (s : string) : number :=
  match scan_digits radix 0 0 s with
  | (v, S _, EmptyString) => of_Z v
  | _ => nan
  end.

Definition decimal_literal (s : string) : number :=
  match scan_decimal s with
  | Some (v, EmptyString) => v
  | _ => nan
  end.

(** [Number(s)]. *)
Definition Number_of_string (s : string) : number :=
  let t := trim s in
  match t with
  | EmptyString => zero
  | String "0" (String c r) =>
      if Ascii.eqb (lower c) "x" then radix_literal 16 r
      else if Ascii.eqb (lower c) "o" then radix_literal 8 r
      else if Ascii.eqb (lower c) "b" then radix_literal 2 r
      else decimal_literal t
  | _ => decimal_literal t
  end.

End JS.

(** ** Exceptions *)

Inductive result (A : Type) : Type :=
| Ok (a : A)
| Throw (message : string).

Arguments Ok {A} a.
Arguments Throw {A} message.

Definition bind {A B} (r : result A) (k : A -> result B) : result B :=
  match r with
  | Ok a => k a
  | Throw m => Throw m
  end.

Notation "x <- r ;; k" := (bind r (fun x => k))
  (at level 61, r at next level, right associativity).

(** [try { body } catch (error) { return null }]. *)
Definition try_or_null {A} (body : result (option A)) : option A :=
  match body with
  | Ok a => a
  | Throw _ => None
  end.

(** ** [src/utils/ftpAnalysis.ts] *)

Module Stats.
Record t := {
  average : JS.number;
  normalized : JS.number;
  max : JS.number;
  min : JS.number;
  variabilityIndex : string;
  stdDev : JS.number;
  classicFTP : JS.number;
  normalizedFTP : JS.number;
  intensityFactor : JS.number
}.
End Stats.

Module HeartRateStats.
Record t := {
  average : JS.number;
  max : JS.number;
  min : JS.number;
  lthr : JS.number;
  hrDrift : JS.number;
  cardiacDrift : JS.number
}.
End HeartRateStats.

Module WattsPerKgStats.
Record t := {
  classicFTPPerKg : JS.number;
  normalizedFTPPerKg : JS.number;
  averagePowerPerKg : JS.number;
  maxPowerPerKg : JS.number;
  grade : string;
  category : string;
  percentile : JS.number;
  description : string
}.
End WattsPerKgStats.

Module PerformanceGrade.
Record t := {
  grade : string;
  category : string;
  minWattsPerKg : JS.number;
  maxWattsPerKg : option JS.number;
  percentile : JS.number;
  description : string
}.
End PerformanceGrade.

Inductive InsightType := error | warning | success | info.

Module Insight.
Record t := {
  type : InsightType;
  message : string;
  recommendation : string
}.
End Insight.

Module PacingAnalysis.
Record t := {
  score : JS.number;
  fadePct : string;
  insights : list Insight.t;
  avgFirstQuarter : JS.number;
  avgLastQuarter : JS.number;
  wattsLost : JS.number;
  strategy : string
}.
End PacingAnalysis.

Module SegmentInfo.
Record t := {
  startTime : JS.number;
  duration : JS.number;
  reason : string
}.
End SegmentInfo.

Module Segment.
Record t := {
  power : list JS.number;
  heartRate : option (list JS.number);
  speed : option (list JS.number);
  distance : option (list JS.number);
  elevation : option (list JS.number);
  segmentInfo : SegmentInfo.t
}.
End Segment.

Module FtpAnalysis.

Import JS.
Local Open Scope string_scope.
Local Open Scope float_scope.

Notation "x >? y" := (PrimFloat.ltb y x) (at level 70, no associativity) : float_scope.
Notation "x >=? y" := (PrimFloat.leb y x) (at level 70, no associativity) : float_scope.

(** [xs.reduce((a, b) => a + b, 0) / xs.length]. *)
Definition mean (xs : list number) : number := sum xs / of_nat (List.length xs).

Section Engine.

(** [Math.pow] returns an implementation-approximated value: the functions
    below are defined, and the theorems about them hold, for every choice of
    it. *)
Variable Math_pow : number -> number -> number.

Definition rollingAvg30s (powerData : list number) : list number :=
  map (fun i => sum (slice powerData (of_nat i) (of_nat i + 30)) / 30)
      (seq 0 (List.length powerData - 29)).

Definition normalizedPower (powerData : list number) : number :=
  let avg := mean powerData in
  if (30 <=? List.length powerData)%nat then
    let rolling := rollingAvg30s powerData in
    if (0 <? List.length rolling)%nat then
      let fourthPowers := map (fun p => Math_pow p 4) rolling in
      let avgFourth := sum fourthPowers / of_nat (List.length fourthPowers) in
      Math_pow avgFourth 0.25
    else avg
  else avg.

Definition calculateStats (powerData : list number) : result Stats.t :=
  if (List.length powerData =? 0)%nat then Throw "Power data cannot be empty"
  else
    let avg := mean powerData in
    let max := Math_max powerData in
    let min := Math_min powerData in
    let normalizedPower := normalizedPower powerData in
    let vi := normalizedPower / avg in
    let variance :=
      fold_left (fun sum val => sum + Math_pow (val - avg) 2) powerData 0
      / of_nat (List.length powerData) in
    let stdDev := Math_sqrt variance in
    Ok {| Stats.average := Math_round avg;
          Stats.normalized := Math_round normalizedPower;
          Stats.max := max;
          Stats.min := min;
          Stats.variabilityIndex := toFixed vi 3;
          Stats.stdDev := Math_round stdDev;
          Stats.classicFTP := Math_round (avg * 0.95);
          Stats.normalizedFTP := Math_round (normalizedPower * 0.95);
          Stats.intensityFactor := Number_of_string (toFixed vi 3) |}.

Definition analyzePacing (powerData : list number) : result PacingAnalysis.t :=
  let len := of_nat (List.length powerData) in
  let firstQuarter := slice powerData 0 (Math_floor (len / 4)) in
  let lastQuarter := slice_from powerData (Math_floor (len * 3 / 4)) in
  let firstHalf := slice powerData 0 (Math_floor (len / 2)) in
  let secondHalf := slice_from powerData (Math_floor (len / 2)) in
  let avgFirst := mean firstQuarter in
  let avgLast := mean lastQuarter in
  let avgFirstHalf := mean firstHalf in
  let avgSecondHalf := mean secondHalf in
  let fadePct := ((avgFirst - avgLast) / avgFirst) * 100 in
  let halfSplitPct := ((avgFirstHalf - avgSecondHalf) / avgFirstHalf) * 100 in
  (* Pacing quality score (0-100) *)
  let score := 100 in
  (* Deduct for excessive fade *)
  let score := if fadePct >? 10 then score - 30
               else if fadePct >? 5 then score - 15
               else if fadePct >? 3 then score - 5
               else score in
  (* Deduct for negative split (started too easy) *)
  let score := if fadePct <? -3 then score - 10 else score in
  (* Deduct for high variability *)
  stats <- calculateStats powerData ;;
  let cvPct := (Stats.stdDev stats / Stats.average stats) * 100 in
  let score := if cvPct >? 10 then score - 20
               else if cvPct >? 7 then score - 10
               else if cvPct >? 5 then score - 5
               else score in
  (* Analysis insights *)
  let insights : list Insight.t := [] in
  let insights :=
    if fadePct >? 10 then
      push insights {| Insight.type := error;
                      Insight.message :=
                        "Significant power fade (" ++ toFixed fadePct 1
                        ++ "%) - started too hard";
                      Insight.recommendation :=
                        "Start " ++ Number_toString (Math_round (avgFirst * 0.95))
                        ++ "w next time (not "
                        ++ Number_toString (Math_round avgFirst) ++ "w)" |}
    else if fadePct >? 5 then
      push insights {| Insight.type := warning;
                      Insight.message :=
                        "Moderate power fade (" ++ toFixed fadePct 1 ++ "%) detected";
                      Insight.recommendation := "Consider starting 2-3% easier" |}
    else if fadePct <? -3 then
      push insights {| Insight.type := info;
                      Insight.message := "Negative split detected - you got stronger";
                      Insight.recommendation :=
                        "You could start slightly harder next time" |}
    else
      push insights {| Insight.type := success;
                      Insight.message := "Excellent pacing strategy!";
                      Insight.recommendation :=
                        "Maintain this approach in future tests" |} in
  let insights :=
    if cvPct >? 10 then
      push insights {| Insight.type := error;
                      Insight.message :=
                        "Very high power variability (CV: " ++ toFixed cvPct 1 ++ "%)";
                      Insight.recommendation :=
                        "Focus on steady-state effort, use ERG mode if available" |}
    else if cvPct >? 7 then
      push insights {| Insight.type := warning;
                      Insight.message :=
                        "High power variability (CV: " ++ toFixed cvPct 1 ++ "%)";
                      Insight.recommendation :=
                        "Work on holding steady power output" |}
    else insights in
  (* Estimate potential watts lost *)
  let wattsLost := 0 in
  let '(wattsLost, insights) :=
    if fadePct >? 5 then
      let wattsLost := Math_round ((fadePct - 3) * 0.5) in
      (wattsLost,
       push insights {| Insight.type := info;
                       Insight.message :=
                         "Estimated " ++ Number_toString wattsLost
                         ++ "w lost due to suboptimal pacing";
                       Insight.recommendation :=
                         "True FTP potentially "
                         ++ Number_toString (Stats.classicFTP stats + wattsLost)
                         ++ "w with better pacing" |})
    else (wattsLost, insights) in
  (* Determine pacing strategy *)
  let strategy := "even" in
  let strategy := if fadePct >? 5 then "positive-split"
                  else if fadePct <? -3 then "negative-split"
                  else strategy in
  Ok {| PacingAnalysis.score := Math_max [0; score];
        PacingAnalysis.fadePct := toFixed fadePct 1;
        PacingAnalysis.insights := insights;
        PacingAnalysis.avgFirstQuarter := Math_round avgFirst;
        PacingAnalysis.avgLastQuarter := Math_round avgLast;
        PacingAnalysis.wattsLost := wattsLost;
        PacingAnalysis.strategy := strategy |}.

End Engine.

(** [hr => hr > 0]. *)
Definition positive (hr : number) : bool := hr >? 0.

Definition calculateHeartRateStats (heartRateData powerData : list number)
  : HeartRateStats.t :=
  let validHR := filter positive heartRateData in
  let avg := mean validHR in
  let max := Math_max validHR in
  let min := Math_min (filter positive validHR) in
  (* Calculate HR drift (first quarter vs last quarter) *)
  let hrLen := of_nat (List.length heartRateData) in
  let firstQuarter := slice heartRateData 0 (Math_floor (hrLen / 4)) in
  let lastQuarter := slice_from heartRateData (Math_floor (hrLen * 3 / 4)) in
  let avgFirstHR := mean (filter positive firstQuarter) in
  let avgLastHR := mean (filter positive lastQuarter) in
  let hrDrift := ((avgLastHR - avgFirstHR) / avgFirstHR) * 100 in
  (* Calculate cardiac drift (HR change per power change) *)
  let len := of_nat (List.length powerData) in
  let powerFirstQuarter := slice powerData 0 (Math_floor (len / 4)) in
  let powerLastQuarter := slice_from powerData (Math_floor (len * 3 / 4)) in
  let avgFirstPower := mean powerFirstQuarter in
  let avgLastPower := mean powerLastQuarter in
  let powerDrop := avgFirstPower - avgLastPower in
  let hrIncrease := avgLastHR - avgFirstHR in
  (* Calculate cardiac drift as HR change per power change (absolute value) *)
  let cardiacDrift :=
    if Math_abs powerDrop >? 1 then hrIncrease / Math_abs powerDrop else 0 in
  {| HeartRateStats.average := Math_round avg;
     HeartRateStats.max := max;
     HeartRateStats.min := min;
     HeartRateStats.lthr := Math_round avg;
     HeartRateStats.hrDrift := parseFloat (toFixed hrDrift 1);
     HeartRateStats.cardiacDrift := parseFloat (toFixed cardiacDrift 2) |}.

(** Performance grading based on watts per kg (FTP). *)
Definition grade_row (grade category : string) (minWattsPerKg : number)
    (maxWattsPerKg : option number) (percentile : number) (description : string)
  : PerformanceGrade.t :=
  {| PerformanceGrade.grade := grade;
     PerformanceGrade.category := category;
     PerformanceGrade.minWattsPerKg := minWattsPerKg;
     PerformanceGrade.maxWattsPerKg := maxWattsPerKg;
     PerformanceGrade.percentile := percentile;
     PerformanceGrade.description := description |}.

Definition PERFORMANCE_GRADES : list PerformanceGrade.t := [
  grade_row "F" "Untrained" 0 (Some 2.0) 5 "New to cycling or very sedentary";
  grade_row "D-" "Novice" 2.0 (Some 2.5) 15 "Recreational cyclist, getting started";
  grade_row "D" "Novice" 2.5 (Some 3.0) 25 "Regular recreational riding";
  grade_row "D+" "Fair" 3.0 (Some 3.2) 35 "Developing fitness base";
  grade_row "C-" "Fair" 3.2 (Some 3.4) 40 "Solid recreational cyclist";
  grade_row "C" "Good" 3.4 (Some 3.7) 50 "Above average fitness";
  grade_row "C+" "Good" 3.7 (Some 4.0) 60 "Strong recreational rider";
  grade_row "B-" "Very Good" 4.0 (Some 4.3) 70 "Club level competitive";
  grade_row "B" "Very Good" 4.3 (Some 4.6) 80 "Strong club racer";
  grade_row "B+" "Excellent" 4.6 (Some 5.0) 87 "Regional competitive level";
  grade_row "A-" "Excellent" 5.0 (Some 5.4) 93 "Cat 2-3 racing level";
  grade_row "A" "Superior" 5.4 (Some 6.0) 97 "Cat 1-2 racing level";
  grade_row "A+" "World Class" 6.0 None 99 "Professional/elite level"
].

(** The test of the lookup loop:
    [x >= g.minWattsPerKg && (g.maxWattsPerKg === null || x < g.maxWattsPerKg)]. *)
Definition in_band (x : number) (g : PerformanceGrade.t) : bool :=
  (x >=? PerformanceGrade.minWattsPerKg g) &&
  match PerformanceGrade.maxWattsPerKg g with
  | None => true
  | Some hi => x <? hi
  end.

(** [for (i = 0; i < gs.length; i++) { if (test) { grade = gs[i]; break; } }]. *)
Fixpoint lookup_grade (x : number) (gs : list PerformanceGrade.t)
    (grade : PerformanceGrade.t) : PerformanceGrade.t :=
  match gs with
  | [] => grade
  | g :: rest => if in_band x g then g else lookup_grade x rest grade
  end.

Definition calculateWattsPerKg (stats : Stats.t) (riderWeight : number)
  : WattsPerKgStats.t :=
  let classicFTPPerKg := Stats.classicFTP stats / riderWeight in
  let normalizedFTPPerKg := Stats.normalizedFTP stats / riderWeight in
  let averagePowerPerKg := Stats.average stats / riderWeight in
  let maxPowerPerKg := Stats.max stats / riderWeight in
  (* Find performance grade based on classic FTP per kg *)
  let grade :=
    nth (List.length PERFORMANCE_GRADES - 1) PERFORMANCE_GRADES
        (grade_row "" "" nan None nan "") in
  let grade := lookup_grade classicFTPPerKg PERFORMANCE_GRADES grade in
  {| WattsPerKgStats.classicFTPPerKg := parseFloat (toFixed classicFTPPerKg 2);
     WattsPerKgStats.normalizedFTPPerKg := parseFloat (toFixed normalizedFTPPerKg 2);
     WattsPerKgStats.averagePowerPerKg := parseFloat (toFixed averagePowerPerKg 2);
     WattsPerKgStats.maxPowerPerKg := parseFloat (toFixed maxPowerPerKg 2);
     WattsPerKgStats.grade := PerformanceGrade.grade grade;
     WattsPerKgStats.category := PerformanceGrade.category grade;
     WattsPerKgStats.percentile := PerformanceGrade.percentile grade;
     WattsPerKgStats.description := PerformanceGrade.description grade |}.

Definition getPerformanceGrades : list PerformanceGrade.t := PERFORMANCE_GRADES.

(** Detect if this is a long workout and extract best FTP segment. *)

(** The window loop
    [for (let i = 0; i <= powerData.length - windowSize; i += 30) { ... }].
    Its counter is a number like any other, and with a bound of 2^53 or more
    the source does not leave the loop in any feasible number of steps (never,
    once [i + 30] is [i]): [fuel] bounds the tests of the loop condition, and
    [None] stands for a loop that is still running when the fuel is spent. *)
Fixpoint scan_windows (fuel : nat) (powerData : list number) (windowSize : number)
    (i bestAverage bestStartIndex : number) : option (number * number) :=
  match fuel with
  | O => None
  | S fuel =>
      if i <=? of_nat (List.length powerData) - windowSize then
        let segment := slice powerData i (i + windowSize) in
        let segmentAverage := sum segment / of_nat (List.length segment) in
        if segmentAverage >? bestAverage
        then scan_windows fuel powerData windowSize (i + 30) segmentAverage i
        else scan_windows fuel powerData windowSize (i + 30) bestAverage bestStartIndex
      else Some (bestAverage, bestStartIndex)
  end.

(** Below 2^53 the counter takes the values 0, 30, 60, ... exactly, and the
    condition is tested once per value up to the first one above the bound. *)
Definition window_fuel (powerData : list number) (windowSize : number) : nat :=
  let bound := of_nat (List.length powerData) - windowSize in
  if 9007199254740992 <=? bound then O
  else Z.to_nat (Z.max (ToIntegerOrInfinity bound) 0 / 30 + 2).

Definition extractBestFTPSegment
    (powerData : list number) (heartRateData : option (list number))
    (targetDurationMinutes : option number)
    (speedData distanceData elevationData : option (list number))
  : option Segment.t :=
  let targetDurationMinutes :=
    match targetDurationMinutes with Some m => m | None => 20 end in
  let targetSeconds := targetDurationMinutes * 60 in
  let len := of_nat (List.length powerData) in
  let dataLengthMinutes := len / 60 in
  (* If data is close to target duration (within 25%), use as-is *)
  if (len <=? targetSeconds * 1.25) && (len >=? targetSeconds * 0.75)
  then
    Some {| Segment.power := powerData;
            Segment.heartRate := heartRateData;
            Segment.speed := speedData;
            Segment.distance := distanceData;
            Segment.elevation := elevationData;
            Segment.segmentInfo :=
              {| SegmentInfo.startTime := 0;
                 SegmentInfo.duration := len;
                 SegmentInfo.reason :=
                   "Full " ++ Number_toString (Math_round dataLengthMinutes)
                   ++ "-minute workout used (close to "
                   ++ Number_toString targetDurationMinutes
                   ++ "-minute target)" |} |}
  (* If data is shorter than target, use all available data *)
  else if len <? targetSeconds * 0.75
  then
    Some {| Segment.power := powerData;
            Segment.heartRate := heartRateData;
            Segment.speed := speedData;
            Segment.distance := distanceData;
            Segment.elevation := elevationData;
            Segment.segmentInfo :=
              {| SegmentInfo.startTime := 0;
                 SegmentInfo.duration := len;
                 SegmentInfo.reason :=
                   "Short " ++ Number_toString (Math_round dataLengthMinutes)
                   ++ "-minute workout - using all available data" |} |}
  else
    (* Long workout detected - find best continuous segment *)
    let windowSize := targetSeconds in
    match scan_windows (window_fuel powerData windowSize) powerData windowSize 0 0 0 with
    | None => None
    | Some (bestAverage, bestStartIndex) =>
        let cut (xs : list number) :=
          slice xs bestStartIndex (bestStartIndex + windowSize) in
        let startTimeMinutes := Math_round (bestStartIndex / 60) in
        let endTimeMinutes := Math_round ((bestStartIndex + windowSize) / 60) in
        Some {| Segment.power := cut powerData;
                Segment.heartRate := option_map cut heartRateData;
                Segment.speed := option_map cut speedData;
                Segment.distance := option_map cut distanceData;
                Segment.elevation := option_map cut elevationData;
                Segment.segmentInfo :=
                  {| SegmentInfo.startTime := bestStartIndex;
                     SegmentInfo.duration := windowSize;
                     SegmentInfo.reason :=
                       "Best " ++ Number_toString targetDurationMinutes
                       ++ "-minute segment from "
                       ++ Number_toString (Math_round dataLengthMinutes)
                       ++ "-minute workout (minutes "
                       ++ Number_toString startTimeMinutes
                       ++ "-" ++ Number_toString endTimeMinutes ++ ", avg "
                       ++ Number_toString (Math_round bestAverage) ++ "w)" |} |}
    end.

End FtpAnalysis.

(** ** [src/utils/csvParser.ts] *)

Module ParsedData.
Record t := {
  power : list JS.number;
  heartRate : option (list JS.number);
  speed : option (list JS.number);
  distance : option (list JS.number);
  elevation : option (list JS.number);
  time : list JS.number
}.
End ParsedData.

Module CsvParser.

Import JS.
Local Open Scope string_scope.
Local Open Scope float_scope.
Import FtpAnalysis (* for the [>?] and [>=?] notations *).

Definition newline : ascii := "010".
Definition comma : ascii := ",".

(** [values[index]?.trim() || '0']. *)
Definition cell (values : list string) (index : nat) : string :=
  match nth_error values index with
  | Some v => match trim v with
              | EmptyString => "0"
              | t => t
              end
  | None => "0"
  end.

(** The three series while the rows are read. *)
Record columns := {
  c_power : list number;
  c_heartRate : list number;
  c_time : list number
}.

Definition no_columns : columns :=
  {| c_power := []; c_heartRate := []; c_time := [] |}.

(** The body of the row loop of [parseCSV], for row [i] (from 1). *)
Definition parseCSV_row (powerIndex : nat) (hrIndex timeIndex : option nat)
    (acc : columns) (row : nat * string) : columns :=
  let '(i, line) := row in
  let values := split comma line in
  (* Parse power *)
  let powerValue := parseFloat (cell values powerIndex) in
  let power :=
    if negb (isNaN powerValue) && (powerValue >=? 0)
    then push (c_power acc) (Math_round powerValue)
    else c_power acc in
  (* Parse heart rate if available *)
  let heartRate :=
    match hrIndex with
    | Some hrIndex =>
        let hrValue := parseFloat (cell values hrIndex) in
        if negb (isNaN hrValue) && (hrValue >? 0)
        then push (c_heartRate acc) (Math_round hrValue)
        else push (c_heartRate acc) 0
    | None => c_heartRate acc
    end in
  (* Parse time if available *)
  let time :=
    match timeIndex with
    | Some timeIndex =>
        let timeValue := parseFloat (cell values timeIndex) in
        if negb (isNaN timeValue) then push (c_time acc) timeValue
        else c_time acc
    | None =>
        (* Generate time series (assume 1 second intervals) *)
        push (c_time acc) (of_nat (i - 1))
    end in
  {| c_power := power; c_heartRate := heartRate; c_time := time |}.

(** The rows [lines[1]], ..., [lines[lines.length - 1]] with their index. *)
Definition data_rows (lines : list string) : list (nat * string) :=
  combine (seq 1 (List.length lines - 1)) (tl lines).

Definition parseCSV (csvContent : string) : option ParsedData.t :=
  try_or_null (
    let lines := split newline (trim csvContent) in
    if (List.length lines <? 2)%nat then Ok None
    else
      let headers :=
        map (fun h => toLowerCase (trim h)) (split comma (nth 0 lines "")) in
      (* Find column indices *)
      let powerIndex :=
        findIndex (fun h => includes h "power" || includes h "watts"
                            || includes h "avg_power") headers in
      let hrIndex :=
        findIndex (fun h => includes h "heart" || includes h "hr"
                            || includes h "bpm") headers in
      let timeIndex :=
        findIndex (fun h => includes h "time" || includes h "elapsed"
                            || includes h "seconds") headers in
      match powerIndex with
      | None => Throw "No power column found in CSV"
      | Some powerIndex =>
          (* Parse data rows *)
          let cols :=
            fold_left (parseCSV_row powerIndex hrIndex timeIndex)
                      (data_rows lines) no_columns in
          if (List.length (c_power cols) =? 0)%nat
          then Throw "No valid power data found"
          else
            Ok (Some {| ParsedData.power := c_power cols;
                        ParsedData.heartRate :=
                          match hrIndex with
                          | Some _ => Some (c_heartRate cols)
                          | None => None
                          end;
                        ParsedData.speed := None;
                        ParsedData.distance := None;
                        ParsedData.elevation := None;
                        ParsedData.time := c_time cols |})
      end).

(** The body of the row loop of [parseTrainingPeaksCSV]. *)
Definition parseTrainingPeaksCSV_row (powerIndex : nat) (hrIndex : option nat)
    (acc : columns) (row : nat * string) : columns :=
  let '(i, line) := row in
  let values := split comma line in
  let powerValue := parseFloat (cell values powerIndex) in
  if negb (isNaN powerValue) && (powerValue >=? 0) then
    {| c_power := push (c_power acc) (Math_round powerValue);
       c_time := push (c_time acc) (of_nat (i - 1)); (* Assume 1-second intervals *)
       c_heartRate :=
         match hrIndex with
         | Some hrIndex =>
             let hrValue := parseFloat (cell values hrIndex) in
             push (c_heartRate acc)
                  (if negb (isNaN hrValue) && (hrValue >? 0)
                   then Math_round hrValue else 0)
         | None => c_heartRate acc
         end |}
  else acc.

(** Parse TrainingPeaks specific format. *)
Definition parseTrainingPeaksCSV (csvContent : string) : option ParsedData.t :=
  try_or_null (
    let lines := split newline (trim csvContent) in
    if (List.length lines <? 2)%nat then Ok None
    else
      (* TrainingPeaks often has specific headers *)
      let headers := map trim (split comma (nth 0 lines "")) in
      let powerIndex :=
        findIndex (fun h => includes (toLowerCase h) "power"
                            || includes (toLowerCase h) "watts"
                            || String.eqb h "Power (watts)") headers in
      let hrIndex :=
        findIndex (fun h => includes (toLowerCase h) "heart rate"
                            || includes (toLowerCase h) "hr"
                            || String.eqb h "Heart Rate (bpm)") headers in
      match powerIndex with
      | None =>
          (* Try generic CSV parser *)
          Ok (parseCSV csvContent)
      | Some powerIndex =>
          let cols :=
            fold_left (parseTrainingPeaksCSV_row powerIndex hrIndex)
                      (data_rows lines) no_columns in
          Ok (Some {| ParsedData.power := c_power cols;
                      ParsedData.heartRate :=
                        match hrIndex with
                        | Some _ => Some (c_heartRate cols)
                        | None => None
                        end;
                      ParsedData.speed := None;
                      ParsedData.distance := None;
                      ParsedData.elevation := None;
                      ParsedData.time := c_time cols |})
      end).

End CsvParser.

(** ** [src/components/PowerInputForm.tsx] *)

(** The arguments of a call of [onAnalyze]. *)
Module AnalyzeCall.
Record t := {
  powerData : list JS.number;
  heartRateData : option (list JS.number);
  riderWeight : option JS.number;
  segmentInfo : SegmentInfo.t;
  speedData : option (list JS.number);
  distanceData : option (list JS.number);
  elevationData : option (list JS.number)
}.
End AnalyzeCall.

Module Validation.
Record t := {
  isValid : bool;
  error : option string;
  processedData : option (list JS.number)
}.
End Validation.

Module PowerInputForm.

Import JS.
Local Open Scope string_scope.
Local Open Scope float_scope.
Import FtpAnalysis (* for the [>?] and [>=?] notations *).

Section Component.

(** The state of the component that the two functions read. *)
Variable duration : number.
Variable riderWeight : option number.

(** [Math.random()]: the numbers drawn, in the order of the calls; a function
    that draws is given the number of draws made so far and returns the
    number of draws made when it ends. *)
Variable random : nat -> number.

(** The answer of the user to the dialog of [confirm(...)], were it shown;
    the text of the dialog is not modelled. *)
Variable confirm : bool.

(** The loop [for (let i = 0; i < 60; i++) { ... expanded.push(...) }]. *)
Definition expand_minute (st : list number * nat) (minuteAvg : number)
  : list number * nat :=
  fold_left
    (fun (st : list number * nat) (_ : nat) =>
       let '(expanded, draws) := st in
       (* Add slight variation *)
       let variation := (random draws - 0.5) * 10 in
       (push expanded (Math_round (minuteAvg + variation)), S draws))
    (seq 0 60) st.

(** [values.forEach(minuteAvg => { ... })] on an empty [expanded]. *)
Definition expand (values : list number) (draws : nat) : list number * nat :=
  fold_left expand_minute values ([], draws).

(** [n === 1 ? '' : 's']. *)
Definition plural (n : number) : string := if n =? 1 then "" else "s".

(** The result, the alerts shown, and the number of draws made. *)
Definition validateManualData (values : list number) (draws : nat)
  : Validation.t * list string * nat :=
  let expectedMinutes := duration in
  let len := of_nat (List.length values) in
  (* Check if we have the exact number of minute values expected *)
  if len =? expectedMinutes then
    (* Perfect match - expand to seconds *)
    let '(expanded, draws) := expand values draws in
    ({| Validation.isValid := true;
        Validation.error := None;
        Validation.processedData := Some expanded |}, [], draws)
  (* Check if we have too many values *)
  else if len >? expectedMinutes then
    (* Truncate excess values from the end *)
    let truncatedValues := slice values 0 expectedMinutes in
    let '(expanded, draws) := expand truncatedValues draws in
    (* Show warning but proceed *)
    let excess := len - expectedMinutes in
    ({| Validation.isValid := true;
        Validation.error := None;
        Validation.processedData := Some expanded |},
     ["Too much data provided. You entered " ++ Number_toString len
      ++ " minute" ++ plural len ++ " of data for a "
      ++ Number_toString expectedMinutes ++ "-minute test. Truncated "
      ++ Number_toString excess ++ " excess value" ++ plural excess
      ++ " from the end."],
     draws)
  (* Not enough values *)
  else if len <? expectedMinutes then
    let missing := expectedMinutes - len in
    ({| Validation.isValid := false;
        Validation.error :=
          Some ("Not enough data for " ++ Number_toString expectedMinutes
                ++ "-minute test. You provided " ++ Number_toString len
                ++ " minute" ++ plural len ++ " of data, but need "
                ++ Number_toString expectedMinutes ++ " minutes. Missing "
                ++ Number_toString missing ++ " minute" ++ plural missing
                ++ " of data.");
        Validation.processedData := None |}, [], draws)
  else
    ({| Validation.isValid := false;
        Validation.error := Some "Invalid data format";
        Validation.processedData := None |}, [], draws).

(** [riderWeight || undefined]: zero and NaN count as no weight. *)
Definition or_undefined (w : option number) : option number :=
  match w with
  | Some x => if isNaN x || (x =? 0) then None else Some x
  | None => None
  end.

(** The call of [onAnalyze] that [handleDataAnalysis] makes; [None] when the
    window loop of [extractBestFTPSegment] does not end. *)
Definition handleDataAnalysis
    (powerData : list number) (heartRateData : option (list number))
    (showLongFileDialog : option bool)
    (speedData distanceData elevationData : option (list number))
  : option AnalyzeCall.t :=
  let showLongFileDialog :=
    match showLongFileDialog with Some b => b | None => true end in
  let dataLengthMinutes := of_nat (List.length powerData) / 60 in
  (* Use full data (either short file or user chose full analysis) *)
  let full :=
    let fullWorkoutInfo :=
      {| SegmentInfo.startTime := 0;
         SegmentInfo.duration := of_nat (List.length powerData);
         SegmentInfo.reason :=
           "Full " ++ Number_toString (Math_round dataLengthMinutes)
           ++ "-minute workout analyzed" |} in
    Some {| AnalyzeCall.powerData := powerData;
            AnalyzeCall.heartRateData := heartRateData;
            AnalyzeCall.riderWeight := or_undefined riderWeight;
            AnalyzeCall.segmentInfo := fullWorkoutInfo;
            AnalyzeCall.speedData := speedData;
            AnalyzeCall.distanceData := distanceData;
            AnalyzeCall.elevationData := elevationData |} in
  (* Check if this is a long workout file (more than 30 minutes) *)
  if (dataLengthMinutes >? 30) && showLongFileDialog then
    let userChoice := confirm in
    if userChoice then
      (* Extract best segment *)
      match extractBestFTPSegment powerData heartRateData (Some 20)
                                  None None None with
      | None => None
      | Some extracted =>
          Some {| AnalyzeCall.powerData := Segment.power extracted;
                  AnalyzeCall.heartRateData := Segment.heartRate extracted;
                  AnalyzeCall.riderWeight := or_undefined riderWeight;
                  AnalyzeCall.segmentInfo := Segment.segmentInfo extracted;
                  AnalyzeCall.speedData := speedData;
                  AnalyzeCall.distanceData := distanceData;
                  AnalyzeCall.elevationData := elevationData |}
      end
    else full
  else full.

End Component.

End PowerInputForm.

(** ** [src/App.tsx] *)

Module TestData.
Record t := {
  powerData : list JS.number;
  heartRateData : option (list JS.number);
  speedData : option (list JS.number);
  distanceData : option (list JS.number);
  elevationData : option (list JS.number);
  riderWeight : option JS.number;
  stats : Stats.t;
  pacing : PacingAnalysis.t;
  wattsPerKgStats : option WattsPerKgStats.t;
  heartRateStats : option HeartRateStats.t;
  timestamp : string;
  segmentInfo : option SegmentInfo.t
}.
End TestData.

Module App.

Import JS FtpAnalysis.
Local Open Scope string_scope.
Local Open Scope float_scope.

(** What [handleAnalyze] writes: the two state variables of the component,
    the test data whose JSON text is stored as [ftpTestData], and the hash of
    the URL. *)
Record page := {
  testData : option TestData.t;
  isAnalyzing : bool;
  stored : option TestData.t;
  hash : string
}.

Section Component.

Variable Math_pow : number -> number -> number.

(** [new Date().toISOString()] at the time the analysis runs. *)
Variable now : string.

(** The callback that [handleAnalyze] hands to [setTimeout]. *)
Definition analysis
    (powerData : list number) (heartRateData : option (list number))
    (riderWeight : option number) (segmentInfo : option SegmentInfo.t)
    (speedData distanceData elevationData : option (list number))
    (p : page) : result page :=
  stats <- calculateStats Math_pow powerData ;;
  pacing <- analyzePacing Math_pow powerData ;;
  let wattsPerKgStats :=
    match riderWeight with
    | Some w => if isNaN w || (w =? 0) then None
                else Some (calculateWattsPerKg stats w)
    | None => None
    end in
  let heartRateStats :=
    match heartRateData with
    | Some hr => Some (calculateHeartRateStats hr powerData)
    | None => None
    end in
  let newTestData :=
    {| TestData.powerData := powerData;
       TestData.heartRateData := heartRateData;
       TestData.speedData := speedData;
       TestData.distanceData := distanceData;
       TestData.elevationData := elevationData;
       TestData.riderWeight := riderWeight;
       TestData.stats := stats;
       TestData.pacing := pacing;
       TestData.wattsPerKgStats := wattsPerKgStats;
       TestData.heartRateStats := heartRateStats;
       TestData.timestamp := now;
       TestData.segmentInfo := segmentInfo |} in
  Ok {| testData := Some newTestData;
        isAnalyzing := false;
        (* Save to localStorage for persistence *)
        stored := Some newTestData;
        (* Update URL to results page *)
        hash := "#results" |}.

(** [handleAnalyze]: the page as it leaves it, and the callback it leaves to
    run later. *)
Definition handleAnalyze
    (powerData : list number) (heartRateData : option (list number))
    (riderWeight : option number) (segmentInfo : option SegmentInfo.t)
    (speedData distanceData elevationData : option (list number))
    (p : page) : page * (page -> result page) :=
  ({| testData := testData p;
      isAnalyzing := true;
      stored := stored p;
      hash := hash p |},
   analysis powerData heartRateData riderWeight segmentInfo
            speedData distanceData elevationData).

End Component.

End App.

(** ** Vocabulary of the specification *)

Module Notions.

Import JS FtpAnalysis CsvParser.
Local Open Scope float_scope.

(** A reference [Math.pow] for the three exponents the sources use, to
    evaluate the functions on concrete inputs. *)
Definition Math_pow_reference (x y : number) : number :=
  if y =? 2 then x * x
  else if y =? 4 then (x * x) * (x * x)
  else if y =? 0.25 then sqrt (sqrt x)
  else nan.

(** The quarters of a series and their averages. *)
Definition firstQuarter (xs : list number) : list number :=
  slice xs 0 (Math_floor (of_nat (List.length xs) / 4)).

Definition lastQuarter (xs : list number) : list number :=
  slice_from xs (Math_floor (of_nat (List.length xs) * 3 / 4)).

Definition firstQuarterAvgPower (power : list number) : number :=
  mean (firstQuarter power).

Definition lastQuarterAvgPower (power : list number) : number :=
  mean (lastQuarter power).

(** Quarter averages of the heart rate leave out the zero readings. *)
Definition firstQuarterAvgHR (hr : list number) : number :=
  mean (filter positive (firstQuarter hr)).

Definition lastQuarterAvgHR (hr : list number) : number :=
  mean (filter positive (lastQuarter hr)).

(** Rounding to 2 decimals: [parseFloat(x.toFixed(2))]. *)
Definition round2 (x : number) : number := parseFloat (toFixed x 2).

(** Each row's exclusive upper bound is the next row's inclusive lower bound,
    and the last row has no upper bound. *)
Fixpoint contiguous (gs : list PerformanceGrade.t) : Prop :=
  match gs with
  | [] => True
  | g :: rest =>
      match rest with
      | [] => PerformanceGrade.maxWattsPerKg g = None
      | h :: _ =>
          PerformanceGrade.maxWattsPerKg g = Some (PerformanceGrade.minWattsPerKg h)
          /\ contiguous rest
      end
  end.

Fixpoint percentile_ascending (gs : list PerformanceGrade.t) : Prop :=
  match gs with
  | [] => True
  | g :: rest =>
      match rest with
      | [] => True
      | h :: _ =>
          (PerformanceGrade.percentile g <? PerformanceGrade.percentile h) = true
          /\ percentile_ascending rest
      end
  end.

(** The result of [calculateStats] on 250, 255, 245, 260, 240. *)
Definition stats_238 : Stats.t :=
  {| Stats.average := 250; Stats.normalized := 250; Stats.max := 260;
     Stats.min := 240; Stats.variabilityIndex := "1.000"; Stats.stdDev := 7;
     Stats.classicFTP := 238; Stats.normalizedFTP := 238;
     Stats.intensityFactor := 1 |}.

(** [rows.join('\n')], the way the tests build their inputs. *)
Definition join_lines (rows : list string) : string :=
  String.concat (String newline EmptyString) rows.

(** The lines of a file and the cells of its header row, as both parsers
    split them. *)
Definition csv_lines (csvContent : string) : list string :=
  split newline (trim csvContent).

Definition header_cells (csvContent : string) : list string :=
  split comma (nth 0 (csv_lines csvContent) EmptyString).

(** A header cell that names the power column, whatever its case. *)
Definition names_power (h : string) : bool :=
  includes (toLowerCase h) "power"%string
  || includes (toLowerCase h) "watts"%string.

(** A header cell that names the time column of the generic parser. *)
Definition names_time (h : string) : bool :=
  includes (toLowerCase h) "time"%string
  || includes (toLowerCase h) "elapsed"%string
  || includes (toLowerCase h) "seconds"%string.

(** The column a parser reads the power from: the first header cell that
    names it; and the time column of the generic parser. *)
Definition power_column (csvContent : string) : option nat :=
  findIndex names_power (map trim (header_cells csvContent)).

Definition time_column (csvContent : string) : option nat :=
  findIndex names_time (map trim (header_cells csvContent)).

(** The data rows of a file: every line after the header row. *)
Definition csv_rows (csvContent : string) : list string :=
  tl (csv_lines csvContent).

(** The power value of a row, and the test that admits it. *)
Definition power_cell (powerIndex : nat) (line : string) : number :=
  parseFloat (cell (split comma line) powerIndex).

Definition valid_power (v : number) : bool :=
  negb (isNaN v) && (v >=? 0).

(** The numbers, from 0, of the data rows that hold a valid power value. *)
Definition valid_row_numbers (powerIndex : nat) (rows : list string) : list nat :=
  map fst
      (filter (fun r : nat * string => valid_power (power_cell powerIndex (snd r)))
              (combine (seq 0 (List.length rows)) rows)).

(** The series read so far have the length of the power series. *)
Definition aligned (hrIndex : option nat) (acc : columns) : Prop :=
  List.length (c_time acc) = List.length (c_power acc)
  /\ (hrIndex <> None ->
      List.length (c_heartRate acc) = List.length (c_power acc)).

(** The page after [handleAnalyze] and, later, its callback: [Throw] when
    the callback throws, which leaves the page as [handleAnalyze] left it. *)
Definition analysed (Math_pow : number -> number -> number) (now : string)
    (call : AnalyzeCall.t) (p : App.page) : result App.page :=
  let '(waiting, callback) :=
    App.handleAnalyze Math_pow now
      (AnalyzeCall.powerData call) (AnalyzeCall.heartRateData call)
      (AnalyzeCall.riderWeight call) (Some (AnalyzeCall.segmentInfo call))
      (AnalyzeCall.speedData call) (AnalyzeCall.distanceData call)
      (AnalyzeCall.elevationData call) p in
  callback waiting.

(** The window of [size] samples that starts at sample [start]. *)
Definition window {A} (size start : nat) (xs : list A) : list A :=
  firstn size (skipn start xs).


(** The second half of the rounding [binary_round_aux] of the library's
    specification of binary64, for a positive sign: fit the mantissa [m2] on
    53 bits, then tell zero, finite and overflow apart. *)
Definition finish (m2 e1 : Z) : spec_float :=
  let n2 := Z.max (Z.max (Zdigits2 m2 + e1 - 53) (-1074) - e1) 0 in
  match (m2 / 2 ^ n2)%Z with
  | Z0 => S754_zero false
  | Zpos p => if (e1 + n2 <=? 971)%Z then S754_finite false p (e1 + n2)
              else S754_infinity false
  | Zneg _ => S754_nan
  end.

(** The binary64 number that an integer of at most 53 bits is: a mantissa of
    53 bits with the exponent that goes with it. *)
Definition canonical (z : Z) : spec_float :=
  match z with
  | Z0 => S754_zero false
  | Zpos p =>
      S754_finite false (Z.to_pos (Zpos p * 2 ^ (53 - Zpos (digits2_pos p))))
                  (Zpos (digits2_pos p) - 53)
  | Zneg p =>
      S754_finite true (Z.to_pos (Zpos p * 2 ^ (53 - Zpos (digits2_pos p))))
                  (Zpos (digits2_pos p) - 53)
  end.

(** A shift record with nothing lost. *)
Definition exact_record (m : Z) : shr_record :=
  {| shr_m := m; shr_r := false; shr_s := false |}.

(** Zero or finite, on the specification side. *)
Definition SFfinite (x : spec_float) : Prop :=
  match x with
  | S754_zero _ | S754_finite _ _ _ => True
  | _ => False
  end.

(** 1.25 and 0.75 as mantissa and exponent. *)
Definition five_quarters : spec_float := S754_finite false 5629499534213120 (-52).
Definition three_quarters : spec_float := S754_finite false 6755399441055744 (-53).

End Notions.

(** * Properties *)

Module Binary64Facts.

(** Facts about binary64 arithmetic, from the specification of the primitive
    operations in the standard library. *)

Import JS Notions.
Local Open Scope Z_scope.

Lemma digits2_pos_size (p : positive) : digits2_pos p = Pos.size p.
Proof. induction p; cbn; congruence. Qed.

Lemma digits2_bounds (p : positive) :
  2 ^ (Zpos (digits2_pos p) - 1) <= Zpos p < 2 ^ Zpos (digits2_pos p).
Proof.
  rewrite digits2_pos_size. split.
  - pose proof (Pos.size_le p) as H.
    apply Pos2Z.pos_le_pos in H. rewrite Pos2Z.inj_pow in H.
    change (Zpos p~0) with (2 * Zpos p) in H.
    set (k := Zpos (Pos.size p)) in *.
    replace k with (Z.succ (k - 1)) in H by lia.
    rewrite Z.pow_succ_r in H by lia. lia.
  - pose proof (Pos.size_gt p) as H.
    apply Pos2Z.pos_lt_pos in H. rewrite Pos2Z.inj_pow in H. exact H.
Qed.

Lemma shr_1_m (mrs : shr_record) :
  0 <= shr_m mrs -> shr_m (shr_1 mrs) = shr_m mrs / 2.
Proof.
  destruct mrs as [m r s]; cbn [shr_m]. intros Hm.
  destruct m as [|p|p]; [reflexivity| |lia].
  destruct p as [p|p|]; cbn [shr_1 shr_m].
  - change (Zpos p~1) with (2 * Zpos p + 1). apply Z.div_unique with (r := 1); lia.
  - change (Zpos p~0) with (2 * Zpos p). apply Z.div_unique with (r := 0); lia.
  - reflexivity.
Qed.

Lemma iter_pos_shr_m (n : positive) (mrs : shr_record) :
  0 <= shr_m mrs ->
  shr_m (iter_pos shr_1 n mrs) = shr_m mrs / 2 ^ Zpos n.
Proof.
  revert mrs. induction n as [n IH|n IH|]; intros mrs Hm; cbn [iter_pos].
  - assert (H1 : 0 <= shr_m (shr_1 mrs)).
    { rewrite shr_1_m by exact Hm. apply Z.div_pos; lia. }
    assert (H2 : 0 <= shr_m (iter_pos shr_1 n (shr_1 mrs))).
    { rewrite IH by exact H1. apply Z.div_pos; [exact H1 | lia]. }
    rewrite IH by exact H2. rewrite IH by exact H1. rewrite shr_1_m by exact Hm.
    rewrite !Z.div_div by lia.
    f_equal. change (Zpos n~1) with (2 * Zpos n + 1).
    replace (2 * Zpos n + 1) with (1 + Zpos n + Zpos n) by lia.
    rewrite !Z.pow_add_r by lia. rewrite Z.pow_1_r. ring.
  - assert (H2 : 0 <= shr_m (iter_pos shr_1 n mrs)).
    { rewrite IH by exact Hm. apply Z.div_pos; [exact Hm | lia]. }
    rewrite IH by exact H2. rewrite IH by exact Hm.
    rewrite !Z.div_div by lia.
    f_equal. change (Zpos n~0) with (2 * Zpos n).
    replace (2 * Zpos n) with (Zpos n + Zpos n) by lia.
    rewrite Z.pow_add_r by lia. reflexivity.
  - apply shr_1_m, Hm.
Qed.

(** [shr]: the mantissa is divided by [2^n], the exponent grows by [n]. *)
Lemma shr_m_div (m : Z) (l : location) (e n : Z) :
  0 <= m ->
  shr_m (fst (shr (shr_record_of_loc m l) e n)) = m / 2 ^ Z.max n 0
  /\ snd (shr (shr_record_of_loc m l) e n) = e + Z.max n 0.
Proof.
  intros Hm.
  assert (Hrec : shr_m (shr_record_of_loc m l) = m).
  { destruct l as [|[| |]]; reflexivity. }
  destruct n as [|n|n]; cbn [shr fst snd].
  - rewrite Hrec. cbn. rewrite Z.div_1_r. lia.
  - rewrite iter_pos_shr_m by lia. rewrite Hrec.
    replace (Z.max (Zpos n) 0) with (Zpos n) by lia. split; reflexivity.
  - rewrite Hrec. replace (Z.max (Zneg n) 0) with 0 by lia.
    cbn. rewrite Z.div_1_r. lia.
Qed.

Lemma fexp64 (x : Z) : fexp prec emax x = Z.max (x - 53) (-1074).
Proof. reflexivity. Qed.

Lemma round_nearest_even_bounds (m : Z) (l : location) :
  m <= round_nearest_even m l <= m + 1.
Proof.
  destruct l as [|[| |]]; cbn [round_nearest_even]; try lia.
  destruct (Z.even m); lia.
Qed.

Lemma binary_round_aux_shape (M E : Z) (l : location) :
  0 <= M ->
  exists m2,
    let n1 := Z.max (Z.max (Zdigits2 M + E - 53) (-1074) - E) 0 in
    M / 2 ^ n1 <= m2 <= M / 2 ^ n1 + 1
    /\ binary_round_aux prec emax false M E l = finish m2 (E + n1).
Proof.
  intros HM. unfold binary_round_aux, shr_fexp. rewrite fexp64.
  set (n1 := Z.max (Zdigits2 M + E - 53) (-1074) - E).
  destruct (shr_m_div M l E n1 HM) as [Hm1 He1].
  destruct (shr (shr_record_of_loc M l) E n1) as [mrs1 e1].
  cbn [fst snd] in Hm1, He1.
  set (m2 := round_nearest_even (shr_m mrs1) (loc_of_shr_record mrs1)).
  exists m2. cbv zeta. fold n1.
  pose proof (round_nearest_even_bounds (shr_m mrs1) (loc_of_shr_record mrs1)) as Hb.
  fold m2 in Hb. rewrite Hm1 in Hb.
  split; [exact Hb|].
  assert (Hm2 : 0 <= m2).
  { assert (0 <= M / 2 ^ Z.max n1 0) by (apply Z.div_pos; lia). lia. }
  rewrite fexp64.
  set (n2 := Z.max (Zdigits2 m2 + e1 - 53) (-1074) - e1).
  destruct (shr_m_div m2 loc_Exact e1 n2 Hm2) as [Hm3 He3].
  destruct (shr (shr_record_of_loc m2 loc_Exact) e1 n2) as [mrs3 e3].
  cbn [fst snd] in Hm3, He3.
  unfold finish. rewrite <- He1. fold n2. rewrite Hm3, He3.
  reflexivity.
Qed.

Lemma Zdigits2_le (z k : Z) : 0 < z -> z < 2 ^ k -> Zdigits2 z <= k.
Proof.
  intros Hz Hk. destruct z as [|p|p]; try lia. cbn [Zdigits2].
  destruct (Z.le_gt_cases 0 k) as [Hk0|Hk0].
  - pose proof (digits2_bounds p) as [Hlo _].
    assert (H : 2 ^ (Zpos (digits2_pos p) - 1) < 2 ^ k) by lia.
    apply Z.pow_lt_mono_r_iff in H; lia.
  - rewrite Z.pow_neg_r in Hk by exact Hk0. lia.
Qed.

Lemma Zdigits2_gt (z k : Z) : 0 <= k -> 2 ^ k <= z -> k < Zdigits2 z.
Proof.
  intros Hk Hz.
  assert (0 < 2 ^ k) by (apply Z.pow_pos_nonneg; lia).
  destruct z as [|p|p]; try lia. cbn [Zdigits2].
  pose proof (digits2_bounds p) as [_ Hhi].
  assert (H' : 2 ^ k < 2 ^ Zpos (digits2_pos p)) by lia.
  apply Z.pow_lt_mono_r_iff in H'; lia.
Qed.

Lemma SFleb_finite (m p : positive) (e e' : Z) :
  e < e' \/ (e = e' /\ Zpos m <= Zpos p) ->
  SFleb (S754_finite false m e) (S754_finite false p e') = true.
Proof.
  intros H. unfold SFleb, SFcompare.
  destruct (Z.compare_spec e e') as [Heq|Hlt|Hgt]; [|reflexivity|lia].
  destruct H as [H|[_ H]]; [lia|].
  change (Pos.compare_cont Eq m p) with (Pos.compare m p).
  destruct (Pos.compare_spec m p); try reflexivity. lia.
Qed.

(** What the value of [finish m2 e1] is compared with [m * 2^e]. *)
Lemma finish_ge (m : positive) (e m2 e1 : Z) :
  -1074 <= e1 ->
  0 < m2 ->
  e < e1 \/ (e = e1 /\ Zpos m <= m2) ->
  SFleb (S754_finite false m e) (finish m2 e1) = true.
Proof.
  intros He1 Hm2 Hord. unfold finish.
  set (dm2 := Zdigits2 m2).
  assert (Hd : 2 ^ (dm2 - 1) <= m2 < 2 ^ dm2).
  { subst dm2. destruct m2 as [|p|p]; try lia. apply digits2_bounds. }
  assert (Hdpos : 0 < dm2).
  { subst dm2. destruct m2 as [|p|p]; cbn; lia. }
  destruct (Z.le_gt_cases dm2 53) as [Hle|Hgt].
  - replace (Z.max (Z.max (dm2 + e1 - 53) (-1074) - e1) 0) with 0 by lia.
    rewrite Z.pow_0_r, Z.div_1_r, Z.add_0_r.
    destruct m2 as [|p|p]; try lia.
    destruct (e1 <=? 971); [|reflexivity].
    apply SFleb_finite. exact Hord.
  - replace (Z.max (Z.max (dm2 + e1 - 53) (-1074) - e1) 0) with (dm2 - 53) by lia.
    assert (Hq : 2 ^ 52 <= m2 / 2 ^ (dm2 - 53)).
    { apply Z.div_le_lower_bound; [apply Z.pow_pos_nonneg; lia|].
      rewrite <- Z.pow_add_r by lia.
      replace (dm2 - 53 + 52) with (dm2 - 1) by lia. apply Hd. }
    change (2 ^ 52) with 4503599627370496 in Hq.
    destruct (m2 / 2 ^ (dm2 - 53)) as [|q|q]; try lia.
    destruct (e1 + (dm2 - 53) <=? 971); [|reflexivity].
    apply SFleb_finite. lia.
Qed.

Lemma valid_finite (m : positive) (e : Z) :
  valid_binary (S754_finite false m e) = true ->
  Z.max (Zpos (digits2_pos m) + e - 53) (-1074) = e /\ e <= 971.
Proof.
  cbn [valid_binary]. unfold bounded, canonical_mantissa.
  intros H. apply andb_true_iff in H. destruct H as [Hc Hb].
  apply Z.eqb_eq in Hc. apply Z.leb_le in Hb. rewrite fexp64 in Hc.
  split; [exact Hc | exact Hb].
Qed.

(** The product of a mantissa and a 53-bit constant has 52 or 53 more bits. *)
Lemma digits_mul_53 (m c : positive) :
  2 ^ 52 <= Zpos c < 2 ^ 53 ->
  Zpos (digits2_pos m) + 52 <= Zdigits2 (Zpos (m * c))
                            <= Zpos (digits2_pos m) + 53.
Proof.
  intros Hc. pose proof (digits2_bounds m) as Hd.
  set (d := Zpos (digits2_pos m)) in *.
  assert (Hdpos : 0 < d) by (subst d; lia).
  rewrite Pos2Z.inj_mul.
  change (2 ^ 52) with 4503599627370496 in Hc.
  change (2 ^ 53) with 9007199254740992 in Hc.
  split.
  - assert (H : d + 51 < Zdigits2 (Zpos m * Zpos c)); [|lia].
    apply Zdigits2_gt; [lia|].
    replace (d + 51) with ((d - 1) + 52) by lia.
    rewrite Z.pow_add_r by lia.
    change (2 ^ 52) with 4503599627370496. nia.
  - apply Zdigits2_le; [lia|].
    rewrite Z.pow_add_r by lia.
    change (2 ^ 53) with 9007199254740992. nia.
Qed.

Lemma finish_small (m2 e1 : Z) :
  -1074 <= e1 -> 0 <= m2 < 2 ^ 53 ->
  finish m2 e1 =
  match m2 with
  | Z0 => S754_zero false
  | Zpos p => if e1 <=? 971 then S754_finite false p e1 else S754_infinity false
  | Zneg _ => S754_nan
  end.
Proof.
  intros He1 Hm2. unfold finish.
  assert (Hd : Zdigits2 m2 <= 53).
  { destruct m2 as [|p|p]; [cbn; lia | apply Zdigits2_le; lia | lia]. }
  replace (Z.max (Z.max (Zdigits2 m2 + e1 - 53) (-1074) - e1) 0) with 0 by lia.
  rewrite Z.pow_0_r, Z.div_1_r, Z.add_0_r. reflexivity.
Qed.

Lemma finish_carry (e1 : Z) :
  -1074 <= e1 ->
  finish (2 ^ 53) e1 =
  if e1 + 1 <=? 971 then S754_finite false 4503599627370496 (e1 + 1)
  else S754_infinity false.
Proof.
  intros He1. unfold finish.
  change (Zdigits2 (2 ^ 53)) with 54.
  replace (Z.max (Z.max (54 + e1 - 53) (-1074) - e1) 0) with 1 by lia.
  reflexivity.
Qed.

Lemma SFmul_five_quarters_ge (m : positive) (e : Z) :
  valid_binary (S754_finite false m e) = true ->
  SFleb (S754_finite false m e)
        (SFmul prec emax (S754_finite false m e) five_quarters) = true.
Proof.
  intros Hv. destruct (valid_finite m e Hv) as [Hc Hb].
  unfold five_quarters. cbn [SFmul xorb].
  destruct (binary_round_aux_shape (Zpos (m * 5629499534213120)) (e + -52) loc_Exact)
    as [m2 [Hm2 Heq]]; [lia|].
  rewrite Heq. clear Heq.
  pose proof (digits_mul_53 m 5629499534213120) as HdM.
  pose proof (digits2_bounds m) as Hd.
  pose proof (digits2_bounds (m * 5629499534213120)) as HM.
  change (Zpos (digits2_pos (m * 5629499534213120)))
    with (Zdigits2 (Zpos (m * 5629499534213120))) in HM.
  set (d := Zpos (digits2_pos m)) in *.
  set (M := Zpos (m * 5629499534213120)) in *.
  set (dM := Zdigits2 M) in *.
  assert (HMeq : M = Zpos m * 5629499534213120) by (subst M; apply Pos2Z.inj_mul).
  assert (HdM' : d + 52 <= dM <= d + 53) by (apply HdM; cbn; lia).
  clear HdM.
  set (n1 := Z.max (Z.max (dM + (e + -52) - 53) (-1074) - (e + -52)) 0) in *.
  assert (Hn1 : (n1 = 52) \/ (n1 = 53 /\ dM = 106)) by lia.
  apply finish_ge; [lia| |].
  - destruct Hn1 as [Hn1|[Hn1 HdM]]; rewrite Hn1 in Hm2.
    + assert (Zpos m <= M / 2 ^ 52); [|lia].
      apply Z.div_le_lower_bound; [reflexivity|].
      change (2 ^ 52) with 4503599627370496. lia.
    + assert (2 ^ 52 <= M / 2 ^ 53); [|change (2 ^ 52) with 4503599627370496 in *; lia].
      apply Z.div_le_lower_bound; [reflexivity|].
      rewrite HdM in HM. change (2 ^ (106 - 1)) with (2 ^ 53 * 2 ^ 52) in HM. lia.
  - destruct Hn1 as [Hn1|[Hn1 HdM]]; rewrite Hn1 in Hm2 |- *.
    + right. split; [lia|].
      assert (Zpos m <= M / 2 ^ 52); [|lia].
      apply Z.div_le_lower_bound; [reflexivity|].
      change (2 ^ 52) with 4503599627370496. lia.
    + left. lia.
Qed.

Lemma SFleb_finish_small (m : positive) (e m2 e1 : Z) :
  e <= 971 -> -1074 <= e1 -> 0 <= m2 < 2 ^ 53 ->
  e1 < e \/ (e1 = e /\ m2 <= Zpos m) ->
  SFleb (finish m2 e1) (S754_finite false m e) = true.
Proof.
  intros He He1 Hm2 Hord. rewrite finish_small by assumption.
  destruct m2 as [|p|p]; [reflexivity| |lia].
  replace (e1 <=? 971) with true by (symmetry; apply Z.leb_le; lia).
  apply SFleb_finite. lia.
Qed.

Lemma SFmul_three_quarters_le (m : positive) (e : Z) :
  valid_binary (S754_finite false m e) = true ->
  SFleb (SFmul prec emax (S754_finite false m e) three_quarters)
        (S754_finite false m e) = true.
Proof.
  intros Hv. destruct (valid_finite m e Hv) as [Hc Hb].
  unfold three_quarters. cbn [SFmul xorb].
  destruct (binary_round_aux_shape (Zpos (m * 6755399441055744)) (e + -53) loc_Exact)
    as [m2 [Hm2 Heq]]; [lia|].
  rewrite Heq. clear Heq.
  pose proof (digits_mul_53 m 6755399441055744) as HdM.
  pose proof (digits2_bounds m) as Hd.
  pose proof (digits2_bounds (m * 6755399441055744)) as HM.
  change (Zpos (digits2_pos (m * 6755399441055744)))
    with (Zdigits2 (Zpos (m * 6755399441055744))) in HM.
  set (d := Zpos (digits2_pos m)) in *.
  set (M := Zpos (m * 6755399441055744)) in *.
  set (dM := Zdigits2 M) in *.
  assert (HMeq : M = Zpos m * 6755399441055744) by (subst M; apply Pos2Z.inj_mul).
  assert (HdM' : d + 52 <= dM <= d + 53) by (apply HdM; cbn; lia).
  clear HdM.
  assert (Hd53 : Zpos m < 2 ^ 53).
  { apply Z.lt_le_trans with (2 ^ d); [apply Hd|].
    apply Z.pow_le_mono_r; lia. }
  change (2 ^ 53) with 9007199254740992 in Hd53.
  set (n1 := Z.max (Z.max (dM + (e + -53) - 53) (-1074) - (e + -53)) 0) in *.
  assert (Hn1 : (n1 = 53) \/ (n1 = 52 /\ dM = 105 /\ d = 53)) by lia.
  assert (Hq0 : 0 <= M / 2 ^ n1) by (apply Z.div_pos; [lia | apply Z.pow_pos_nonneg; lia]).
  destruct Hn1 as [Hn1|[Hn1 [HdM Hd']]]; rewrite Hn1 in Hm2, Hq0 |- *.
  - (* the quotient is below the mantissa *)
    assert (Hq : M / 2 ^ 53 < Zpos m).
    { apply Z.div_lt_upper_bound; [reflexivity|].
      change (2 ^ 53) with 9007199254740992. lia. }
    apply SFleb_finish_small; [lia|lia| |right].
    + change (2 ^ 53) with 9007199254740992. lia.
    + split; lia.
  - (* one more bit is kept and the exponent is one less *)
    rewrite HdM in HM. rewrite Hd' in Hd.
    assert (Hq : M / 2 ^ 52 < 2 ^ 53).
    { apply Z.div_lt_upper_bound; [reflexivity|].
      change (2 ^ 52 * 2 ^ 53) with (2 ^ 105). apply HM. }
    destruct (Z.eq_dec m2 (2 ^ 53)) as [Hcarry|Hno].
    + rewrite Hcarry, finish_carry by lia.
      replace (e + -53 + 52 + 1) with e by lia.
      replace (e <=? 971) with true by (symmetry; apply Z.leb_le; lia).
      apply SFleb_finite. right. split; [reflexivity|].
      change (2 ^ (53 - 1)) with 4503599627370496 in Hd. lia.
    + apply SFleb_finish_small; [lia|lia| |left; lia].
      lia.
Qed.

Lemma finish_nonneg (m2 e1 : Z) :
  0 <= m2 -> SFleb (S754_zero false) (finish m2 e1) = true.
Proof.
  intros Hm2. unfold finish.
  set (n2 := Z.max _ 0).
  assert (Hq : 0 <= m2 / 2 ^ n2).
  { apply Z.div_pos; [exact Hm2 | apply Z.pow_pos_nonneg; lia]. }
  destruct (m2 / 2 ^ n2) as [|q|q]; [reflexivity| |lia].
  destruct (_ <=? 971)%Z; reflexivity.
Qed.

(** *** No NaN out of finite numbers *)

Lemma binary_round_aux_not_nan (sx : bool) (M E : Z) (l : location) :
  0 <= M -> binary_round_aux prec emax sx M E l <> S754_nan.
Proof.
  intros HM. unfold binary_round_aux, shr_fexp.
  set (n1 := fexp prec emax (Zdigits2 M + E) - E).
  destruct (shr_m_div M l E n1 HM) as [Hm1 _].
  destruct (shr (shr_record_of_loc M l) E n1) as [mrs1 e1].
  cbn [fst] in Hm1.
  set (m2 := round_nearest_even (shr_m mrs1) (loc_of_shr_record mrs1)).
  assert (Hm2 : 0 <= m2).
  { pose proof (round_nearest_even_bounds (shr_m mrs1) (loc_of_shr_record mrs1)).
    assert (0 <= M / 2 ^ Z.max n1 0) by (apply Z.div_pos; lia).
    subst m2. lia. }
  set (n2 := fexp prec emax (Zdigits2 m2 + e1) - e1).
  destruct (shr_m_div m2 loc_Exact e1 n2 Hm2) as [Hm3 _].
  destruct (shr (shr_record_of_loc m2 loc_Exact) e1 n2) as [mrs3 e3].
  cbn [fst] in Hm3.
  assert (Hq : 0 <= shr_m mrs3).
  { rewrite Hm3. apply Z.div_pos; lia. }
  destruct (shr_m mrs3) as [|q|q]; [discriminate| |lia].
  destruct (e3 <=? emax - prec); discriminate.
Qed.

Lemma binary_round_not_nan (sx : bool) (m : positive) (e : Z) :
  binary_round prec emax sx m e <> S754_nan.
Proof.
  unfold binary_round. destruct (shl_align m e _) as [mz ez].
  apply binary_round_aux_not_nan. lia.
Qed.

Lemma binary_normalize_not_nan (z e : Z) (s : bool) :
  binary_normalize prec emax z e s <> S754_nan.
Proof.
  destruct z; cbn [binary_normalize];
    [discriminate | apply binary_round_not_nan | apply binary_round_not_nan].
Qed.

Lemma SFadd_not_nan (x y : spec_float) :
  x <> S754_nan -> SFfinite y -> SFadd prec emax x y <> S754_nan.
Proof.
  intros Hx Hy.
  destruct x as [sx|sx| |sx mx ex]; destruct y as [sy|sy| |sy my ey];
    try contradiction; cbn [SFadd]; try discriminate.
  - destruct sx, sy; discriminate.
  - apply binary_normalize_not_nan.
Qed.

Lemma SFdiv_not_nan (x : spec_float) (s : bool) (m : positive) (e : Z) :
  x <> S754_nan -> SFdiv prec emax x (S754_finite s m e) <> S754_nan.
Proof.
  intros Hx. destruct x as [sx|sx| |sx mx ex]; try contradiction;
    cbn [SFdiv]; try discriminate.
  unfold SFdiv_core_binary.
  set (m' := match _ with Zpos _ => _ | Z0 => _ | Zneg _ => _ end).
  assert (Hm' : 0 <= m').
  { subst m'. destruct (_ - _ - _); try lia. apply Z.shiftl_nonneg. lia. }
  pose proof (Z.div_pos m' (Zpos m) Hm' ltac:(lia)) as Hq.
  unfold Z.div in Hq. destruct (Z.div_eucl m' (Zpos m)) as [q r].
  apply binary_round_aux_not_nan. exact Hq.
Qed.

Local Open Scope float_scope.

Lemma Prim2SF_five_quarters : Prim2SF 1.25 = five_quarters.
Proof. reflexivity. Qed.

Lemma Prim2SF_three_quarters : Prim2SF 0.75 = three_quarters.
Proof. reflexivity. Qed.

(** A number that is not below zero is not above its product by 1.25 and not
    below its product by 0.75. *)
Lemma within_a_quarter (x : float) :
  (0 <=? x) = true ->
  (x <=? x * 1.25) = true /\ (x * 0.75 <=? x) = true.
Proof.
  intros H0. rewrite leb_spec in H0.
  rewrite !leb_spec, !mul_spec, Prim2SF_five_quarters, Prim2SF_three_quarters.
  pose proof (Prim2SF_valid x) as Hv.
  destruct (Prim2SF x) as [s|s| |s m e].
  - destruct s; split; reflexivity.
  - destruct s; [discriminate H0 | split; reflexivity].
  - discriminate H0.
  - destruct s; [discriminate H0|].
    split; [apply SFmul_five_quarters_ge | apply SFmul_three_quarters_le]; exact Hv.
Qed.

Lemma of_nat_nonneg (n : nat) : (0 <=? of_nat n) = true.
Proof.
  unfold of_nat. rewrite leb_spec, of_uint63_spec.
  change (Prim2SF 0) with (S754_zero false).
  pose proof (Uint63.to_Z_bounded (Uint63.of_Z (Z.of_nat n))) as Hb.
  destruct (Uint63.to_Z (Uint63.of_Z (Z.of_nat n))) as [|p|p]; [reflexivity| |lia].
  cbn [binary_normalize]. unfold binary_round.
  destruct (shl_align p 0 _) as [mz ez].
  destruct (binary_round_aux_shape (Zpos mz) ez loc_Exact) as [m2 [Hm2 Heq]]; [lia|].
  rewrite Heq. apply finish_nonneg.
  cbv zeta in Hm2.
  set (q := (Zpos mz / _)%Z) in Hm2.
  assert (0 <= q)%Z by (apply Z.div_pos; [lia | apply Z.pow_pos_nonneg; lia]).
  lia.
Qed.

Lemma is_nan_false (x : float) : Prim2SF x <> S754_nan -> is_nan x = false.
Proof.
  intros H. unfold is_nan. rewrite eqb_spec. unfold SFeqb, SFcompare.
  destruct (Prim2SF x) as [s|s| |s m e]; try contradiction; try reflexivity.
  - destruct s; reflexivity.
  - destruct s; rewrite Z.compare_refl;
      change (Pos.compare_cont Eq m m) with (Pos.compare m m);
      rewrite Pos.compare_refl; reflexivity.
Qed.

Lemma is_finite_SFfinite (x : float) : is_finite x = true -> SFfinite (Prim2SF x).
Proof.
  unfold is_finite, is_nan, is_infinity.
  rewrite !eqb_spec, abs_spec.
  change (Prim2SF infinity) with (S754_infinity false).
  destruct (Prim2SF x) as [s|s| |s m e]; cbn [SFfinite]; try exact (fun _ => I);
    unfold SFeqb, SFcompare, SFabs; intros H; try discriminate H.
  destruct s; discriminate H.
Qed.

Lemma sum_not_nan (xs : list float) (acc : float) :
  Prim2SF acc <> S754_nan ->
  Forall (fun x => is_finite x = true) xs ->
  Prim2SF (fold_left add xs acc) <> S754_nan.
Proof.
  intros Hacc Hxs. revert acc Hacc.
  induction Hxs as [|x xs Hx _ IH]; intros acc Hacc; cbn [fold_left].
  - exact Hacc.
  - apply IH. rewrite add_spec.
    apply SFadd_not_nan; [exact Hacc | apply is_finite_SFfinite, Hx].
Qed.

Lemma SFopp_not_nan (x : spec_float) : x <> S754_nan -> SFopp x <> S754_nan.
Proof. destruct x; cbn; congruence. Qed.

Lemma SF2Prim_not_nan (r : spec_float) :
  r <> S754_nan -> Prim2SF (SF2Prim r) <> S754_nan.
Proof.
  intros Hr. destruct r as [s|s| |s m e]; try contradiction.
  - destruct s; discriminate.
  - destruct s; discriminate.
  - unfold SF2Prim.
    assert (H : Prim2SF (Z.ldexp (of_uint63 (Uint63.of_Z (Zpos m))) e) <> S754_nan).
    { rewrite Z_ldexp_spec, of_uint63_spec. unfold SFldexp.
      pose proof (binary_normalize_not_nan
                    (Uint63.to_Z (Uint63.of_Z (Zpos m))) 0 false) as Hn.
      destruct (binary_normalize _ _ _ _ _) as [s'|s'| |s' m' e'];
        try discriminate; try contradiction.
      apply binary_round_not_nan. }
    destruct s; [rewrite opp_spec; apply SFopp_not_nan|]; exact H.
Qed.

Lemma of_Z_not_nan (z : Z) : Prim2SF (of_Z z) <> S754_nan.
Proof. apply SF2Prim_not_nan, binary_normalize_not_nan. Qed.

Lemma of_nat_small_finite (k : nat) :
  (0 < k < 30)%nat -> exists m e, Prim2SF (of_nat k) = S754_finite false m e.
Proof.
  intros H.
  do 30 (destruct k as [|k]; [try lia; vm_compute; eauto|]).
  lia.
Qed.

(** Nothing that is at least zero is below a negative number, or compares
    with NaN. *)
Lemma not_leb_negative (lo x : float) :
  (0 <=? lo) = true -> (x <? 0) = true -> (lo <=? x) = false.
Proof.
  rewrite !leb_spec, ltb_spec. change (Prim2SF 0) with (S754_zero false).
  destruct (Prim2SF lo) as [sl|sl| |sl ml el];
    destruct (Prim2SF x) as [s|s| |s m e];
    try discriminate; try reflexivity;
    destruct sl; try discriminate; destruct s; try discriminate; reflexivity.
Qed.

Lemma is_nan_true (x : float) : is_nan x = true -> Prim2SF x = S754_nan.
Proof.
  intros H. destruct (Prim2SF x) as [s|s| |s m e] eqn:E; try reflexivity;
    rewrite is_nan_false in H by (rewrite E; discriminate); discriminate H.
Qed.

Lemma not_leb_nan (lo x : float) : is_nan x = true -> (lo <=? x) = false.
Proof.
  intros H. rewrite leb_spec, (is_nan_true x H).
  destruct (Prim2SF lo) as [s|s| |s m e]; reflexivity.
Qed.

(** Two numbers that compare equal are the same number, or are both zeros. *)
Lemma eqb_true_cases (x y : float) :
  (x =? y) = true ->
  x = y \/ ((x = 0 \/ x = -0) /\ (y = 0 \/ y = -0)).
Proof.
  rewrite eqb_spec. unfold SFeqb, SFcompare. intros H.
  pose proof (SF2Prim_Prim2SF x) as Hx. pose proof (SF2Prim_Prim2SF y) as Hy.
  destruct (Prim2SF x) as [sx|sx| |sx mx ex] eqn:Ex;
    destruct (Prim2SF y) as [sy|sy| |sy my ey] eqn:Ey;
    try discriminate H;
    try (destruct sx; discriminate H);
    try (destruct sy; discriminate H).
  - right. rewrite <- Hx, <- Hy. destruct sx, sy; cbn; auto.
  - left. apply Prim2SF_inj. rewrite Ex, Ey.
    destruct sx, sy; try discriminate H; reflexivity.
  - left. apply Prim2SF_inj. rewrite Ex, Ey.
    destruct sx, sy; try discriminate H;
      destruct (Z.compare_spec ex ey) as [He| |]; try discriminate H;
      change (Pos.compare_cont Eq mx my) with (Pos.compare mx my) in H;
      destruct (Pos.compare_spec mx my) as [Hm| |]; try discriminate H;
      subst; reflexivity.
Qed.

(** A length that equals the target is within a quarter of it. *)
Lemma close_to_target (len targetSeconds : float) :
  (0 <=? len) = true ->
  (targetSeconds =? len) = true ->
  (len <=? targetSeconds * 1.25) && (targetSeconds * 0.75 <=? len) = true.
Proof.
  intros Hlen Heq.
  destruct (eqb_true_cases _ _ Heq) as [->|[[->| ->] [->| ->]]];
    try reflexivity.
  destruct (within_a_quarter len Hlen) as [H1 H2].
  rewrite H1, H2. reflexivity.
Qed.

End Binary64Facts.

Module OrderFacts.
(** The order of binary64 numbers, from the comparison of the standard
    library's specification. *)

Import JS Notions Binary64Facts.

Ltac order_cases :=
  repeat match goal with
         | H : context [(?a ?= ?b)%Z] |- _ => destruct (Z.compare_spec a b)
         | |- context [(?a ?= ?b)%Z] => destruct (Z.compare_spec a b)
         | H : context [Pos.compare_cont Eq ?a ?b] |- _ =>
             change (Pos.compare_cont Eq a b) with (Pos.compare a b) in *;
             destruct (Pos.compare_spec a b)
         | |- context [Pos.compare_cont Eq ?a ?b] =>
             change (Pos.compare_cont Eq a b) with (Pos.compare a b) in *;
             destruct (Pos.compare_spec a b)
         end.

Lemma SFcompare_antisym (x y : spec_float) :
  SFcompare y x = option_map CompOpp (SFcompare x y).
Proof.
  destruct x as [sx|sx| |sx mx ex], y as [sy|sy| |sy my ey]; cbn;
    try reflexivity;
    try (destruct sx; reflexivity); try (destruct sy; reflexivity);
    try (destruct sx, sy; reflexivity).
  destruct sx, sy; cbn; try reflexivity;
    rewrite (Z.compare_antisym ex ey);
    destruct (ex ?= ey)%Z; cbn; try reflexivity;
    change (Pos.compare_cont Eq my mx) with (Pos.compare my mx);
    change (Pos.compare_cont Eq mx my) with (Pos.compare mx my);
    rewrite (Pos.compare_antisym mx my); destruct (mx ?= my)%positive; reflexivity.
Qed.

Lemma SFcompare_some (x y : spec_float) :
  x <> S754_nan -> y <> S754_nan -> exists c, SFcompare x y = Some c.
Proof.
  intros Hx Hy.
  destruct x as [sx|sx| |sx mx ex], y as [sy|sy| |sy my ey]; cbn;
    try contradiction; eauto.
Qed.

Lemma SFleb_trans (x y z : spec_float) :
  SFleb x y = true -> SFleb y z = true -> SFleb x z = true.
Proof.
  unfold SFleb, SFcompare.
  destruct x as [sx|sx| |sx mx ex], y as [sy|sy| |sy my ey],
    z as [sz|sz| |sz mz ez];
    try discriminate; try reflexivity;
    try (destruct sx; try discriminate; try reflexivity);
    try (destruct sy; try discriminate; try reflexivity);
    try (destruct sz; try discriminate; try reflexivity).
  all: intros H1 H2; order_cases; try discriminate; try reflexivity; try lia.
Qed.

Lemma SFltb_leb_trans (x y z : spec_float) :
  SFltb x y = true -> SFleb y z = true -> SFltb x z = true.
Proof.
  unfold SFleb, SFltb, SFcompare.
  destruct x as [sx|sx| |sx mx ex], y as [sy|sy| |sy my ey],
    z as [sz|sz| |sz mz ez];
    try discriminate; try reflexivity;
    try (destruct sx; try discriminate; try reflexivity);
    try (destruct sy; try discriminate; try reflexivity);
    try (destruct sz; try discriminate; try reflexivity).
  all: intros H1 H2; order_cases; try discriminate; try reflexivity; try lia.
Qed.

Lemma SFleb_ltb_trans (x y z : spec_float) :
  SFleb x y = true -> SFltb y z = true -> SFltb x z = true.
Proof.
  unfold SFleb, SFltb, SFcompare.
  destruct x as [sx|sx| |sx mx ex], y as [sy|sy| |sy my ey],
    z as [sz|sz| |sz mz ez];
    try discriminate; try reflexivity;
    try (destruct sx; try discriminate; try reflexivity);
    try (destruct sy; try discriminate; try reflexivity);
    try (destruct sz; try discriminate; try reflexivity).
  all: intros H1 H2; order_cases; try discriminate; try reflexivity; try lia.
Qed.

Local Open Scope float_scope.

Lemma not_nan_Prim2SF (x : float) : is_nan x = false -> Prim2SF x <> S754_nan.
Proof.
  intros H E. unfold is_nan in H. rewrite eqb_spec, E in H. discriminate H.
Qed.

Lemma leb_refl (x : float) : is_nan x = false -> (x <=? x) = true.
Proof.
  intros H. apply not_nan_Prim2SF in H. rewrite leb_spec.
  unfold SFleb, SFcompare.
  destruct (Prim2SF x) as [s|s| |s m e]; try contradiction; try reflexivity;
    destruct s; try reflexivity;
    rewrite Z.compare_refl;
    change (Pos.compare_cont Eq m m) with (Pos.compare m m);
    rewrite Pos.compare_refl; reflexivity.
Qed.

Lemma leb_trans (x y z : float) :
  (x <=? y) = true -> (y <=? z) = true -> (x <=? z) = true.
Proof. rewrite !leb_spec. apply SFleb_trans. Qed.

Lemma ltb_leb_trans (x y z : float) :
  (x <? y) = true -> (y <=? z) = true -> (x <? z) = true.
Proof. rewrite !ltb_spec, leb_spec. apply SFltb_leb_trans. Qed.

Lemma leb_ltb_trans (x y z : float) :
  (x <=? y) = true -> (y <? z) = true -> (x <? z) = true.
Proof. rewrite !ltb_spec, leb_spec. apply SFleb_ltb_trans. Qed.

(** Of two numbers, neither of them NaN, one is below the other or they
    compare equal. *)
Lemma ltb_false_leb (x y : float) :
  is_nan x = false -> is_nan y = false -> (x <? y) = false -> (y <=? x) = true.
Proof.
  intros Hx Hy. rewrite ltb_spec, leb_spec. unfold SFltb, SFleb.
  rewrite (SFcompare_antisym (Prim2SF x) (Prim2SF y)).
  destruct (SFcompare_some _ _ (not_nan_Prim2SF x Hx) (not_nan_Prim2SF y Hy))
    as [c ->].
  destruct c; cbn; congruence.
Qed.

Lemma leb_false_ltb (x y : float) :
  is_nan x = false -> is_nan y = false -> (x <=? y) = false -> (y <? x) = true.
Proof.
  intros Hx Hy. rewrite ltb_spec, leb_spec. unfold SFltb, SFleb.
  rewrite (SFcompare_antisym (Prim2SF x) (Prim2SF y)).
  destruct (SFcompare_some _ _ (not_nan_Prim2SF x Hx) (not_nan_Prim2SF y Hy))
    as [c ->].
  destruct c; cbn; congruence.
Qed.

Lemma ltb_true_not_nan (x y : float) :
  (x <? y) = true -> is_nan x = false /\ is_nan y = false.
Proof.
  rewrite ltb_spec. intros H.
  split; apply is_nan_false; intros E; rewrite E in H;
    [|destruct (Prim2SF x)]; discriminate H.
Qed.

Lemma leb_true_not_nan (x y : float) :
  (x <=? y) = true -> is_nan x = false /\ is_nan y = false.
Proof.
  rewrite leb_spec. intros H.
  split; apply is_nan_false; intros E; rewrite E in H;
    [|destruct (Prim2SF x)]; discriminate H.
Qed.

Lemma ltb_asym (x y : float) : (x <? y) = true -> (y <? x) = false.
Proof.
  rewrite !ltb_spec. unfold SFltb.
  rewrite (SFcompare_antisym (Prim2SF x) (Prim2SF y)).
  destruct (SFcompare (Prim2SF x) (Prim2SF y)) as [[]|]; cbn; congruence.
Qed.

Lemma ltb_leb (x y : float) : (x <? y) = true -> (x <=? y) = true.
Proof.
  rewrite ltb_spec, leb_spec. unfold SFltb, SFleb.
  destruct (SFcompare (Prim2SF x) (Prim2SF y)) as [[]|]; cbn; congruence.
Qed.

Lemma ltb_not_leb (x y : float) : (x <? y) = true -> (y <=? x) = false.
Proof.
  rewrite ltb_spec, leb_spec. unfold SFltb, SFleb.
  rewrite (SFcompare_antisym (Prim2SF x) (Prim2SF y)).
  destruct (SFcompare (Prim2SF x) (Prim2SF y)) as [[]|]; cbn; congruence.
Qed.

Lemma leb_not_ltb (x y : float) : (x <=? y) = true -> (y <? x) = false.
Proof.
  rewrite ltb_spec, leb_spec. unfold SFltb, SFleb.
  rewrite (SFcompare_antisym (Prim2SF x) (Prim2SF y)).
  destruct (SFcompare (Prim2SF x) (Prim2SF y)) as [[]|]; cbn; congruence.
Qed.

(** NaN compares with nothing. *)
Lemma ltb_nan_l (x y : float) : is_nan x = true -> (x <? y) = false.
Proof.
  intros H. rewrite ltb_spec, (is_nan_true x H). reflexivity.
Qed.

Lemma ltb_nan_r (x y : float) : is_nan y = true -> (x <? y) = false.
Proof.
  intros H. rewrite ltb_spec, (is_nan_true y H).
  destruct (Prim2SF x); reflexivity.
Qed.

Lemma is_nan_nan (x : float) : is_nan x = true -> x = nan.
Proof.
  intros H. apply Prim2SF_inj. rewrite (is_nan_true x H). reflexivity.
Qed.

(** Arithmetic on NaN gives NaN. *)
Lemma sub_nan_l (y : float) : nan - y = nan.
Proof.
  apply Prim2SF_inj. rewrite sub_spec. reflexivity.
Qed.

Lemma sub_nan_r (x : float) : x - nan = nan.
Proof.
  apply Prim2SF_inj. rewrite sub_spec.
  change (Prim2SF nan) with S754_nan. destruct (Prim2SF x); reflexivity.
Qed.

Lemma div_nan_l (y : float) : nan / y = nan.
Proof.
  apply Prim2SF_inj. rewrite div_spec. reflexivity.
Qed.

Lemma div_nan_r (x : float) : x / nan = nan.
Proof.
  apply Prim2SF_inj. rewrite div_spec.
  change (Prim2SF nan) with S754_nan. destruct (Prim2SF x); reflexivity.
Qed.
End OrderFacts.

Module SignFacts.
(** Numbers that are zero or more. *)

Import JS Notions Binary64Facts.
Local Open Scope Z_scope.

Lemma binary_round_nonneg (m : positive) (e : Z) :
  SFleb (S754_zero false) (binary_round prec emax false m e) = true.
Proof.
  unfold binary_round.
  destruct (shl_align m e _) as [mz ez].
  destruct (binary_round_aux_shape (Zpos mz) ez loc_Exact) as [m2 [Hm2 Heq]]; [lia|].
  rewrite Heq. apply finish_nonneg.
  cbv zeta in Hm2.
  set (q := (Zpos mz / _)%Z) in Hm2.
  assert (0 <= q)%Z by (apply Z.div_pos; [lia | apply Z.pow_pos_nonneg; lia]).
  lia.
Qed.

Lemma binary_normalize_nonneg (z e : Z) :
  0 <= z -> SFleb (S754_zero false) (binary_normalize prec emax z e false) = true.
Proof.
  intros Hz. destruct z as [|p|p]; [reflexivity| |lia].
  apply binary_round_nonneg.
Qed.

Local Open Scope float_scope.

Lemma SF2Prim_nonneg (r : spec_float) :
  SFleb (S754_zero false) r = true -> (0 <=? SF2Prim r) = true.
Proof.
  intros Hr. destruct r as [s|s| |s m e]; try discriminate Hr.
  - destruct s; reflexivity.
  - destruct s; [discriminate Hr | reflexivity].
  - destruct s; [discriminate Hr|].
    unfold SF2Prim. rewrite leb_spec, Z_ldexp_spec, of_uint63_spec.
    change (Prim2SF 0) with (S754_zero false).
    pose proof (Uint63.to_Z_bounded (Uint63.of_Z (Zpos m))) as Hb.
    pose proof (binary_normalize_nonneg
                  (Uint63.to_Z (Uint63.of_Z (Zpos m))) 0 (proj1 Hb)) as Hn.
    destruct (binary_normalize _ _ _ _ _) as [s'|s'| |s' m' e']; cbn [SFldexp];
      try exact Hn.
    destruct s'; [discriminate Hn|]. apply binary_round_nonneg.
Qed.

Lemma of_Z_nonneg (z : Z) : (0 <= z)%Z -> (0 <=? of_Z z) = true.
Proof.
  intros Hz. apply SF2Prim_nonneg, binary_normalize_nonneg, Hz.
Qed.

(** Rounding keeps a number that is zero or more so. *)
Lemma Math_round_nonneg (x : number) :
  (0 <=? x) = true -> (0 <=? Math_round x) = true.
Proof.
  intros Hx. unfold Math_round.
  pose proof Hx as Hx'. rewrite leb_spec in Hx'.
  change (Prim2SF 0) with (S754_zero false) in Hx'.
  destruct (Prim2SF x) as [s|s| |s m e]; try exact Hx.
  destruct s; [discriminate Hx'|].
  destruct (0 <=? e)%Z; [exact Hx|].
  cbn [cond_Zopp].
  destruct (Z.eqb_spec (Z.shiftr (2 * Zpos m + 2 ^ (- e)) (1 - e)) 0);
    [reflexivity|].
  apply of_Z_nonneg. apply Z.shiftr_nonneg.
  assert (0 <= 2 ^ (- e))%Z by (apply Z.pow_nonneg; lia). lia.
Qed.
End SignFacts.

Module IntegerFacts.
(** Integers below 2^53 are binary64 numbers, and sums, differences and
    comparisons of them are exact. *)

Import JS Notions Binary64Facts.
Local Open Scope Z_scope.

Lemma shr_1_exact (k : Z) :
  0 <= k -> shr_1 (exact_record (2 * k)) = exact_record k.
Proof.
  intros Hk. destruct k as [|p|p]; [reflexivity|reflexivity|lia].
Qed.

Lemma iter_shr_1_exact (n : positive) (k : Z) :
  0 <= k -> iter_pos shr_1 n (exact_record (k * 2 ^ Zpos n)) = exact_record k.
Proof.
  revert k. induction n as [n IH|n IH|]; intros k Hk; cbn [iter_pos].
  - replace (k * 2 ^ Zpos n~1) with (2 * ((k * 2 ^ Zpos n) * 2 ^ Zpos n)).
    + rewrite shr_1_exact by (apply Z.mul_nonneg_nonneg; [apply Z.mul_nonneg_nonneg|]; lia).
      rewrite IH by (apply Z.mul_nonneg_nonneg; lia).
      apply IH, Hk.
    + change (Zpos n~1) with (2 * Zpos n + 1).
      replace (2 * Zpos n + 1) with (1 + Zpos n + Zpos n) by lia.
      rewrite !Z.pow_add_r by lia. rewrite Z.pow_1_r. ring.
  - replace (k * 2 ^ Zpos n~0) with ((k * 2 ^ Zpos n) * 2 ^ Zpos n).
    + rewrite IH by (apply Z.mul_nonneg_nonneg; lia).
      apply IH, Hk.
    + change (Zpos n~0) with (2 * Zpos n).
      replace (2 * Zpos n) with (Zpos n + Zpos n) by lia.
      rewrite !Z.pow_add_r by lia. ring.
  - change (2 ^ 1) with 2. rewrite Z.mul_comm. apply shr_1_exact, Hk.
Qed.

Lemma shr_exact (k e n : Z) :
  0 <= k -> 0 <= n ->
  shr (exact_record (k * 2 ^ n)) e n = (exact_record k, e + n).
Proof.
  intros Hk Hn. destruct n as [|n|n]; [|cbn [shr]|lia].
  - cbn [shr]. rewrite Z.mul_1_r, Z.add_0_r. reflexivity.
  - rewrite iter_shr_1_exact by exact Hk. reflexivity.
Qed.

(** The number of digits of a shifted integer. *)
Lemma Zdigits2_shift (z k : Z) :
  0 < z -> 0 <= k -> Zdigits2 (z * 2 ^ k) = Zdigits2 z + k.
Proof.
  intros Hz Hk.
  assert (Hp : 0 < 2 ^ k) by (apply Z.pow_pos_nonneg; lia).
  assert (Hd : 0 < Zdigits2 z) by (destruct z; cbn; lia).
  assert (Hb : 2 ^ (Zdigits2 z - 1) <= z < 2 ^ Zdigits2 z).
  { destruct z as [|p|p]; try lia. apply digits2_bounds. }
  apply Z.le_antisymm.
  - apply Zdigits2_le; [lia|]. rewrite Z.pow_add_r by lia.
    apply Z.mul_lt_mono_pos_r; lia.
  - assert (H : Zdigits2 z - 1 + k < Zdigits2 (z * 2 ^ k)); [|lia].
    apply Zdigits2_gt; [lia|]. rewrite Z.pow_add_r by lia.
    apply Z.mul_le_mono_nonneg_r; lia.
Qed.

(** Rounding a mantissa whose low bits are zero loses nothing. *)
Lemma binary_round_aux_exact (s : bool) (K : positive) (E n : Z) :
  Zpos (digits2_pos K) = 53 -> 0 <= n -> -1074 <= E + n <= 971 ->
  binary_round_aux prec emax s (Zpos K * 2 ^ n) E loc_Exact
  = S754_finite s K (E + n).
Proof.
  intros HK Hn HE. unfold binary_round_aux, shr_fexp.
  rewrite fexp64, Zdigits2_shift by lia. cbn [Zdigits2]. rewrite HK.
  replace (Z.max (53 + n + E - 53) (-1074) - E) with n by lia.
  change (shr_record_of_loc (Zpos K * 2 ^ n) loc_Exact)
    with (exact_record (Zpos K * 2 ^ n)).
  rewrite shr_exact by lia.
  cbn [exact_record shr_m loc_of_shr_record round_nearest_even Zdigits2].
  rewrite fexp64, HK.
  replace (Z.max (53 + (E + n) - 53) (-1074) - (E + n)) with 0 by lia.
  cbn [shr shr_record_of_loc shr_m].
  change (emax - prec) with 971.
  destruct (Z.leb_spec (E + n) 971); [reflexivity | lia].
Qed.

Lemma shl_align_value (m : positive) (e e' : Z) :
  Zpos (fst (shl_align m e e')) = Zpos m * 2 ^ (e - Z.min e e')
  /\ snd (shl_align m e e') = Z.min e e'.
Proof.
  unfold shl_align.
  destruct (e' - e) as [|d|d] eqn:Hd; cbn [fst snd].
  - replace (Z.min e e') with e by lia. rewrite Z.sub_diag, Z.mul_1_r. auto.
  - replace (Z.min e e') with e by lia. rewrite Z.sub_diag, Z.mul_1_r. auto.
  - replace (Z.min e e') with e' by lia. split; [|reflexivity].
    replace (e - e') with (Zpos d) by lia.
    clear. induction d as [|d IH] using Pos.peano_ind.
    + cbn [Pos.iter]. change (Zpos m~0) with (2 * Zpos m). lia.
    + rewrite Pos.iter_succ.
      change (Zpos (Pos.iter xO m d)~0) with (2 * Zpos (Pos.iter xO m d)).
      rewrite IH, Pos2Z.inj_succ, Z.pow_succ_r by lia. ring.
Qed.

(** The mantissa of the canonical form. *)
Lemma canonical_mantissa_value (p : positive) :
  Zpos (digits2_pos p) <= 53 ->
  Zpos (Z.to_pos (Zpos p * 2 ^ (53 - Zpos (digits2_pos p))))
  = Zpos p * 2 ^ (53 - Zpos (digits2_pos p))
  /\ Zpos (digits2_pos (Z.to_pos (Zpos p * 2 ^ (53 - Zpos (digits2_pos p))))) = 53.
Proof.
  intros Hd.
  assert (Hpow : 0 < 2 ^ (53 - Zpos (digits2_pos p))) by (apply Z.pow_pos_nonneg; lia).
  assert (Hpos : 0 < Zpos p * 2 ^ (53 - Zpos (digits2_pos p))) by lia.
  assert (Hv : Zpos (Z.to_pos (Zpos p * 2 ^ (53 - Zpos (digits2_pos p))))
               = Zpos p * 2 ^ (53 - Zpos (digits2_pos p)))
    by (apply Z2Pos.id, Hpos).
  split; [exact Hv|].
  change (Zpos (digits2_pos (Z.to_pos (Zpos p * 2 ^ (53 - Zpos (digits2_pos p))))))
    with (Zdigits2 (Zpos (Z.to_pos (Zpos p * 2 ^ (53 - Zpos (digits2_pos p)))))).
  rewrite Hv, Zdigits2_shift by lia. cbn [Zdigits2]. lia.
Qed.

Lemma binary_round_exact (s : bool) (S p : positive) (ez : Z) :
  Zpos S = Zpos p * 2 ^ (- ez) -> ez <= 0 -> Zpos (digits2_pos p) <= 53 ->
  binary_round prec emax s S ez
  = S754_finite s (Z.to_pos (Zpos p * 2 ^ (53 - Zpos (digits2_pos p))))
                (Zpos (digits2_pos p) - 53).
Proof.
  intros HS Hez Hd. unfold binary_round.
  set (d := Zpos (digits2_pos p)) in *.
  assert (Hd0 : 0 < d) by (unfold d; lia).
  assert (HdS : Zpos (digits2_pos S) = d - ez).
  { change (Zpos (digits2_pos S)) with (Zdigits2 (Zpos S)).
    rewrite HS, Zdigits2_shift by lia. cbn [Zdigits2]. fold d. lia. }
  rewrite fexp64, HdS.
  replace (Z.max (d - ez + ez - 53) (-1074)) with (d - 53) by lia.
  destruct (shl_align_value S ez (d - 53)) as [Hm He].
  destruct (shl_align S ez (d - 53)) as [mz e0]. cbn [fst snd] in Hm, He.
  destruct (canonical_mantissa_value p Hd) as [HK HdK]. fold d in HK, HdK.
  set (K := Z.to_pos (Zpos p * 2 ^ (53 - d))) in *.
  replace (Zpos mz) with (Zpos K * 2 ^ (d - 53 - e0)).
  - rewrite binary_round_aux_exact by lia. f_equal. lia.
  - rewrite Hm, HK, HS, He. rewrite <- !Z.mul_assoc, <- !Z.pow_add_r by lia.
    f_equal. f_equal. lia.
Qed.

Lemma binary_normalize_exact (T ez : Z) :
  Z.abs T < 2 ^ 53 -> ez <= 0 ->
  binary_normalize prec emax (T * 2 ^ (- ez)) ez false = canonical T.
Proof.
  intros HT Hez.
  assert (Hpow : 0 < 2 ^ (- ez)) by (apply Z.pow_pos_nonneg; lia).
  destruct T as [|p|p]; [reflexivity| |].
  - assert (Hd : Zpos (digits2_pos p) <= 53)
      by (apply (Zdigits2_le (Zpos p)); lia).
    destruct (Zpos p * 2 ^ (- ez)) as [|S|S] eqn:HS; try lia.
    cbn [binary_normalize canonical]. apply binary_round_exact; [|lia|exact Hd].
    symmetry. exact HS.
  - assert (Hd : Zpos (digits2_pos p) <= 53)
      by (apply (Zdigits2_le (Zpos p)); lia).
    destruct (Zneg p * 2 ^ (- ez)) as [|S|S] eqn:HS; try lia.
    cbn [binary_normalize canonical]. apply binary_round_exact; [|lia|exact Hd].
    lia.
Qed.

(** An array length is the number it counts. *)
Lemma Prim2SF_of_nat (n : nat) :
  Z.of_nat n < 2 ^ 53 -> Prim2SF (of_nat n) = canonical (Z.of_nat n).
Proof.
  intros Hn. unfold of_nat. rewrite of_uint63_spec.
  rewrite Uint63.of_Z_spec.
  rewrite Z.mod_small by (change Uint63.wB with (2 ^ 63); lia).
  rewrite <- (binary_normalize_exact (Z.of_nat n) 0) by lia.
  rewrite Z.mul_1_r. reflexivity.
Qed.

Lemma canonical_exponent (z : Z) (s : bool) (m : positive) (e : Z) :
  Z.abs z < 2 ^ 53 -> canonical z = S754_finite s m e ->
  e <= 0 /\ Zpos m = Z.abs z * 2 ^ (- e) /\ z = cond_Zopp s (Z.abs z)
  /\ e = Zdigits2 z - 53.
Proof.
  intros Hz. destruct z as [|p|p]; cbn [canonical]; [discriminate| |].
  all: assert (Hd : Zpos (digits2_pos p) <= 53)
      by (apply (Zdigits2_le (Zpos p)); lia).
  all: destruct (canonical_mantissa_value p Hd) as [HK _].
  all: cbn [Z.abs cond_Zopp Zdigits2].
  all: remember (Zpos (digits2_pos p) - 53) as ee eqn:Hee.
  all: remember (Z.to_pos (Zpos p * 2 ^ (53 - Zpos (digits2_pos p)))) as K eqn:HeK.
  all: intros H; injection H as <- <- <-.
  all: rewrite HK; cbn [cond_Zopp].
  all: repeat split; try lia.
  all: f_equal; f_equal; lia.
Qed.

Lemma canonical_zero (z : Z) (s : bool) : canonical z = S754_zero s -> z = 0.
Proof. destruct z; cbn [canonical]; [reflexivity|discriminate|discriminate]. Qed.

Lemma aligned_mantissa (z : Z) (s : bool) (m : positive) (e ez : Z) :
  Z.abs z < 2 ^ 53 -> canonical z = S754_finite s m e -> ez <= e ->
  cond_Zopp s (Zpos (fst (shl_align m e ez))) = z * 2 ^ (- ez).
Proof.
  intros Hz Hc Hez.
  destruct (canonical_exponent z s m e Hz Hc) as [He [Hm [Hs _]]].
  destruct (shl_align_value m e ez) as [Hv _]. rewrite Hv, Hm.
  replace (Z.min e ez) with ez by lia.
  rewrite <- Z.mul_assoc, <- Z.pow_add_r by lia.
  replace (- e + (e - ez)) with (- ez) by lia.
  rewrite Hs at 2. destruct s; cbn [cond_Zopp]; lia.
Qed.

(** Sums and differences of integers are exact as long as they fit. *)
Lemma SFadd_canonical (a b : Z) :
  Z.abs a < 2 ^ 53 -> Z.abs b < 2 ^ 53 -> Z.abs (a + b) < 2 ^ 53 ->
  SFadd prec emax (canonical a) (canonical b) = canonical (a + b).
Proof.
  intros Ha Hb Hab.
  destruct (canonical a) as [sa|sa| |sa ma ea] eqn:Ea;
    try (destruct a; discriminate Ea).
  - apply canonical_zero in Ea as Ha0. subst a. cbn [canonical] in Ea.
    injection Ea as <-.
    destruct (canonical b) as [sb|sb| |sb mb eb] eqn:Eb;
      try (destruct b; discriminate Eb).
    + apply canonical_zero in Eb as Hb0. subst b. cbn [canonical] in Eb.
      injection Eb as <-. reflexivity.
    + cbn [SFadd]. rewrite Z.add_0_l. symmetry. exact Eb.
  - destruct (canonical b) as [sb|sb| |sb mb eb] eqn:Eb;
      try (destruct b; discriminate Eb).
    + apply canonical_zero in Eb as Hb0. subst b.
      cbn [SFadd]. rewrite Z.add_0_r. symmetry. exact Ea.
    + cbn [SFadd].
      destruct (canonical_exponent a sa ma ea Ha Ea) as [Hea _].
      destruct (canonical_exponent b sb mb eb Hb Eb) as [Heb _].
      rewrite (aligned_mantissa a sa ma ea (Z.min ea eb) Ha Ea) by lia.
      rewrite (aligned_mantissa b sb mb eb (Z.min ea eb) Hb Eb) by lia.
      rewrite <- Z.mul_add_distr_r.
      apply binary_normalize_exact; lia.
Qed.

Lemma SFsub_canonical (a b : Z) :
  Z.abs a < 2 ^ 53 -> Z.abs b < 2 ^ 53 -> Z.abs (a - b) < 2 ^ 53 ->
  SFsub prec emax (canonical a) (canonical b) = canonical (a - b).
Proof.
  intros Ha Hb Hab.
  destruct (canonical a) as [sa|sa| |sa ma ea] eqn:Ea;
    try (destruct a; discriminate Ea).
  - apply canonical_zero in Ea as Ha0. subst a. cbn [canonical] in Ea.
    injection Ea as <-.
    destruct (canonical b) as [sb|sb| |sb mb eb] eqn:Eb;
      try (destruct b; discriminate Eb).
    + apply canonical_zero in Eb as Hb0. subst b. cbn [canonical] in Eb.
      injection Eb as <-. reflexivity.
    + cbn [SFsub]. destruct b as [|p|p]; cbn [canonical] in Eb |- *;
        [discriminate Eb| |]; injection Eb as <- <- <-; reflexivity.
  - destruct (canonical b) as [sb|sb| |sb mb eb] eqn:Eb;
      try (destruct b; discriminate Eb).
    + apply canonical_zero in Eb as Hb0. subst b.
      cbn [SFsub]. rewrite Z.sub_0_r. symmetry. exact Ea.
    + cbn [SFsub].
      destruct (canonical_exponent a sa ma ea Ha Ea) as [Hea _].
      destruct (canonical_exponent b sb mb eb Hb Eb) as [Heb _].
      rewrite (aligned_mantissa a sa ma ea (Z.min ea eb) Ha Ea) by lia.
      rewrite (aligned_mantissa b sb mb eb (Z.min ea eb) Hb Eb) by lia.
      rewrite <- Z.mul_sub_distr_r.
      apply binary_normalize_exact; lia.
Qed.

(** The order of the canonical forms is the order of the integers. *)
Lemma SFcompare_canonical (a b : Z) :
  0 <= a < 2 ^ 53 -> 0 <= b < 2 ^ 53 ->
  SFcompare (canonical a) (canonical b) = Some (a ?= b).
Proof.
  intros Ha Hb.
  destruct a as [|p|p]; [| |lia]; destruct b as [|q|q]; try lia; try reflexivity.
  assert (Hdp : Zpos (digits2_pos p) <= 53) by (apply (Zdigits2_le (Zpos p)); lia).
  assert (Hdq : Zpos (digits2_pos q) <= 53) by (apply (Zdigits2_le (Zpos q)); lia).
  destruct (canonical_mantissa_value p Hdp) as [HKp _].
  destruct (canonical_mantissa_value q Hdq) as [HKq _].
  pose proof (digits2_bounds p) as [Hp1 Hp2].
  pose proof (digits2_bounds q) as [Hq1 Hq2].
  cbn [canonical SFcompare].
  set (dp := Zpos (digits2_pos p)) in *. set (dq := Zpos (digits2_pos q)) in *.
  f_equal.
  destruct (Z.compare_spec (dp - 53) (dq - 53)) as [He|He|He].
  - match goal with
    | |- context [Pos.compare_cont Eq ?x ?y] =>
        change (Pos.compare_cont Eq x y) with (Z.compare (Zpos x) (Zpos y))
    end.
    rewrite HKp, HKq.
    replace dq with dp by lia.
    assert (Hpow : 0 < 2 ^ (53 - dp)) by (apply Z.pow_pos_nonneg; lia).
    destruct (Z.compare_spec (Zpos p) (Zpos q)) as [Hc|Hc|Hc].
    + rewrite Hc. apply Z.compare_refl.
    + apply Z.compare_lt_iff. nia.
    + apply Z.compare_gt_iff. nia.
  - symmetry. apply Z.compare_lt_iff.
    assert (2 ^ dp <= 2 ^ (dq - 1)) by (apply Z.pow_le_mono_r; lia). lia.
  - symmetry. apply Z.compare_gt_iff.
    assert (2 ^ dq <= 2 ^ (dp - 1)) by (apply Z.pow_le_mono_r; lia). lia.
Qed.

Local Open Scope float_scope.

Lemma of_nat_add (a b : nat) :
  (Z.of_nat (a + b) < 2 ^ 53)%Z -> of_nat a + of_nat b = of_nat (a + b).
Proof.
  intros H. apply Prim2SF_inj.
  rewrite add_spec, !Prim2SF_of_nat by lia.
  rewrite Nat2Z.inj_add. apply SFadd_canonical; lia.
Qed.

Lemma of_nat_sub (a b : nat) :
  (b <= a)%nat -> (Z.of_nat a < 2 ^ 53)%Z -> of_nat a - of_nat b = of_nat (a - b).
Proof.
  intros Hba H. apply Prim2SF_inj.
  rewrite sub_spec, !Prim2SF_of_nat by lia.
  rewrite Nat2Z.inj_sub by exact Hba. apply SFsub_canonical; lia.
Qed.

Lemma of_nat_leb (a b : nat) :
  (Z.of_nat a < 2 ^ 53)%Z -> (Z.of_nat b < 2 ^ 53)%Z ->
  (of_nat a <=? of_nat b) = (a <=? b)%nat.
Proof.
  intros Ha Hb. rewrite leb_spec, !Prim2SF_of_nat by assumption.
  unfold SFleb. rewrite SFcompare_canonical by lia.
  destruct (Nat.leb_spec a b) as [H|H].
  - destruct (Z.compare_spec (Z.of_nat a) (Z.of_nat b)); try reflexivity; lia.
  - destruct (Z.compare_spec (Z.of_nat a) (Z.of_nat b)); try reflexivity; lia.
Qed.

Lemma of_nat_ltb (a b : nat) :
  (Z.of_nat a < 2 ^ 53)%Z -> (Z.of_nat b < 2 ^ 53)%Z ->
  (of_nat a <? of_nat b) = (a <? b)%nat.
Proof.
  intros Ha Hb. rewrite ltb_spec, !Prim2SF_of_nat by assumption.
  unfold SFltb. rewrite SFcompare_canonical by lia.
  destruct (Nat.ltb_spec a b) as [H|H].
  - destruct (Z.compare_spec (Z.of_nat a) (Z.of_nat b)); try reflexivity; lia.
  - destruct (Z.compare_spec (Z.of_nat a) (Z.of_nat b)); try reflexivity; lia.
Qed.

Lemma of_nat_eqb (a b : nat) :
  (Z.of_nat a < 2 ^ 53)%Z -> (Z.of_nat b < 2 ^ 53)%Z ->
  (of_nat a =? of_nat b) = (a =? b)%nat.
Proof.
  intros Ha Hb. rewrite eqb_spec, !Prim2SF_of_nat by assumption.
  unfold SFeqb. rewrite SFcompare_canonical by lia.
  destruct (Nat.eqb_spec a b) as [H|H].
  - destruct (Z.compare_spec (Z.of_nat a) (Z.of_nat b)); try reflexivity; lia.
  - destruct (Z.compare_spec (Z.of_nat a) (Z.of_nat b)); try reflexivity; lia.
Qed.

(** As an index, an array length is itself. *)
Lemma ToIntegerOrInfinity_of_nat (n : nat) :
  (Z.of_nat n < 2 ^ 53)%Z -> ToIntegerOrInfinity (of_nat n) = Z.of_nat n.
Proof.
  intros Hn. unfold ToIntegerOrInfinity. rewrite Prim2SF_of_nat by exact Hn.
  destruct (canonical (Z.of_nat n)) as [s|s| |s m e] eqn:Ec;
    try (destruct (Z.of_nat n); discriminate Ec).
  - apply canonical_zero in Ec. lia.
  - assert (Habs : (Z.abs (Z.of_nat n) < 2 ^ 53)%Z) by lia.
    destruct (canonical_exponent _ s m e Habs Ec) as [He [Hm [Hs _]]].
    rewrite Z.abs_eq in Hm, Hs by lia.
    assert (Hpow : (0 < 2 ^ (- e))%Z) by (apply Z.pow_pos_nonneg; lia).
    destruct (Z.leb_spec 0 e).
    + replace e with 0%Z in * by lia.
      replace (Zpos m * 2 ^ 0)%Z with (Z.of_nat n)
        by (rewrite Hm; change (2 ^ (- 0))%Z with 1%Z; change (2 ^ 0)%Z with 1%Z; lia).
      symmetry. exact Hs.
    + rewrite Hm, Z.div_mul by lia. symmetry. exact Hs.
Qed.
End IntegerFacts.

Module ListFacts.
(** Facts about lists, slices and windows. *)

Import JS Notions.
Local Open Scope float_scope.

Lemma filter_none {A} (f : A -> bool) (xs : list A) :
  Forall (fun x => f x = false) xs -> filter f xs = [].
Proof.
  induction 1 as [|x xs Hx _ IH]; cbn [filter]; [reflexivity|].
  rewrite Hx. exact IH.
Qed.

Lemma Forall_firstn {A} (P : A -> Prop) (n : nat) (xs : list A) :
  Forall P xs -> Forall P (firstn n xs).
Proof.
  intros H. rewrite <- (firstn_skipn n xs) in H.
  apply Forall_app in H. apply H.
Qed.

Lemma Forall_skipn {A} (P : A -> Prop) (n : nat) (xs : list A) :
  Forall P xs -> Forall P (skipn n xs).
Proof.
  intros H. rewrite <- (firstn_skipn n xs) in H.
  apply Forall_app in H. apply H.
Qed.

Lemma Forall_slice {A} (P : A -> Prop) (xs : list A) (from to : number) :
  Forall P xs -> Forall P (slice xs from to).
Proof.
  intros H. unfold slice. apply Forall_firstn, Forall_skipn, H.
Qed.

(** A slice is a block of the array. *)
Lemma slice_block {A} (xs : list A) (from to : number) :
  exists before after, xs = (before ++ slice xs from to ++ after)%list.
Proof.
  unfold slice. cbv zeta.
  match goal with
  | |- context [firstn ?n (skipn ?k xs)] =>
      exists (firstn k xs), (skipn n (skipn k xs));
      rewrite (firstn_skipn n (skipn k xs)), (firstn_skipn k xs)
  end.
  reflexivity.
Qed.


(** A slice between two array indices is a window. *)
Lemma slice_of_nat {A} (xs : list A) (a b : nat) :
  (a <= b)%nat -> (Z.of_nat b < 2 ^ 53)%Z ->
  slice xs (of_nat a) (of_nat b) = window (b - a) a xs.
Proof.
  intros Hab Hb. unfold slice, window.
  rewrite !IntegerFacts.ToIntegerOrInfinity_of_nat by lia.
  unfold clamp_index.
  destruct (Z.ltb_spec (Z.of_nat a) 0); [lia|].
  destruct (Z.ltb_spec (Z.of_nat b) 0); [lia|].
  destruct (Nat.le_gt_cases a (List.length xs)) as [Ha|Ha].
  - replace (Z.to_nat (Z.min (Z.of_nat a) (Z.of_nat (List.length xs)))) with a by lia.
    destruct (Nat.le_gt_cases b (List.length xs)) as [Hb'|Hb'].
    + f_equal. lia.
    + rewrite !firstn_all2; [reflexivity| |]; rewrite length_skipn; lia.
  - replace (Z.to_nat (Z.min (Z.of_nat a) (Z.of_nat (List.length xs))))
      with (List.length xs) by lia.
    rewrite skipn_all, (skipn_all2 xs) by lia.
    rewrite !firstn_nil. reflexivity.
Qed.

Lemma length_window {A} (size start : nat) (xs : list A) :
  (start + size <= List.length xs)%nat -> List.length (window size start xs) = size.
Proof.
  intros H. unfold window. rewrite length_firstn, length_skipn. lia.
Qed.

Lemma fold_invariant {A B} (P : A -> Prop) (f : A -> B -> A) (xs : list B) (a : A) :
  (forall a x, P a -> P (f a x)) -> P a -> P (fold_left f xs a).
Proof.
  intros Hf. revert a. induction xs as [|x xs IH]; intros a Ha; cbn [fold_left];
    [exact Ha | apply IH, Hf, Ha].
Qed.

Lemma filter_nil_iff {A} (f : A -> bool) (xs : list A) :
  filter f xs = [] <-> Forall (fun x => f x = false) xs.
Proof.
  induction xs as [|x xs IH]; cbn [filter].
  - split; [constructor | reflexivity].
  - destruct (f x) eqn:Hx.
    + split; [discriminate|]. intros H. inversion H. congruence.
    + rewrite IH. split; [intros H; constructor; assumption|].
      intros H. inversion H. assumption.
Qed.
End ListFacts.

Module StatsFacts.

Import JS FtpAnalysis Notions.
Local Open Scope float_scope.

Section Engine.

Variable Math_pow : number -> number -> number.

Lemma calculateStats_nonempty (p : list number) :
  p <> [] -> exists s, calculateStats Math_pow p = Ok s.
Proof.
  destruct p as [|x p]; [congruence|].
  intros _. unfold calculateStats. cbn [List.length Nat.eqb].
  eexists. reflexivity.
Qed.

Lemma normalizedPower_short (p : list number) :
  (List.length p < 30)%nat -> normalizedPower Math_pow p = mean p.
Proof.
  intros Hlen. unfold normalizedPower.
  destruct (Nat.leb_spec 30 (List.length p)); [lia | reflexivity].
Qed.

End Engine.

Lemma Math_round_not_nan (x : number) :
  Prim2SF x <> S754_nan -> Prim2SF (Math_round x) <> S754_nan.
Proof.
  intros H. unfold Math_round.
  destruct (Prim2SF x) as [s|s| |s m e] eqn:E; try (rewrite E; discriminate).
  - contradiction.
  - destruct (0 <=? e)%Z; [rewrite E; discriminate|].
    destruct (_ =? 0)%Z; [destruct s; discriminate|].
    apply Binary64Facts.of_Z_not_nan.
Qed.

(** The mean of fewer than 30 finite numbers is a number. *)
Lemma mean_not_nan (p : list number) :
  (0 < List.length p < 30)%nat ->
  Forall (fun x => is_finite x = true) p ->
  Prim2SF (mean p) <> S754_nan.
Proof.
  intros Hlen Hfin. unfold mean. rewrite div_spec.
  destruct (Binary64Facts.of_nat_small_finite _ Hlen) as [m [e ->]].
  apply Binary64Facts.SFdiv_not_nan.
  apply Binary64Facts.sum_not_nan; [discriminate | exact Hfin].
Qed.

(** C9.  [calculateStats] on the empty series throws the error
    "Power data cannot be empty": it returns no [Stats] value. *)
Theorem calculateStats_empty_throws (Math_pow : number -> number -> number) :
  calculateStats Math_pow [] = Throw "Power data cannot be empty"
  /\ forall s, calculateStats Math_pow [] <> Ok s.
Proof.
  split; [reflexivity | intros s H; discriminate H].
Qed.

(** C6.  On a non-empty series of fewer than 30 samples [calculateStats]
    returns, and the [normalized] field of its result is the same number as
    the [average] field.  The two fields also compare equal under the [===]
    of the language whenever that number is not NaN, which is so for every
    series of finite numbers, and so for every series of integers. *)
Theorem normalized_fallback_law (Math_pow : number -> number -> number)
    (p : list number) :
  p <> [] -> (List.length p < 30)%nat ->
  exists s, calculateStats Math_pow p = Ok s
            /\ Stats.normalized s = Stats.average s
            /\ (isNaN (Stats.average s) = false ->
                (Stats.normalized s =? Stats.average s) = true)
            /\ (Forall (fun x => is_finite x = true) p ->
                (Stats.normalized s =? Stats.average s) = true).
Proof.
  intros Hne Hlen.
  destruct p as [|x p]; [congruence|].
  unfold calculateStats. cbn [List.length Nat.eqb].
  eexists; split; [reflexivity|].
  cbn [Stats.normalized Stats.average].
  rewrite (normalizedPower_short Math_pow) by exact Hlen.
  split; [reflexivity|].
  assert (Heq : isNaN (Math_round (mean (x :: p))) = false ->
                (Math_round (mean (x :: p)) =? Math_round (mean (x :: p))) = true).
  { unfold isNaN, is_nan. intros H.
    destruct (Math_round (mean (x :: p)) =? Math_round (mean (x :: p)));
      [reflexivity | discriminate H]. }
  split; [exact Heq|].
  intros Hfin. apply Heq. unfold isNaN.
  apply Binary64Facts.is_nan_false, Math_round_not_nan, mean_not_nan;
    [cbn [List.length] in *; lia | exact Hfin].
Qed.

Lemma normalized_fallback_law_witness :
  exists s, calculateStats Math_pow_reference [250; 255; 245] = Ok s
            /\ Stats.normalized s = Stats.average s
            /\ (isNaN (Stats.average s) = false ->
                (Stats.normalized s =? Stats.average s) = true)
            /\ (Forall (fun x => is_finite x = true) [250; 255; 245] ->
                (Stats.normalized s =? Stats.average s) = true).
Proof.
  apply (normalized_fallback_law Math_pow_reference [250; 255; 245]).
  - discriminate.
  - cbn [List.length]. lia.
Defined.

(** C2, as stated, fails.  On the series 1, 2 the mean is 1.5: the [average]
    field is 2 and round(2 * 0.95) is 2, while [classicFTP] is
    round(1.5 * 0.95), which is 1. *)
Lemma classicFTP_roundtrip_counterexample :
  exists s, calculateStats Math_pow_reference [1; 2] = Ok s
            /\ Stats.average s = 2
            /\ Stats.classicFTP s = 1
            /\ Math_round (Stats.average s * 0.95) = 2
            /\ (Stats.classicFTP s =? Math_round (Stats.average s * 0.95)) = false.
Proof.
  eexists. split; [vm_compute; reflexivity|].
  vm_compute. repeat split.
Qed.

(** C2, amended.  On a non-empty series [classicFTP] is the rounding of
    0.95 times the unrounded mean of the samples; it is the rounding of 0.95
    times the [average] field whenever the mean is already an integer, so
    that rounding it changes nothing. *)
Theorem classicFTP_of_mean (Math_pow : number -> number -> number)
    (p : list number) :
  p <> [] ->
  exists s, calculateStats Math_pow p = Ok s
            /\ Stats.classicFTP s = Math_round (mean p * 0.95)
            /\ (Math_round (mean p) = mean p ->
                Stats.classicFTP s = Math_round (Stats.average s * 0.95)).
Proof.
  intros Hne.
  destruct p as [|x p]; [congruence|].
  unfold calculateStats. cbn [List.length Nat.eqb].
  eexists; split; [reflexivity|].
  cbn [Stats.classicFTP Stats.average].
  split; [reflexivity|].
  intros Hint. rewrite Hint. reflexivity.
Qed.

Lemma classicFTP_of_mean_witness :
  exists s, calculateStats Math_pow_reference [250; 255; 245; 260; 240] = Ok s
            /\ Stats.classicFTP s = Math_round (mean [250; 255; 245; 260; 240] * 0.95)
            /\ (Math_round (mean [250; 255; 245; 260; 240])
                = mean [250; 255; 245; 260; 240] ->
                Stats.classicFTP s = Math_round (Stats.average s * 0.95)).
Proof.
  apply (classicFTP_of_mean Math_pow_reference [250; 255; 245; 260; 240]).
  discriminate.
Defined.

End StatsFacts.

Module ExtremaFacts.
Import JS FtpAnalysis Notions.
Local Open Scope float_scope.

Lemma max2_cases (a b : number) :
  is_nan a = false -> is_nan b = false ->
  (max2 a b = a \/ max2 a b = b)
  /\ (a <=? max2 a b) = true /\ (b <=? max2 a b) = true.
Proof.
  intros Ha Hb. unfold max2. rewrite Ha, Hb. cbn [orb].
  destruct (a <? b) eqn:Hab.
  - split; [right; reflexivity|].
    split; [apply OrderFacts.ltb_leb, Hab | apply OrderFacts.leb_refl, Hb].
  - destruct (b <? a) eqn:Hba.
    + split; [left; reflexivity|].
      split; [apply OrderFacts.leb_refl, Ha | apply OrderFacts.ltb_leb, Hba].
    + pose proof (OrderFacts.ltb_false_leb _ _ Ha Hb Hab) as H1.
      pose proof (OrderFacts.ltb_false_leb _ _ Hb Ha Hba) as H2.
      destruct (get_sign a).
      * split; [right; reflexivity|].
        split; [exact H2 | apply OrderFacts.leb_refl, Hb].
      * split; [left; reflexivity|].
        split; [apply OrderFacts.leb_refl, Ha | exact H1].
Qed.

Lemma min2_cases (a b : number) :
  is_nan a = false -> is_nan b = false ->
  (min2 a b = a \/ min2 a b = b)
  /\ (min2 a b <=? a) = true /\ (min2 a b <=? b) = true.
Proof.
  intros Ha Hb. unfold min2. rewrite Ha, Hb. cbn [orb].
  destruct (b <? a) eqn:Hba.
  - split; [right; reflexivity|].
    split; [apply OrderFacts.ltb_leb, Hba | apply OrderFacts.leb_refl, Hb].
  - destruct (a <? b) eqn:Hab.
    + split; [left; reflexivity|].
      split; [apply OrderFacts.leb_refl, Ha | apply OrderFacts.ltb_leb, Hab].
    + pose proof (OrderFacts.ltb_false_leb _ _ Ha Hb Hab) as H1.
      pose proof (OrderFacts.ltb_false_leb _ _ Hb Ha Hba) as H2.
      destruct (get_sign a).
      * split; [left; reflexivity|].
        split; [apply OrderFacts.leb_refl, Ha | exact H2].
      * split; [right; reflexivity|].
        split; [exact H1 | apply OrderFacts.leb_refl, Hb].
Qed.

Lemma fold_max2 (xs : list number) (acc : number) :
  is_nan acc = false ->
  Forall (fun x => is_nan x = false) xs ->
  let m := fold_left max2 xs acc in
  (m = acc \/ In m xs)
  /\ (acc <=? m) = true
  /\ Forall (fun x => (x <=? m) = true) xs.
Proof.
  intros Hacc Hxs. revert acc Hacc.
  induction Hxs as [|x xs Hx _ IH]; intros acc Hacc; cbn [fold_left].
  - split; [left; reflexivity|].
    split; [apply OrderFacts.leb_refl, Hacc | constructor].
  - destruct (max2_cases acc x Hacc Hx) as [Hsel [Hl Hr]].
    assert (Hn : is_nan (max2 acc x) = false)
      by (destruct Hsel as [-> | ->]; assumption).
    destruct (IH (max2 acc x) Hn) as [Hm [Hle Hall]].
    split; [|split].
    + destruct Hm as [Hm|Hm]; [|right; right; exact Hm].
      rewrite Hm. destruct Hsel as [-> | ->]; [left; reflexivity | right; left; reflexivity].
    + apply (OrderFacts.leb_trans _ (max2 acc x)); assumption.
    + constructor; [|exact Hall].
      apply (OrderFacts.leb_trans _ (max2 acc x)); assumption.
Qed.

Lemma fold_min2 (xs : list number) (acc : number) :
  is_nan acc = false ->
  Forall (fun x => is_nan x = false) xs ->
  let m := fold_left min2 xs acc in
  (m = acc \/ In m xs)
  /\ (m <=? acc) = true
  /\ Forall (fun x => (m <=? x) = true) xs.
Proof.
  intros Hacc Hxs. revert acc Hacc.
  induction Hxs as [|x xs Hx _ IH]; intros acc Hacc; cbn [fold_left].
  - split; [left; reflexivity|].
    split; [apply OrderFacts.leb_refl, Hacc | constructor].
  - destruct (min2_cases acc x Hacc Hx) as [Hsel [Hl Hr]].
    assert (Hn : is_nan (min2 acc x) = false)
      by (destruct Hsel as [-> | ->]; assumption).
    destruct (IH (min2 acc x) Hn) as [Hm [Hle Hall]].
    split; [|split].
    + destruct Hm as [Hm|Hm]; [|right; right; exact Hm].
      rewrite Hm. destruct Hsel as [-> | ->]; [left; reflexivity | right; left; reflexivity].
    + apply (OrderFacts.leb_trans _ (min2 acc x)); assumption.
    + constructor; [|exact Hall].
      apply (OrderFacts.leb_trans _ (min2 acc x)); assumption.
Qed.

(** The first argument takes the place of the start value. *)
Lemma max2_start (x : number) : is_nan x = false -> max2 neg_infinity x = x.
Proof.
  intros Hx. unfold max2. rewrite Hx. cbn [is_nan orb].
  change (is_nan neg_infinity) with false. cbn [orb].
  destruct (neg_infinity <? x); [reflexivity|].
  destruct (x <? neg_infinity) eqn:H; [|reflexivity].
  rewrite ltb_spec in H.
  destruct (Prim2SF x) as [s|s| |s m e]; try discriminate H;
    destruct s; discriminate H.
Qed.

Lemma min2_start (x : number) : is_nan x = false -> min2 infinity x = x.
Proof.
  intros Hx. unfold min2. rewrite Hx.
  change (is_nan infinity) with false. cbn [orb].
  destruct (x <? infinity); [reflexivity|].
  destruct (infinity <? x) eqn:H; [|reflexivity].
  rewrite ltb_spec in H.
  destruct (Prim2SF x) as [s|s| |s m e]; try discriminate H;
    destruct s; discriminate H.
Qed.

(** X9.  For a non-empty series of numbers (no NaN among them) the [max] and
    [min] of [calculateStats] are samples of the series, and every sample
    lies between them. *)
Theorem calculateStats_extrema (Math_pow : number -> number -> number)
    (p : list number) :
  p <> [] ->
  Forall (fun x => isNaN x = false) p ->
  exists s, calculateStats Math_pow p = Ok s
            /\ In (Stats.max s) p
            /\ In (Stats.min s) p
            /\ Forall (fun x => (Stats.min s <=? x) = true
                                /\ (x <=? Stats.max s) = true) p.
Proof.
  intros Hne Hp. destruct p as [|x p]; [congruence|].
  unfold calculateStats. cbn [List.length Nat.eqb]. cbv zeta.
  eexists. split; [reflexivity|]. cbn [Stats.max Stats.min].
  unfold Math_max, Math_min. cbn [fold_left].
  inversion Hp as [|? ? Hx Hp']. subst. unfold isNaN in *.
  rewrite (max2_start x Hx), (min2_start x Hx).
  destruct (fold_max2 p x Hx Hp') as [Hmax [Hmax0 Hmaxall]].
  destruct (fold_min2 p x Hx Hp') as [Hmin [Hmin0 Hminall]].
  cbv zeta in *.
  split; [destruct Hmax as [-> | H]; [left; reflexivity | right; exact H]|].
  split; [destruct Hmin as [-> | H]; [left; reflexivity | right; exact H]|].
  constructor; [split; assumption|].
  rewrite Forall_forall in *. intros y Hy. split; auto.
Qed.

Lemma calculateStats_extrema_witness :
  exists s, calculateStats Math_pow_reference [250; 255; 245; 260; 240] = Ok s
            /\ In (Stats.max s) [250; 255; 245; 260; 240]
            /\ In (Stats.min s) [250; 255; 245; 260; 240]
            /\ Forall (fun x => (Stats.min s <=? x) = true
                                /\ (x <=? Stats.max s) = true)
                      [250; 255; 245; 260; 240].
Proof.
  apply (calculateStats_extrema Math_pow_reference [250; 255; 245; 260; 240]).
  - discriminate.
  - repeat constructor.
Defined.
End ExtremaFacts.

Module PacingFacts.

Import JS FtpAnalysis Notions.
Local Open Scope float_scope.

(** The example of the test suite: first quarter at 400 w, the rest at 100 w. *)
Example extreme_fade_score :
  exists r, analyzePacing Math_pow_reference (repeat 400 300 ++ repeat 100 900)%list = Ok r
            /\ PacingAnalysis.score r = 50
            /\ PacingAnalysis.fadePct r = "75.0"%string.
Proof.
  eexists. split; [vm_compute; reflexivity|].
  split; reflexivity.
Qed.

(** C5.  On a non-empty series [analyzePacing] returns, and the score of its
    result lies between 0 and 100, both included. *)
Theorem pacing_score_in_range (Math_pow : number -> number -> number)
    (p : list number) :
  p <> [] ->
  exists r, analyzePacing Math_pow p = Ok r
            /\ (0 <=? PacingAnalysis.score r) = true
            /\ (PacingAnalysis.score r <=? 100) = true.
Proof.
  intros Hne.
  destruct p as [|x p]; [congruence|].
  unfold analyzePacing, calculateStats.
  cbn [List.length Nat.eqb bind].
  cbv beta zeta.
  repeat match goal with
         | |- context [if PrimFloat.ltb ?a ?b then _ else _] =>
             destruct (PrimFloat.ltb a b)
         end;
    cbv beta iota zeta;
    (eexists; split; [reflexivity|]);
    cbn [PacingAnalysis.score];
    split; vm_compute; reflexivity.
Qed.

Lemma pacing_score_in_range_witness :
  exists r, analyzePacing Math_pow_reference [300; 280; 250; 200] = Ok r
            /\ (0 <=? PacingAnalysis.score r) = true
            /\ (PacingAnalysis.score r <=? 100) = true.
Proof.
  apply (pacing_score_in_range Math_pow_reference [300; 280; 250; 200]).
  discriminate.
Defined.

End PacingFacts.

Module PacingShapeFacts.
Import JS FtpAnalysis Notions.
Local Open Scope float_scope.

(** A fade above 5 % is not a fade below -3 %. *)
Lemma fade_above_not_below (fadePct lo : number) :
  (fadePct >? lo) = true -> (0 <=? lo) = true -> (fadePct <? -3) = false.
Proof.
  intros Hhi Hlo.
  destruct (fadePct <? -3) eqn:Hb; [|reflexivity].
  assert (H : (lo <? -3) = true) by (apply (OrderFacts.ltb_leb_trans _ fadePct);
    [exact Hhi | apply OrderFacts.ltb_leb, Hb]).
  assert (H' : (0 <? -3) = true) by (apply (OrderFacts.leb_ltb_trans _ lo); assumption).
  discriminate H'.
Qed.

Ltac fade_cases :=
  repeat match goal with
         | |- context [if PrimFloat.ltb ?a ?b then _ else _] =>
             let E := fresh "E" in destruct (PrimFloat.ltb a b) eqn:E
         end.

Ltac fade_clash :=
  match goal with
  | H1 : (?f >? ?lo) = true, H2 : (?f <? -3) = true |- _ =>
      exfalso;
      assert (Hc : (f <? -3) = false)
        by (apply (fade_above_not_below f lo H1); reflexivity);
      congruence
  end.

(** X10.  On a non-empty series the score of [analyzePacing] is at least 50:
    the deductions for a fade (30, 15 or 5) and for a negative split (10)
    exclude each other, and at most 20 are deducted for variability. *)
Theorem pacing_score_at_least_50 (Math_pow : number -> number -> number)
    (p : list number) :
  p <> [] ->
  exists r, analyzePacing Math_pow p = Ok r
            /\ (50 <=? PacingAnalysis.score r) = true.
Proof.
  intros Hne.
  destruct p as [|x p]; [congruence|].
  unfold analyzePacing, calculateStats.
  cbn [List.length Nat.eqb bind].
  cbv beta zeta.
  fade_cases; try fade_clash;
    cbv beta iota zeta;
    (eexists; split; [reflexivity|]);
    cbn [PacingAnalysis.score];
    vm_compute; reflexivity.
Qed.

Lemma pacing_score_at_least_50_witness :
  exists r, analyzePacing Math_pow_reference [400; 100; 100; 100] = Ok r
            /\ (50 <=? PacingAnalysis.score r) = true.
Proof.
  apply (pacing_score_at_least_50 Math_pow_reference [400; 100; 100; 100]).
  discriminate.
Defined.

(** X11.  The result of [analyzePacing] is of one piece: there are between one
    and three insights; the strategy is one of the three names; and watts are
    reported lost only with a positive split, every other result having
    [wattsLost] 0 and at most two insights. *)
Theorem pacing_verdict_consistent (Math_pow : number -> number -> number)
    (p : list number) :
  p <> [] ->
  exists r, analyzePacing Math_pow p = Ok r
            /\ (1 <= List.length (PacingAnalysis.insights r) <= 3)%nat
            /\ (PacingAnalysis.strategy r = "positive-split"%string
                \/ (PacingAnalysis.strategy r = "even"%string
                    \/ PacingAnalysis.strategy r = "negative-split"%string)
                   /\ PacingAnalysis.wattsLost r = 0
                   /\ (List.length (PacingAnalysis.insights r) <= 2)%nat).
Proof.
  intros Hne.
  destruct p as [|x p]; [congruence|].
  unfold analyzePacing, calculateStats.
  cbn [List.length Nat.eqb bind].
  cbv beta zeta.
  fade_cases; try fade_clash;
    cbv beta iota zeta;
    (eexists; split; [reflexivity|]);
    cbn [PacingAnalysis.insights PacingAnalysis.strategy PacingAnalysis.wattsLost];
    unfold push; cbn [List.length app];
    (split; [lia|]);
    solve [left; reflexivity
          | right; split; [left; reflexivity | split; [reflexivity | lia]]
          | right; split; [right; reflexivity | split; [reflexivity | lia]]].
Qed.

Lemma pacing_verdict_consistent_witness :
  exists r, analyzePacing Math_pow_reference [300; 280; 250; 200] = Ok r
            /\ (1 <= List.length (PacingAnalysis.insights r) <= 3)%nat
            /\ (PacingAnalysis.strategy r = "positive-split"%string
                \/ (PacingAnalysis.strategy r = "even"%string
                    \/ PacingAnalysis.strategy r = "negative-split"%string)
                   /\ PacingAnalysis.wattsLost r = 0
                   /\ (List.length (PacingAnalysis.insights r) <= 2)%nat).
Proof.
  apply (pacing_verdict_consistent Math_pow_reference [300; 280; 250; 200]).
  discriminate.
Defined.

(** With fewer than four samples the first quarter is empty, and its average
    is 0 / 0. *)
Lemma short_first_quarter (p : list number) :
  (List.length p < 4)%nat ->
  mean (slice p 0 (Math_floor (of_nat (List.length p) / 4))) = nan.
Proof.
  intros H.
  destruct p as [|a [|b [|c [|d p]]]]; try reflexivity.
  cbn [List.length] in H. lia.
Qed.

Lemma fade_of_nan (avgLast : number) : (nan - avgLast) / nan * 100 = nan.
Proof.
  rewrite OrderFacts.sub_nan_l. reflexivity.
Qed.

(** X12.  A series of one, two or three samples has no first quarter:
    [analyzePacing] still returns, with a fade of [NaN], an even strategy, no
    watts lost, and the verdict of an excellent pacing as first insight. *)
Theorem pacing_of_short_series (Math_pow : number -> number -> number)
    (p : list number) :
  p <> [] -> (List.length p < 4)%nat ->
  exists r, analyzePacing Math_pow p = Ok r
            /\ PacingAnalysis.fadePct r = "NaN"%string
            /\ isNaN (PacingAnalysis.avgFirstQuarter r) = true
            /\ PacingAnalysis.strategy r = "even"%string
            /\ PacingAnalysis.wattsLost r = 0
            /\ option_map Insight.message (hd_error (PacingAnalysis.insights r))
               = Some "Excellent pacing strategy!"%string.
Proof.
  intros Hne Hlen.
  pose proof (short_first_quarter p Hlen) as Hq.
  unfold analyzePacing, calculateStats.
  destruct p as [|x p]; [congruence|].
  cbn [Nat.eqb bind List.length] in *.
  cbv beta zeta.
  rewrite Hq, !fade_of_nan.
  change (nan >? 10) with false. change (nan >? 5) with false.
  change (nan >? 3) with false. change (nan <? -3) with false.
  cbv beta iota.
  repeat match goal with
         | |- context [if PrimFloat.ltb ?a ?b then _ else _] =>
             destruct (PrimFloat.ltb a b)
         end;
    (eexists; split; [reflexivity|]);
    cbn [PacingAnalysis.fadePct PacingAnalysis.avgFirstQuarter
         PacingAnalysis.strategy PacingAnalysis.wattsLost PacingAnalysis.insights];
    repeat split.
Qed.

Lemma pacing_of_short_series_witness :
  exists r, analyzePacing Math_pow_reference [250; 240; 230] = Ok r
            /\ PacingAnalysis.fadePct r = "NaN"%string
            /\ isNaN (PacingAnalysis.avgFirstQuarter r) = true
            /\ PacingAnalysis.strategy r = "even"%string
            /\ PacingAnalysis.wattsLost r = 0
            /\ option_map Insight.message (hd_error (PacingAnalysis.insights r))
               = Some "Excellent pacing strategy!"%string.
Proof.
  apply (pacing_of_short_series Math_pow_reference [250; 240; 230]).
  - discriminate.
  - cbn. lia.
Defined.

Lemma analyzePacing_nonempty (Math_pow : number -> number -> number)
    (p : list number) :
  p <> [] -> exists r, analyzePacing Math_pow p = Ok r.
Proof.
  intros Hne.
  destruct (StatsFacts.calculateStats_nonempty Math_pow p Hne) as [s Hs].
  unfold analyzePacing. cbv zeta. rewrite Hs. cbn [bind].
  destruct (if _ >? 5 then _ else _) as [wattsLost insights].
  eexists. reflexivity.
Qed.

(** X13.  [analyzePacing] fails only the way [calculateStats] does: on the
    empty series it throws the error of [calculateStats], on every other
    series it returns. *)
Theorem analyzePacing_throws_on_empty_only (Math_pow : number -> number -> number)
    (p : list number) :
  match p with
  | [] => analyzePacing Math_pow p = Throw "Power data cannot be empty"
  | _ :: _ => exists r, analyzePacing Math_pow p = Ok r
  end.
Proof.
  destruct p as [|x p]; [reflexivity|].
  apply analyzePacing_nonempty. discriminate.
Qed.
End PacingShapeFacts.

Module HeartRateFacts.

Import JS FtpAnalysis Notions.
Local Open Scope float_scope.

(** A number above 1 is its own absolute value. *)
Lemma abs_above_one (x : number) : (x >? 1) = true -> Math_abs x = x.
Proof.
  intros H. unfold Math_abs.
  apply Prim2SF_inj. rewrite abs_spec.
  rewrite ltb_spec in H.
  destruct (Prim2SF x) as [s|s| |s m e]; try reflexivity;
    destruct s; try reflexivity; discriminate H.
Qed.

(** C4, as stated, fails.  With heart rate 150, 155, 160, 165 and power 200,
    220, 240, 260 the power rises by 60 w from the first quarter to the last,
    so the power drop, -60, does not exceed 1 watt; the result is 15 / 60 and
    not 0. *)
Lemma cardiacDrift_power_rise_counterexample :
  firstQuarterAvgPower [200; 220; 240; 260]
  - lastQuarterAvgPower [200; 220; 240; 260] = -60
  /\ (firstQuarterAvgPower [200; 220; 240; 260]
      - lastQuarterAvgPower [200; 220; 240; 260] >? 1) = false
  /\ HeartRateStats.cardiacDrift
       (calculateHeartRateStats [150; 155; 160; 165] [200; 220; 240; 260]) = 0.25
  /\ (HeartRateStats.cardiacDrift
        (calculateHeartRateStats [150; 155; 160; 165] [200; 220; 240; 260]) =? 0)
     = false.
Proof.
  vm_compute. repeat split.
Qed.

(** C4, amended.  [cardiacDrift] is the rise of the quarter-average heart
    rate divided by the absolute change of the quarter-average power, rounded
    to 2 decimals, when that absolute change exceeds 1 watt, whether the power
    fell or rose; it is 0 otherwise. *)
Theorem cardiacDrift_formula (heartRateData powerData : list number) :
  HeartRateStats.cardiacDrift (calculateHeartRateStats heartRateData powerData) =
  if Math_abs (firstQuarterAvgPower powerData - lastQuarterAvgPower powerData) >? 1
  then round2 ((lastQuarterAvgHR heartRateData - firstQuarterAvgHR heartRateData)
               / Math_abs (firstQuarterAvgPower powerData
                           - lastQuarterAvgPower powerData))
  else 0.
Proof.
  unfold calculateHeartRateStats. cbn [HeartRateStats.cardiacDrift].
  unfold firstQuarterAvgPower, lastQuarterAvgPower, firstQuarterAvgHR,
    lastQuarterAvgHR, firstQuarter, lastQuarter, round2.
  destruct (Math_abs _ >? 1); reflexivity.
Qed.

(** The case the specification describes: when the power drop itself exceeds
    1 watt, the divisor is that drop. *)
Lemma cardiacDrift_on_power_drop (heartRateData powerData : list number) :
  (firstQuarterAvgPower powerData - lastQuarterAvgPower powerData >? 1) = true ->
  HeartRateStats.cardiacDrift (calculateHeartRateStats heartRateData powerData) =
  round2 ((lastQuarterAvgHR heartRateData - firstQuarterAvgHR heartRateData)
          / (firstQuarterAvgPower powerData - lastQuarterAvgPower powerData)).
Proof.
  intros H.
  unfold calculateHeartRateStats. cbn [HeartRateStats.cardiacDrift].
  fold (firstQuarter powerData) (lastQuarter powerData)
       (firstQuarter heartRateData) (lastQuarter heartRateData).
  fold (firstQuarterAvgPower powerData) (lastQuarterAvgPower powerData)
       (firstQuarterAvgHR heartRateData) (lastQuarterAvgHR heartRateData).
  rewrite (abs_above_one _ H), H. reflexivity.
Qed.

End HeartRateFacts.

Module HeartRateEdgeFacts.
Import JS FtpAnalysis Notions.
Local Open Scope float_scope.

(** X14.  When no heart-rate reading is above zero (an empty series, or zeros
    only), [calculateHeartRateStats] still returns: the average, the
    threshold heart rate and the drift are NaN, the maximum is -Infinity and
    the minimum is +Infinity; the cardiac drift is 0 or NaN. *)
Theorem calculateHeartRateStats_no_reading (heartRateData powerData : list number) :
  Forall (fun hr => positive hr = false) heartRateData ->
  let r := calculateHeartRateStats heartRateData powerData in
  isNaN (HeartRateStats.average r) = true
  /\ isNaN (HeartRateStats.lthr r) = true
  /\ HeartRateStats.max r = neg_infinity
  /\ HeartRateStats.min r = infinity
  /\ isNaN (HeartRateStats.hrDrift r) = true
  /\ (HeartRateStats.cardiacDrift r = 0
      \/ isNaN (HeartRateStats.cardiacDrift r) = true).
Proof.
  intros Hnone. unfold calculateHeartRateStats. cbv zeta.
  cbn [HeartRateStats.average HeartRateStats.lthr HeartRateStats.max
       HeartRateStats.min HeartRateStats.hrDrift HeartRateStats.cardiacDrift].
  rewrite (ListFacts.filter_none positive heartRateData Hnone).
  rewrite !(ListFacts.filter_none positive (slice heartRateData _ _))
    by (apply ListFacts.Forall_slice, Hnone).
  unfold slice_from.
  rewrite !(ListFacts.filter_none positive (slice heartRateData _ _))
    by (apply ListFacts.Forall_slice, Hnone).
  repeat (split; [reflexivity|]).
  destruct (Math_abs _ >? 1).
  - right. change (mean [] - mean []) with nan.
    rewrite OrderFacts.div_nan_l. reflexivity.
  - left. reflexivity.
Qed.

Lemma calculateHeartRateStats_no_reading_witness :
  let r := calculateHeartRateStats [0; 0; 0; 0] [250; 250; 240; 240] in
  isNaN (HeartRateStats.average r) = true
  /\ isNaN (HeartRateStats.lthr r) = true
  /\ HeartRateStats.max r = neg_infinity
  /\ HeartRateStats.min r = infinity
  /\ isNaN (HeartRateStats.hrDrift r) = true
  /\ (HeartRateStats.cardiacDrift r = 0
      \/ isNaN (HeartRateStats.cardiacDrift r) = true).
Proof.
  apply (calculateHeartRateStats_no_reading [0; 0; 0; 0] [250; 250; 240; 240]).
  repeat constructor.
Defined.

Lemma filter_positive_twice (xs : list number) :
  filter positive (filter positive xs) = filter positive xs.
Proof.
  induction xs as [|x xs IH]; cbn [filter]; [reflexivity|].
  destruct (positive x) eqn:Hx; cbn [filter]; rewrite ?Hx, IH; reflexivity.
Qed.

(** X15.  Readings of zero do not count: when some reading is above zero, the
    [max] and [min] of [calculateHeartRateStats] are readings above zero,
    and every reading above zero lies between them. *)
Theorem calculateHeartRateStats_extrema (heartRateData powerData : list number) :
  Exists (fun hr => positive hr = true) heartRateData ->
  let r := calculateHeartRateStats heartRateData powerData in
  In (HeartRateStats.max r) heartRateData
  /\ positive (HeartRateStats.max r) = true
  /\ In (HeartRateStats.min r) heartRateData
  /\ positive (HeartRateStats.min r) = true
  /\ Forall (fun hr => positive hr = true ->
                       (HeartRateStats.min r <=? hr) = true
                       /\ (hr <=? HeartRateStats.max r) = true) heartRateData.
Proof.
  intros Hsome. unfold calculateHeartRateStats. cbv zeta.
  cbn [HeartRateStats.max HeartRateStats.min].
  rewrite filter_positive_twice.
  assert (Hvalid : forall h, In h (filter positive heartRateData) ->
                             In h heartRateData /\ positive h = true)
    by (intros h Hh; apply filter_In in Hh; exact Hh).
  assert (Hnum : Forall (fun h => is_nan h = false) (filter positive heartRateData)).
  { apply Forall_forall. intros h Hh. apply Hvalid in Hh. destruct Hh as [_ Hh].
    apply (OrderFacts.ltb_true_not_nan _ _ Hh). }
  destruct (filter positive heartRateData) as [|x valid] eqn:Hf.
  - exfalso. apply Exists_exists in Hsome. destruct Hsome as [h [Hin Hh]].
    assert (Hin' : In h (filter positive heartRateData))
      by (apply filter_In; split; assumption).
    rewrite Hf in Hin'. exact Hin'.
  - unfold Math_max, Math_min. cbn [fold_left].
    inversion Hnum as [|? ? Hx Hnum']. subst.
    rewrite (ExtremaFacts.max2_start x Hx), (ExtremaFacts.min2_start x Hx).
    destruct (ExtremaFacts.fold_max2 valid x Hx Hnum') as [Hmax [Hmax0 Hmaxall]].
    destruct (ExtremaFacts.fold_min2 valid x Hx Hnum') as [Hmin [Hmin0 Hminall]].
    cbv zeta in *.
    assert (Hmax' : In (fold_left max2 valid x) (x :: valid))
      by (destruct Hmax as [-> | H]; [left; reflexivity | right; exact H]).
    assert (Hmin' : In (fold_left min2 valid x) (x :: valid))
      by (destruct Hmin as [-> | H]; [left; reflexivity | right; exact H]).
    apply Hvalid in Hmax', Hmin'.
    split; [apply Hmax'|]. split; [apply Hmax'|].
    split; [apply Hmin'|]. split; [apply Hmin'|].
    apply Forall_forall. intros h Hin Hh.
    assert (Hin' : In h (x :: valid))
      by (rewrite <- Hf; apply filter_In; split; assumption).
    destruct Hin' as [<- | Hin']; [split; assumption|].
    rewrite Forall_forall in Hmaxall, Hminall. split; auto.
Qed.

Lemma calculateHeartRateStats_extrema_witness :
  let r := calculateHeartRateStats [150; 0; 160; 155] [250; 250; 240; 240] in
  In (HeartRateStats.max r) [150; 0; 160; 155]
  /\ positive (HeartRateStats.max r) = true
  /\ In (HeartRateStats.min r) [150; 0; 160; 155]
  /\ positive (HeartRateStats.min r) = true
  /\ Forall (fun hr => positive hr = true ->
                       (HeartRateStats.min r <=? hr) = true
                       /\ (hr <=? HeartRateStats.max r) = true)
            [150; 0; 160; 155].
Proof.
  apply (calculateHeartRateStats_extrema [150; 0; 160; 155] [250; 250; 240; 240]).
  left. reflexivity.
Defined.
End HeartRateEdgeFacts.

Module GradeFacts.

Import JS FtpAnalysis Notions.
Local Open Scope float_scope.

(** C8.  The grade table has 13 rows, is contiguous with an unbounded last
    row, and its percentiles are strictly ascending. *)
Theorem PERFORMANCE_GRADES_well_formed :
  List.length PERFORMANCE_GRADES = 13%nat
  /\ contiguous PERFORMANCE_GRADES
  /\ percentile_ascending PERFORMANCE_GRADES.
Proof.
  split; [reflexivity|].
  split; cbn; repeat split.
Qed.

Lemma lookup_grade_no_match (x : number) (gs : list PerformanceGrade.t)
    (grade : PerformanceGrade.t) :
  Forall (fun g => in_band x g = false) gs -> lookup_grade x gs grade = grade.
Proof.
  induction 1 as [|g gs Hg _ IH]; cbn [lookup_grade]; [reflexivity|].
  rewrite Hg. exact IH.
Qed.

(** C10.  When the classic-FTP-per-kg ratio is in the band of no row of the
    table, [calculateWattsPerKg] answers with the last row: grade A+, category
    World Class, percentile 99. *)
Theorem calculateWattsPerKg_fallback (stats : Stats.t) (riderWeight : number) :
  Forall (fun g => in_band (Stats.classicFTP stats / riderWeight) g = false)
         PERFORMANCE_GRADES ->
  WattsPerKgStats.grade (calculateWattsPerKg stats riderWeight) = "A+"%string
  /\ WattsPerKgStats.category (calculateWattsPerKg stats riderWeight)
     = "World Class"%string
  /\ WattsPerKgStats.percentile (calculateWattsPerKg stats riderWeight) = 99
  /\ WattsPerKgStats.description (calculateWattsPerKg stats riderWeight)
     = "Professional/elite level"%string.
Proof.
  intros Hnone. unfold calculateWattsPerKg.
  cbn [WattsPerKgStats.grade WattsPerKgStats.category WattsPerKgStats.percentile
       WattsPerKgStats.description].
  rewrite (lookup_grade_no_match _ _ _ Hnone).
  repeat split.
Qed.

Lemma calculateWattsPerKg_fallback_witness :
  WattsPerKgStats.grade (calculateWattsPerKg stats_238 (-70)) = "A+"%string
  /\ WattsPerKgStats.category (calculateWattsPerKg stats_238 (-70))
     = "World Class"%string
  /\ WattsPerKgStats.percentile (calculateWattsPerKg stats_238 (-70)) = 99
  /\ WattsPerKgStats.description (calculateWattsPerKg stats_238 (-70))
     = "Professional/elite level"%string.
Proof.
  apply (calculateWattsPerKg_fallback stats_238 (-70)).
  repeat constructor.
Defined.

(** The ratios that are in no band: the negative ones and NaN. *)
Lemma negative_ratio_no_band (x : number) :
  (x <? 0) = true -> Forall (fun g => in_band x g = false) PERFORMANCE_GRADES.
Proof.
  intros H. repeat constructor; unfold in_band;
    cbn [PerformanceGrade.minWattsPerKg grade_row];
    rewrite (Binary64Facts.not_leb_negative _ x) by (reflexivity || exact H);
    reflexivity.
Qed.

Lemma nan_ratio_no_band (x : number) :
  isNaN x = true -> Forall (fun g => in_band x g = false) PERFORMANCE_GRADES.
Proof.
  intros H. repeat constructor; unfold in_band;
    cbn [PerformanceGrade.minWattsPerKg grade_row];
    rewrite (Binary64Facts.not_leb_nan _ x H); reflexivity.
Qed.

End GradeFacts.

Module GradeBandFacts.
Import JS FtpAnalysis Notions.
Local Open Scope float_scope.

(** In a contiguous table whose bounds are numbers, a ratio that is not below
    the lower bound of the first row is in the band of a row, and the lookup
    loop stops at such a row. *)
Lemma lookup_grade_in_band (x : number) (gs : list PerformanceGrade.t)
    (grade : PerformanceGrade.t) :
  gs <> [] ->
  contiguous gs ->
  Forall (fun g => is_nan (PerformanceGrade.minWattsPerKg g) = false) gs ->
  (x >=? PerformanceGrade.minWattsPerKg (hd grade gs)) = true ->
  In (lookup_grade x gs grade) gs
  /\ in_band x (lookup_grade x gs grade) = true.
Proof.
  induction gs as [|g gs IH]; [congruence|].
  intros _ Hc Hn Hlo. cbn [hd] in Hlo. cbn [lookup_grade].
  destruct (in_band x g) eqn:Hb; [split; [left; reflexivity | exact Hb]|].
  unfold in_band in Hb. rewrite Hlo in Hb. cbn [andb] in Hb.
  cbn [contiguous] in Hc.
  destruct gs as [|h gs].
  - rewrite Hc in Hb. discriminate Hb.
  - destruct Hc as [Hhi Hc]. rewrite Hhi in Hb.
    inversion Hn as [|? ? _ Hn']. subst.
    destruct IH as [Hin Hband]; [discriminate | exact Hc | exact Hn' | |].
    + cbn [hd]. apply OrderFacts.ltb_false_leb; [| |exact Hb].
      * apply (OrderFacts.leb_true_not_nan _ _ Hlo).
      * inversion Hn' as [|? ? Hh _]. exact Hh.
    + split; [right; exact Hin | exact Hband].
Qed.

(** X16.  When the classic-FTP-per-kg ratio is zero or more, the grade that
    [calculateWattsPerKg] reports is that of a row of the table whose band
    holds the ratio: the ratio is at least the row's lower bound and, for
    every row but the last, below its upper bound. *)
Theorem calculateWattsPerKg_grade_holds_ratio (stats : Stats.t)
    (riderWeight : number) :
  (0 <=? Stats.classicFTP stats / riderWeight) = true ->
  exists g,
    In g PERFORMANCE_GRADES
    /\ in_band (Stats.classicFTP stats / riderWeight) g = true
    /\ WattsPerKgStats.grade (calculateWattsPerKg stats riderWeight)
       = PerformanceGrade.grade g
    /\ WattsPerKgStats.category (calculateWattsPerKg stats riderWeight)
       = PerformanceGrade.category g
    /\ WattsPerKgStats.percentile (calculateWattsPerKg stats riderWeight)
       = PerformanceGrade.percentile g
    /\ WattsPerKgStats.description (calculateWattsPerKg stats riderWeight)
       = PerformanceGrade.description g.
Proof.
  intros H0. unfold calculateWattsPerKg.
  cbn [WattsPerKgStats.grade WattsPerKgStats.category WattsPerKgStats.percentile
       WattsPerKgStats.description].
  match goal with
  | |- context [lookup_grade ?x ?gs ?d] =>
      destruct (lookup_grade_in_band x gs d) as [Hin Hband]
  end.
  - discriminate.
  - cbn. repeat split.
  - repeat constructor.
  - exact H0.
  - eexists. split; [exact Hin|]. split; [exact Hband|]. repeat split.
Qed.

Lemma calculateWattsPerKg_grade_holds_ratio_witness :
  exists g,
    In g PERFORMANCE_GRADES
    /\ in_band (Stats.classicFTP stats_238 / 70) g = true
    /\ WattsPerKgStats.grade (calculateWattsPerKg stats_238 70)
       = PerformanceGrade.grade g
    /\ WattsPerKgStats.category (calculateWattsPerKg stats_238 70)
       = PerformanceGrade.category g
    /\ WattsPerKgStats.percentile (calculateWattsPerKg stats_238 70)
       = PerformanceGrade.percentile g
    /\ WattsPerKgStats.description (calculateWattsPerKg stats_238 70)
       = PerformanceGrade.description g.
Proof.
  apply (calculateWattsPerKg_grade_holds_ratio stats_238 70).
  reflexivity.
Defined.

Lemma first_percentile_lowest (g : PerformanceGrade.t)
    (gs : list PerformanceGrade.t) :
  percentile_ascending (g :: gs) ->
  is_nan (PerformanceGrade.percentile g) = false ->
  forall h, In h (g :: gs) ->
            (PerformanceGrade.percentile g <=? PerformanceGrade.percentile h) = true.
Proof.
  revert g. induction gs as [|k gs IH]; intros g Hasc Hn h Hin.
  - destruct Hin as [<-|[]]. apply OrderFacts.leb_refl, Hn.
  - destruct Hin as [<-|Hin]; [apply OrderFacts.leb_refl, Hn|].
    cbn [percentile_ascending] in Hasc. destruct Hasc as [Hlt Hasc].
    apply (OrderFacts.leb_trans _ (PerformanceGrade.percentile k)).
    + apply OrderFacts.ltb_leb, Hlt.
    + apply IH; [exact Hasc | apply (OrderFacts.ltb_true_not_nan _ _ Hlt) | exact Hin].
Qed.

Lemma lookup_grade_monotone (x y : number) (gs : list PerformanceGrade.t)
    (grade : PerformanceGrade.t) :
  gs <> [] ->
  contiguous gs ->
  percentile_ascending gs ->
  Forall (fun g => is_nan (PerformanceGrade.minWattsPerKg g) = false) gs ->
  Forall (fun g => is_nan (PerformanceGrade.percentile g) = false) gs ->
  (x >=? PerformanceGrade.minWattsPerKg (hd grade gs)) = true ->
  (x <=? y) = true ->
  (PerformanceGrade.percentile (lookup_grade x gs grade)
   <=? PerformanceGrade.percentile (lookup_grade y gs grade)) = true.
Proof.
  induction gs as [|g gs IH]; [congruence|].
  intros _ Hc Hasc Hn Hp Hlo Hxy. cbn [hd] in Hlo.
  assert (Hloy : (y >=? PerformanceGrade.minWattsPerKg g) = true)
    by (apply (OrderFacts.leb_trans _ x); assumption).
  destruct (in_band x g) eqn:Hb.
  - replace (lookup_grade x (g :: gs) grade) with g
      by (cbn [lookup_grade]; rewrite Hb; reflexivity).
    apply (first_percentile_lowest g gs); [exact Hasc | |].
    + inversion Hp; assumption.
    + apply lookup_grade_in_band;
        [discriminate | exact Hc | exact Hn | exact Hloy].
  - pose proof Hb as Hb'. unfold in_band in Hb'. rewrite Hlo in Hb'.
    cbn [andb] in Hb'. cbn [contiguous] in Hc.
    destruct gs as [|h gs]; [rewrite Hc in Hb'; discriminate Hb'|].
    destruct Hc as [Hhi Hc]. rewrite Hhi in Hb'.
    inversion Hn as [|? ? _ Hn']. inversion Hp as [|? ? _ Hp']. subst.
    assert (Hh : is_nan (PerformanceGrade.minWattsPerKg h) = false)
      by (inversion Hn'; assumption).
    assert (Hx : (x >=? PerformanceGrade.minWattsPerKg h) = true).
    { apply OrderFacts.ltb_false_leb; [| exact Hh | exact Hb'].
      apply (OrderFacts.leb_true_not_nan _ _ Hlo). }
    assert (Hby : in_band y g = false).
    { unfold in_band. rewrite Hloy, Hhi. cbn [andb].
      apply OrderFacts.leb_not_ltb. apply (OrderFacts.leb_trans _ x); assumption. }
    cbn [lookup_grade]. rewrite Hb, Hby.
    cbn [percentile_ascending] in Hasc. destruct Hasc as [_ Hasc].
    apply IH; [discriminate | exact Hc | exact Hasc | exact Hn' | exact Hp'
               | exact Hx | exact Hxy].
Qed.

(** X17.  The grade follows the ratio: of two ratios that are zero or more,
    the higher one is never given the lower percentile. *)
Theorem calculateWattsPerKg_percentile_monotone (stats1 stats2 : Stats.t)
    (weight1 weight2 : number) :
  (0 <=? Stats.classicFTP stats1 / weight1) = true ->
  (Stats.classicFTP stats1 / weight1 <=? Stats.classicFTP stats2 / weight2) = true ->
  (WattsPerKgStats.percentile (calculateWattsPerKg stats1 weight1)
   <=? WattsPerKgStats.percentile (calculateWattsPerKg stats2 weight2)) = true.
Proof.
  intros H0 Hle. unfold calculateWattsPerKg. cbn [WattsPerKgStats.percentile].
  apply lookup_grade_monotone.
  - discriminate.
  - cbn. repeat split.
  - cbn. repeat split.
  - repeat constructor.
  - repeat constructor.
  - exact H0.
  - exact Hle.
Qed.

Lemma calculateWattsPerKg_percentile_monotone_witness :
  (WattsPerKgStats.percentile (calculateWattsPerKg stats_238 80)
   <=? WattsPerKgStats.percentile (calculateWattsPerKg stats_238 60)) = true.
Proof.
  apply (calculateWattsPerKg_percentile_monotone stats_238 stats_238 80 60);
    reflexivity.
Defined.
End GradeBandFacts.

Module SegmentFacts.

Import JS FtpAnalysis Notions.
Local Open Scope float_scope.

(** C7.  When the number of samples of the power series equals
    [targetDurationMinutes * 60] (20 minutes when the argument is omitted),
    [extractBestFTPSegment] returns, and its result holds the power series and
    every optional series as they were given, with start 0 and the length of
    the power series as duration. *)
Theorem extractBestFTPSegment_exact_length
    (powerData : list number) (heartRateData : option (list number))
    (targetDurationMinutes : option number)
    (speedData distanceData elevationData : option (list number)) :
  (match targetDurationMinutes with Some m => m | None => 20 end * 60
   =? of_nat (List.length powerData)) = true ->
  exists r,
    extractBestFTPSegment powerData heartRateData targetDurationMinutes
      speedData distanceData elevationData = Some r
    /\ Segment.power r = powerData
    /\ Segment.heartRate r = heartRateData
    /\ Segment.speed r = speedData
    /\ Segment.distance r = distanceData
    /\ Segment.elevation r = elevationData
    /\ SegmentInfo.startTime (Segment.segmentInfo r) = 0
    /\ SegmentInfo.duration (Segment.segmentInfo r)
       = of_nat (List.length powerData).
Proof.
  intros Hlen. unfold extractBestFTPSegment.
  destruct targetDurationMinutes as [m|]; cbv zeta; eexists.
  all: rewrite (Binary64Facts.close_to_target _ _
                  (Binary64Facts.of_nat_nonneg (List.length powerData)) Hlen).
  all: split; [reflexivity|].
  all: cbn [Segment.power Segment.heartRate Segment.speed Segment.distance
            Segment.elevation Segment.segmentInfo SegmentInfo.startTime
            SegmentInfo.duration].
  all: repeat split.
Qed.

Lemma extractBestFTPSegment_exact_length_witness :
  exists r,
    extractBestFTPSegment (repeat 250 60) (Some (repeat 150 60)) (Some 1)
      None None None = Some r
    /\ Segment.power r = repeat 250 60
    /\ Segment.heartRate r = Some (repeat 150 60)
    /\ Segment.speed r = None
    /\ Segment.distance r = None
    /\ Segment.elevation r = None
    /\ SegmentInfo.startTime (Segment.segmentInfo r) = 0
    /\ SegmentInfo.duration (Segment.segmentInfo r)
       = of_nat (List.length (repeat 250 60)).
Proof.
  apply (extractBestFTPSegment_exact_length (repeat 250 60)
           (Some (repeat 150 60)) (Some 1) None None None).
  reflexivity.
Defined.

(** The default target: a series of 1200 samples is passed through. *)
Example twenty_minutes_pass_through :
  option_map Segment.segmentInfo
    (extractBestFTPSegment (repeat 250 1200) None None None None None)
  = Some {| SegmentInfo.startTime := 0;
            SegmentInfo.duration := 1200;
            SegmentInfo.reason :=
              "Full 20-minute workout used (close to 20-minute target)" |}.
Proof. vm_compute. reflexivity. Qed.

(** A long series with one block of high power: the window on that block is
    chosen. *)
Example dominant_block_is_found :
  option_map Segment.segmentInfo
    (extractBestFTPSegment
       (repeat 200 1200 ++ repeat 400 1200 ++ repeat 200 1200)%list
       None (Some 20) None None None)
  = Some {| SegmentInfo.startTime := 1200;
            SegmentInfo.duration := 1200;
            SegmentInfo.reason :=
              "Best 20-minute segment from 60-minute workout (minutes 20-40, avg 400w)" |}.
Proof. vm_compute. reflexivity. Qed.

End SegmentFacts.

Module SegmentShapeFacts.
Import JS FtpAnalysis Notions.
Local Open Scope float_scope.

(** A product by 0.75 is a number whenever the product by 1.25 is. *)
Lemma three_quarters_not_nan (x : number) :
  is_nan (x * 1.25) = false -> is_nan (x * 0.75) = false.
Proof.
  intros H. apply OrderFacts.not_nan_Prim2SF in H.
  apply Binary64Facts.is_nan_false.
  rewrite mul_spec in *.
  rewrite Binary64Facts.Prim2SF_five_quarters in H.
  rewrite Binary64Facts.Prim2SF_three_quarters.
  destruct (Prim2SF x) as [s|s| |s m e]; try discriminate; try contradiction.
  unfold three_quarters. cbn [SFmul].
  apply Binary64Facts.binary_round_aux_not_nan. lia.
Qed.

(** X18.  A workout that is not longer than the target by more than a quarter
    is never cut: when the number of samples is at most
    [targetDurationMinutes * 60 * 1.25], every series is returned as given,
    with start 0 and the number of samples as duration. *)
Theorem extractBestFTPSegment_short_or_close
    (powerData : list number) (heartRateData : option (list number))
    (targetDurationMinutes : option number)
    (speedData distanceData elevationData : option (list number)) :
  (of_nat (List.length powerData)
   <=? match targetDurationMinutes with Some m => m | None => 20 end * 60 * 1.25)
  = true ->
  exists r,
    extractBestFTPSegment powerData heartRateData targetDurationMinutes
      speedData distanceData elevationData = Some r
    /\ Segment.power r = powerData
    /\ Segment.heartRate r = heartRateData
    /\ Segment.speed r = speedData
    /\ Segment.distance r = distanceData
    /\ Segment.elevation r = elevationData
    /\ SegmentInfo.startTime (Segment.segmentInfo r) = 0
    /\ SegmentInfo.duration (Segment.segmentInfo r)
       = of_nat (List.length powerData).
Proof.
  intros Hlen. unfold extractBestFTPSegment.
  destruct targetDurationMinutes as [m|]; cbv zeta; rewrite Hlen; cbn [andb].
  all: match goal with
       | |- context [if ?t * 0.75 <=? ?len then _ else _] =>
           destruct (t * 0.75 <=? len) eqn:Hlow;
           [|rewrite (OrderFacts.leb_false_ltb _ _
                        (three_quarters_not_nan t
                           (proj2 (OrderFacts.leb_true_not_nan _ _ Hlen)))
                        (proj1 (OrderFacts.leb_true_not_nan _ _ Hlen)) Hlow)]
       end.
  all: eexists; split; [reflexivity|].
  all: cbn [Segment.power Segment.heartRate Segment.speed Segment.distance
            Segment.elevation Segment.segmentInfo SegmentInfo.startTime
            SegmentInfo.duration].
  all: repeat split.
Qed.

Lemma extractBestFTPSegment_short_or_close_witness :
  exists r,
    extractBestFTPSegment (repeat 250 90) (Some (repeat 150 90)) (Some 20)
      None None None = Some r
    /\ Segment.power r = repeat 250 90
    /\ Segment.heartRate r = Some (repeat 150 90)
    /\ Segment.speed r = None
    /\ Segment.distance r = None
    /\ Segment.elevation r = None
    /\ SegmentInfo.startTime (Segment.segmentInfo r) = 0
    /\ SegmentInfo.duration (Segment.segmentInfo r)
       = of_nat (List.length (repeat 250 90)).
Proof.
  apply (extractBestFTPSegment_short_or_close (repeat 250 90)
           (Some (repeat 150 90)) (Some 20) None None None).
  reflexivity.
Defined.

(** X19.  Whatever [extractBestFTPSegment] returns, its power series is one
    block of consecutive samples of the power series it was given. *)
Theorem extractBestFTPSegment_block
    (powerData : list number) (heartRateData : option (list number))
    (targetDurationMinutes : option number)
    (speedData distanceData elevationData : option (list number))
    (r : Segment.t) :
  extractBestFTPSegment powerData heartRateData targetDurationMinutes
    speedData distanceData elevationData = Some r ->
  exists before after,
    powerData = (before ++ Segment.power r ++ after)%list.
Proof.
  unfold extractBestFTPSegment. cbv zeta.
  destruct (_ && _).
  - intros [= <-]. exists [], []. cbn [Segment.power app].
    rewrite app_nil_r. reflexivity.
  - destruct (_ <? _).
    + intros [= <-]. exists [], []. cbn [Segment.power app].
      rewrite app_nil_r. reflexivity.
    + destruct (scan_windows _ _ _ _ _ _) as [[bestAverage bestStartIndex]|];
        [|discriminate].
      intros [= <-]. cbn [Segment.power]. apply ListFacts.slice_block.
Qed.

Lemma extractBestFTPSegment_block_witness :
  exists before after,
    (repeat 200 1200 ++ repeat 400 1200 ++ repeat 200 1200)%list
    = (before ++ repeat 400 1200 ++ after)%list.
Proof.
  apply (extractBestFTPSegment_block
           (repeat 200 1200 ++ repeat 400 1200 ++ repeat 200 1200)%list
           None (Some 20) None None None
           {| Segment.power := repeat 400 1200;
              Segment.heartRate := None;
              Segment.speed := None;
              Segment.distance := None;
              Segment.elevation := None;
              Segment.segmentInfo :=
                {| SegmentInfo.startTime := 1200;
                   SegmentInfo.duration := 1200;
                   SegmentInfo.reason :=
                     "Best 20-minute segment from 60-minute workout (minutes 20-40, avg 400w)" |} |}).
  vm_compute. reflexivity.
Defined.


End SegmentShapeFacts.

Module WindowFacts.
Import JS FtpAnalysis Notions.
Local Open Scope float_scope.

(** 2^53 is above every array length below it. *)
Lemma below_2_53 (n : nat) :
  (Z.of_nat n < 2 ^ 53)%Z -> (9007199254740992 <=? of_nat n) = false.
Proof.
  intros Hn. rewrite leb_spec, IntegerFacts.Prim2SF_of_nat by exact Hn.
  destruct (canonical (Z.of_nat n)) as [s|s| |s m e] eqn:Ec;
    try (destruct (Z.of_nat n); discriminate Ec).
  - reflexivity.
  - assert (Habs : (Z.abs (Z.of_nat n) < 2 ^ 53)%Z) by lia.
    destruct (IntegerFacts.canonical_exponent _ s m e Habs Ec) as [He [_ [Hs _]]].
    vm_compute (Prim2SF 9007199254740992).
    destruct s; [reflexivity|].
    unfold SFleb, SFcompare.
    destruct (Z.compare_spec 1 e); try reflexivity; lia.
Qed.

(** *** The window loop on a long workout, for the target of 20 minutes *)

Section Scan.

Variable p : list number.
Hypothesis Hlong : (1200 <= List.length p)%nat.
Hypothesis Hfit : (Z.of_nat (List.length p) < 2 ^ 53)%Z.

Lemma loop_test (k : nat) :
  (30 * k <= List.length p - 1200 + 30)%nat ->
  (of_nat (30 * k) <=? of_nat (List.length p) - of_nat 1200)
  = (30 * k <=? List.length p - 1200)%nat.
Proof.
  intros Hk. rewrite IntegerFacts.of_nat_sub by assumption.
  apply IntegerFacts.of_nat_leb; lia.
Qed.

Lemma loop_segment (k : nat) :
  (30 * k <= List.length p - 1200)%nat ->
  slice p (of_nat (30 * k)) (of_nat (30 * k) + of_nat 1200)
  = window 1200 (30 * k) p.
Proof.
  intros Hk. rewrite IntegerFacts.of_nat_add by lia.
  rewrite ListFacts.slice_of_nat by lia. f_equal. lia.
Qed.

Lemma loop_next (k : nat) :
  (30 * k <= List.length p - 1200)%nat ->
  of_nat (30 * k) + of_nat 30 = of_nat (30 * S k).
Proof.
  intros Hk. rewrite IntegerFacts.of_nat_add by lia. f_equal. lia.
Qed.

Lemma loop_ends (k : nat) :
  (30 * k <= List.length p - 1200 + 30)%nat ->
  (k <= (List.length p - 1200) / 30 + 1)%nat.
Proof.
  intros Hk.
  pose proof (Nat.mul_succ_div_gt (List.length p - 1200) 30 ltac:(lia)) as H.
  lia.
Qed.

(** The loop ends, on the running best or on a window it has visited; and
    when the averages are numbers, nothing it has visited is above the best
    it ends on. *)
Lemma scan_windows_run (fuel k : nat) (best bi : number) :
  (30 * k <= List.length p - 1200 + 30)%nat ->
  ((List.length p - 1200) / 30 + 2 <= fuel + k)%nat ->
  exists best' s',
    scan_windows fuel p (of_nat 1200) (of_nat (30 * k)) best bi = Some (best', s')
    /\ ((best' = best /\ s' = bi)
        \/ exists j, (k <= j)%nat /\ (30 * j + 1200 <= List.length p)%nat
                     /\ s' = of_nat (30 * j)
                     /\ best' = mean (window 1200 (30 * j) p))
    /\ (is_nan best = false ->
        (forall j, (30 * j + 1200 <= List.length p)%nat ->
                   is_nan (mean (window 1200 (30 * j) p)) = false) ->
        (best <=? best') = true
        /\ forall j, (k <= j)%nat -> (30 * j + 1200 <= List.length p)%nat ->
                     (mean (window 1200 (30 * j) p) <=? best') = true).
Proof.
  revert k best bi. induction fuel as [|fuel IH]; intros k best bi Hk Hfuel.
  - pose proof (loop_ends k Hk). lia.
  - cbn [scan_windows]. rewrite loop_test by exact Hk.
    destruct (Nat.leb_spec (30 * k) (List.length p - 1200)) as [Hin|Hout].
    + rewrite loop_segment by exact Hin.
      fold (mean (window 1200 (30 * k) p)).
      change 30 with (of_nat 30). rewrite loop_next by exact Hin.
      destruct (mean (window 1200 (30 * k) p) >? best) eqn:Hbetter.
      * destruct (IH (S k) (mean (window 1200 (30 * k) p)) (of_nat (30 * k)))
          as [best' [s' [Hrun [Hsel Hopt]]]]; [lia | lia |].
        exists best', s'. split; [exact Hrun|]. split.
        -- right. destruct Hsel as [[-> ->]|[j [Hj [Hjn [Hs Hb]]]]].
           ++ exists k. repeat split; try lia; reflexivity.
           ++ exists j. repeat split; try lia; assumption.
        -- intros Hbest Hmeans.
           destruct (Hopt (Hmeans k ltac:(lia)) Hmeans) as [Hle Hall].
           split.
           ++ apply (OrderFacts.leb_trans _ (mean (window 1200 (30 * k) p)));
                [apply OrderFacts.ltb_leb, Hbetter | exact Hle].
           ++ intros j Hj Hjn. destruct (Nat.eq_dec j k) as [->|Hne];
                [exact Hle | apply Hall; lia].
      * destruct (IH (S k) best bi) as [best' [s' [Hrun [Hsel Hopt]]]]; [lia | lia |].
        exists best', s'. split; [exact Hrun|]. split.
        -- destruct Hsel as [Hsame|[j [Hj [Hjn [Hs Hb]]]]]; [left; exact Hsame|].
           right. exists j. repeat split; try lia; assumption.
        -- intros Hbest Hmeans.
           destruct (Hopt Hbest Hmeans) as [Hle Hall].
           split; [exact Hle|].
           intros j Hj Hjn. destruct (Nat.eq_dec j k) as [->|Hne];
             [|apply Hall; lia].
           apply (OrderFacts.leb_trans _ best); [|exact Hle].
           apply OrderFacts.ltb_false_leb;
             [exact Hbest | apply Hmeans; lia | exact Hbetter].
    + exists best, bi. split; [reflexivity|]. split; [left; split; reflexivity|].
      intros Hbest _. split; [apply OrderFacts.leb_refl, Hbest|].
      intros j Hj Hjn. lia.
Qed.

Lemma window_fuel_enough :
  window_fuel p (of_nat 1200) = ((List.length p - 1200) / 30 + 2)%nat.
Proof.
  unfold window_fuel. cbv zeta.
  rewrite IntegerFacts.of_nat_sub by assumption.
  rewrite below_2_53 by lia.
  rewrite IntegerFacts.ToIntegerOrInfinity_of_nat by lia.
  rewrite Z.max_l by lia.
  change 30%Z with (Z.of_nat 30). rewrite <- Nat2Z.inj_div.
  change 2%Z with (Z.of_nat 2). rewrite <- Nat2Z.inj_add.
  apply Nat2Z.id.
Qed.

End Scan.
End WindowFacts.

Module LongWorkoutFacts.
Import JS FtpAnalysis Notions.
Local Open Scope float_scope.

(** The sum and the average of numbers that are zero or more. *)
Lemma SFadd_nonneg (x y : spec_float) :
  SFleb (S754_zero false) x = true -> SFleb (S754_zero false) y = true ->
  SFleb (S754_zero false) (SFadd prec emax x y) = true.
Proof.
  intros Hx Hy.
  destruct x as [sx|sx| |sx mx ex]; try discriminate Hx;
    destruct y as [sy|sy| |sy my ey]; try discriminate Hy;
    try (destruct sx; try discriminate Hx); try (destruct sy; try discriminate Hy);
    try reflexivity.
  cbn [SFadd cond_Zopp].
  match goal with
  | |- context [binary_normalize _ _ (Zpos ?a + Zpos ?b)%Z _ _] =>
      change (Zpos a + Zpos b)%Z with (Zpos (a + b))
  end.
  apply SignFacts.binary_round_nonneg.
Qed.

Lemma sum_nonneg (xs : list number) (acc : number) :
  (0 <=? acc) = true -> Forall (fun x => (0 <=? x) = true) xs ->
  (0 <=? fold_left add xs acc) = true.
Proof.
  intros Hacc Hxs. revert acc Hacc.
  induction Hxs as [|x xs Hx _ IH]; intros acc Hacc; cbn [fold_left];
    [exact Hacc|].
  apply IH. rewrite leb_spec, add_spec in *. apply SFadd_nonneg; assumption.
Qed.

Lemma SFdiv_nonneg (x : spec_float) (m : BinNums.positive) (e : Z) :
  SFleb (S754_zero false) x = true ->
  SFleb (S754_zero false) (SFdiv prec emax x (S754_finite false m e)) = true.
Proof.
  intros Hx.
  destruct x as [sx|sx| |sx mx ex]; try discriminate Hx;
    try (destruct sx; try discriminate Hx); try reflexivity.
  cbn [SFdiv xorb]. unfold SFdiv_core_binary.
  match goal with
  | |- context [Z.div_eucl ?a ?b] =>
      pose proof (Z.div_eucl_eq a b ltac:(lia)) as Heq;
      pose proof (Z.mod_pos_bound a b ltac:(lia)) as Hmod;
      assert (Ha : (0 <= a)%Z);
      [|unfold Z.modulo in Hmod; destruct (Z.div_eucl a b) as [q r]]
  end.
  - destruct (_ - _ - _)%Z; try lia. apply Z.shiftl_nonneg. lia.
  - assert (Hq : (0 <= q)%Z) by nia.
    destruct (Binary64Facts.binary_round_aux_shape q
                (Z.min (fexp prec emax (Zdigits2 (Zpos mx) + ex - (Zdigits2 (Zpos m) + e)))
                       (ex - e))
                (new_location (Zpos m) r) Hq) as [m2 [Hm2 ->]].
    apply Binary64Facts.finish_nonneg.
    cbv zeta in Hm2.
    match type of Hm2 with
    | (?a / ?b <= _ <= _)%Z => assert (0 <= a / b)%Z by (apply Z.div_pos; lia)
    end.
    lia.
Qed.

Lemma mean_nonneg (xs : list number) :
  (0 < List.length xs)%nat -> (Z.of_nat (List.length xs) < 2 ^ 53)%Z ->
  Forall (fun x => (0 <=? x) = true) xs -> (0 <=? mean xs) = true.
Proof.
  intros Hlen Hfit Hxs. unfold mean.
  pose proof (sum_nonneg xs 0 eq_refl Hxs) as Hsum. unfold sum.
  rewrite leb_spec, div_spec in *.
  rewrite IntegerFacts.Prim2SF_of_nat by exact Hfit.
  destruct (Z.of_nat (List.length xs)) as [|q|q] eqn:Hq; try lia.
  cbn [canonical]. apply SFdiv_nonneg, Hsum.
Qed.

Lemma mean_is_number (xs : list number) :
  (0 < List.length xs)%nat -> (Z.of_nat (List.length xs) < 2 ^ 53)%Z ->
  Forall (fun x => is_finite x = true) xs -> is_nan (mean xs) = false.
Proof.
  intros Hlen Hfit Hxs. apply Binary64Facts.is_nan_false. unfold mean.
  rewrite div_spec, IntegerFacts.Prim2SF_of_nat by exact Hfit.
  destruct (Z.of_nat (List.length xs)) as [|q|q] eqn:Hq; try lia.
  cbn [canonical]. apply Binary64Facts.SFdiv_not_nan.
  apply Binary64Facts.sum_not_nan; [discriminate | exact Hxs].
Qed.

(** What the extraction does on more than 1500 samples, for the target of 20
    minutes: the loop ends on a window start [start], a multiple of 30, and
    every series is cut to the window of 1200 samples from there. *)
Lemma long_workout_run
    (powerData : list number) (heartRateData : option (list number))
    (targetDurationMinutes : option number)
    (speedData distanceData elevationData : option (list number)) :
  targetDurationMinutes = None \/ targetDurationMinutes = Some 20 ->
  (1500 < List.length powerData)%nat ->
  (Z.of_nat (List.length powerData) < 2 ^ 32)%Z ->
  exists r j bestAverage,
    extractBestFTPSegment powerData heartRateData targetDurationMinutes
      speedData distanceData elevationData = Some r
    /\ (30 * j + 1200 <= List.length powerData)%nat
    /\ Segment.power r = window 1200 (30 * j) powerData
    /\ Segment.heartRate r = option_map (window 1200 (30 * j)) heartRateData
    /\ Segment.speed r = option_map (window 1200 (30 * j)) speedData
    /\ Segment.distance r = option_map (window 1200 (30 * j)) distanceData
    /\ Segment.elevation r = option_map (window 1200 (30 * j)) elevationData
    /\ SegmentInfo.startTime (Segment.segmentInfo r) = of_nat (30 * j)
    /\ SegmentInfo.duration (Segment.segmentInfo r) = 1200
    /\ ((bestAverage = 0 /\ j = 0%nat)
        \/ bestAverage = mean (window 1200 (30 * j) powerData))
    /\ ((forall i, (30 * i + 1200 <= List.length powerData)%nat ->
                   is_nan (mean (window 1200 (30 * i) powerData)) = false) ->
        forall i, (30 * i + 1200 <= List.length powerData)%nat ->
                  (mean (window 1200 (30 * i) powerData) <=? bestAverage) = true).
Proof.
  intros Htarget Hlong Hfit.
  assert (Hfit53 : (Z.of_nat (List.length powerData) < 2 ^ 53)%Z) by lia.
  assert (H1200 : (1200 <= List.length powerData)%nat) by lia.
  destruct (WindowFacts.scan_windows_run powerData H1200 Hfit53
              (window_fuel powerData (of_nat 1200)) 0 0 0)
    as [bestAverage [s [Hrun [Hsel Hopt]]]];
    [lia | rewrite WindowFacts.window_fuel_enough by assumption; lia |].
  change (of_nat (30 * 0)) with 0 in Hrun.
  assert (Hstart : exists j, (30 * j + 1200 <= List.length powerData)%nat
                             /\ s = of_nat (30 * j)
                             /\ ((bestAverage = 0 /\ j = 0%nat)
                                 \/ bestAverage
                                    = mean (window 1200 (30 * j) powerData))).
  { destruct Hsel as [[-> ->]|[j [_ [Hjn [-> ->]]]]].
    - exists 0%nat. split; [lia|]. split; [reflexivity|]. left. split; reflexivity.
    - exists j. split; [exact Hjn|]. split; [reflexivity|]. right. reflexivity. }
  destruct Hstart as [j [Hjn [-> Hbest]]].
  assert (Hcut : forall xs : list number,
             slice xs (of_nat (30 * j)) (of_nat (30 * j) + of_nat 1200)
             = window 1200 (30 * j) xs).
  { intros xs. rewrite IntegerFacts.of_nat_add by lia.
    rewrite ListFacts.slice_of_nat by lia. f_equal. lia. }
  unfold extractBestFTPSegment.
  assert (Htests :
            (of_nat (List.length powerData) <=? of_nat 1500) = false
            /\ (of_nat (List.length powerData) <? of_nat 900) = false).
  { rewrite IntegerFacts.of_nat_leb, IntegerFacts.of_nat_ltb by lia.
    split; [apply Nat.leb_gt | apply Nat.ltb_ge]; lia. }
  destruct Htests as [Ht1 Ht2].
  destruct Htarget as [-> | ->]; cbv zeta.
  all: change (20 * 60 * 1.25) with (of_nat 1500).
  all: change (20 * 60 * 0.75) with (of_nat 900).
  all: change (20 * 60) with (of_nat 1200).
  all: rewrite Ht1, Ht2; cbn [andb].
  all: rewrite Hrun.
  all: eexists; exists j, bestAverage.
  all: split; [reflexivity|].
  all: cbn [Segment.power Segment.heartRate Segment.speed Segment.distance
            Segment.elevation Segment.segmentInfo SegmentInfo.startTime
            SegmentInfo.duration].
  all: rewrite !Hcut.
  all: split; [exact Hjn|].
  all: split; [reflexivity|].
  all: split; [destruct heartRateData; cbn [option_map]; rewrite ?Hcut; reflexivity|].
  all: split; [destruct speedData; cbn [option_map]; rewrite ?Hcut; reflexivity|].
  all: split; [destruct distanceData; cbn [option_map]; rewrite ?Hcut; reflexivity|].
  all: split; [destruct elevationData; cbn [option_map]; rewrite ?Hcut; reflexivity|].
  all: split; [reflexivity|].
  all: split; [reflexivity|].
  all: split; [exact Hbest|].
  all: intros Hmeans i Hi; apply (Hopt eq_refl Hmeans); [lia | exact Hi].
Qed.

(** X21.  A workout of more than 1500 samples is cut to 20 minutes: with the
    target of 20 minutes, the result holds exactly 1200 consecutive power
    samples, starting at a multiple of 30 samples that [startTime] reports,
    and every optional series is cut to the same window. *)
Theorem extractBestFTPSegment_long_workout
    (powerData : list number) (heartRateData : option (list number))
    (targetDurationMinutes : option number)
    (speedData distanceData elevationData : option (list number)) :
  targetDurationMinutes = None \/ targetDurationMinutes = Some 20 ->
  (1500 < List.length powerData)%nat ->
  (Z.of_nat (List.length powerData) < 2 ^ 32)%Z ->
  exists r j,
    extractBestFTPSegment powerData heartRateData targetDurationMinutes
      speedData distanceData elevationData = Some r
    /\ (30 * j + 1200 <= List.length powerData)%nat
    /\ List.length (Segment.power r) = 1200%nat
    /\ Segment.power r = window 1200 (30 * j) powerData
    /\ Segment.heartRate r = option_map (window 1200 (30 * j)) heartRateData
    /\ Segment.speed r = option_map (window 1200 (30 * j)) speedData
    /\ Segment.distance r = option_map (window 1200 (30 * j)) distanceData
    /\ Segment.elevation r = option_map (window 1200 (30 * j)) elevationData
    /\ SegmentInfo.startTime (Segment.segmentInfo r) = of_nat (30 * j)
    /\ SegmentInfo.duration (Segment.segmentInfo r) = 1200.
Proof.
  intros Htarget Hlong Hfit.
  destruct (long_workout_run powerData heartRateData targetDurationMinutes
              speedData distanceData elevationData Htarget Hlong Hfit)
    as [r [j [bestAverage [Hr [Hj [Hp [Hh [Hs [Hd [He [Hst [Hdu _]]]]]]]]]]]].
  exists r, j. split; [exact Hr|]. split; [exact Hj|].
  split; [rewrite Hp; apply ListFacts.length_window; lia|].
  repeat split; assumption.
Qed.

Lemma extractBestFTPSegment_long_workout_witness :
  exists r j,
    extractBestFTPSegment (repeat 250 1600) (Some (repeat 150 1600)) (Some 20)
      None None None = Some r
    /\ (30 * j + 1200 <= List.length (repeat 250 1600))%nat
    /\ List.length (Segment.power r) = 1200%nat
    /\ Segment.power r = window 1200 (30 * j) (repeat 250 1600)
    /\ Segment.heartRate r = option_map (window 1200 (30 * j)) (Some (repeat 150 1600))
    /\ Segment.speed r = option_map (window 1200 (30 * j)) None
    /\ Segment.distance r = option_map (window 1200 (30 * j)) None
    /\ Segment.elevation r = option_map (window 1200 (30 * j)) None
    /\ SegmentInfo.startTime (Segment.segmentInfo r) = of_nat (30 * j)
    /\ SegmentInfo.duration (Segment.segmentInfo r) = 1200.
Proof.
  apply (extractBestFTPSegment_long_workout (repeat 250 1600)
           (Some (repeat 150 1600)) (Some 20) None None None).
  - right. reflexivity.
  - rewrite repeat_length. lia.
  - rewrite repeat_length. lia.
Defined.

(** X22.  The window chosen is a best one.  For the target of 20 minutes and a
    workout of more than 1500 samples, all of them finite and zero or more,
    no window of 1200 samples that starts at a multiple of 30 has an average
    above the average of the power series returned. *)
Theorem extractBestFTPSegment_best_window
    (powerData : list number) (heartRateData : option (list number))
    (targetDurationMinutes : option number)
    (speedData distanceData elevationData : option (list number)) :
  targetDurationMinutes = None \/ targetDurationMinutes = Some 20 ->
  (1500 < List.length powerData)%nat ->
  (Z.of_nat (List.length powerData) < 2 ^ 32)%Z ->
  Forall (fun x => is_finite x = true /\ (0 <=? x) = true) powerData ->
  exists r,
    extractBestFTPSegment powerData heartRateData targetDurationMinutes
      speedData distanceData elevationData = Some r
    /\ forall i, (30 * i + 1200 <= List.length powerData)%nat ->
                 (mean (window 1200 (30 * i) powerData)
                  <=? mean (Segment.power r)) = true.
Proof.
  intros Htarget Hlong Hfit Hdata.
  destruct (long_workout_run powerData heartRateData targetDurationMinutes
              speedData distanceData elevationData Htarget Hlong Hfit)
    as [r [j [bestAverage [Hr [Hj [Hp [_ [_ [_ [_ [_ [_ [Hbest Hopt]]]]]]]]]]]]].
  exists r. split; [exact Hr|]. rewrite Hp.
  assert (Hwin : forall i, (30 * i + 1200 <= List.length powerData)%nat ->
             Forall (fun x => is_finite x = true /\ (0 <=? x) = true)
                    (window 1200 (30 * i) powerData)
             /\ List.length (window 1200 (30 * i) powerData) = 1200%nat).
  { intros i Hi. split; [|apply ListFacts.length_window; lia].
    unfold window.
    apply ListFacts.Forall_firstn, ListFacts.Forall_skipn, Hdata. }
  assert (Hmeans : forall i, (30 * i + 1200 <= List.length powerData)%nat ->
             is_nan (mean (window 1200 (30 * i) powerData)) = false).
  { intros i Hi. destruct (Hwin i Hi) as [Hall Hlen].
    apply mean_is_number; [lia | rewrite Hlen; lia|].
    revert Hall. apply Forall_impl. intros x Hx. apply Hx. }
  intros i Hi. pose proof (Hopt Hmeans i Hi) as Hle.
  destruct Hbest as [[-> ->]| ->]; [|exact Hle].
  apply (OrderFacts.leb_trans _ 0); [exact Hle|].
  destruct (Hwin 0%nat ltac:(lia)) as [Hall Hlen].
  apply mean_nonneg; [lia | rewrite Hlen; lia|].
  revert Hall. apply Forall_impl. intros x Hx. apply Hx.
Qed.

Lemma extractBestFTPSegment_best_window_witness :
  exists r,
    extractBestFTPSegment (repeat 250 1600) None (Some 20) None None None = Some r
    /\ forall i, (30 * i + 1200 <= List.length (repeat 250 1600))%nat ->
                 (mean (window 1200 (30 * i) (repeat 250 1600))
                  <=? mean (Segment.power r)) = true.
Proof.
  apply (extractBestFTPSegment_best_window (repeat 250 1600) None (Some 20)
           None None None).
  - right. reflexivity.
  - rewrite repeat_length. lia.
  - rewrite repeat_length. lia.
  - apply Forall_forall. intros x Hx. apply repeat_spec in Hx. subst x.
    split; reflexivity.
Defined.
End LongWorkoutFacts.

Module CsvFacts.

Import JS CsvParser Notions.
Local Open Scope string_scope.

Lemma length_push {A} (xs : list A) (x : A) :
  List.length (push xs x) = S (List.length xs).
Proof.
  unfold push. rewrite length_app. cbn. lia.
Qed.

(** *** The generic parser refuses an empty power series *)

(** X1.  Every result of [parseCSV] has a power series of at least one
    sample. *)
Lemma parseCSV_power_nonempty (csvContent : string) (d : ParsedData.t) :
  parseCSV csvContent = Some d -> (1 <= List.length (ParsedData.power d))%nat.
Proof.
  unfold parseCSV, try_or_null.
  destruct (List.length (split newline (trim csvContent)) <? 2)%nat;
    [discriminate|].
  destruct (findIndex _ _) as [powerIndex|]; [|discriminate].
  match goal with
  | |- context [(List.length ?l =? 0)%nat] =>
      destruct (Nat.eqb_spec (List.length l) 0) as [|Hne]
  end; [discriminate|].
  intros [= <-]. cbn [ParsedData.power]. lia.
Qed.

(** C1, at the input that breaks it.  For a file whose header is [Power] and
    whose only row is [abc], the TrainingPeaks variant returns a result with
    an empty power series, where the generic parser returns none. *)
Theorem parseTrainingPeaksCSV_empty_power :
  parseTrainingPeaksCSV (join_lines ["Power"; "abc"])
  = Some {| ParsedData.power := [];
            ParsedData.heartRate := None;
            ParsedData.speed := None;
            ParsedData.distance := None;
            ParsedData.elevation := None;
            ParsedData.time := [] |}
  /\ parseCSV (join_lines ["Power"; "abc"]) = None.
Proof.
  split; vm_compute; reflexivity.
Qed.

(** C3, at the input that breaks it.  The second row has no valid power
    value: it is left out of the power series but still counted in the time
    and heart-rate series. *)
Theorem parseCSV_series_misaligned :
  parseCSV (join_lines ["Power,HR"; "250,150"; "abc,151"])
  = Some {| ParsedData.power := [250%float];
            ParsedData.heartRate := Some [150%float; 151%float];
            ParsedData.speed := None;
            ParsedData.distance := None;
            ParsedData.elevation := None;
            ParsedData.time := [0%float; 1%float] |}.
Proof.
  vm_compute. reflexivity.
Qed.

(** *** The TrainingPeaks variant keeps the series aligned *)

Lemma parseTrainingPeaksCSV_row_aligned (powerIndex : nat) (hrIndex : option nat)
    (acc : columns) (row : nat * string) :
  aligned hrIndex acc ->
  aligned hrIndex (parseTrainingPeaksCSV_row powerIndex hrIndex acc row).
Proof.
  intros [Ht Hh]. destruct row as [i line].
  unfold parseTrainingPeaksCSV_row.
  destruct (negb _ && _); [|split; assumption].
  split; cbn [c_time c_power c_heartRate].
  - rewrite !length_push. congruence.
  - intros Hsome. destruct hrIndex as [hrIndex|]; [|congruence].
    rewrite !length_push. rewrite Hh by exact Hsome. reflexivity.
Qed.

Lemma fold_rows_aligned (powerIndex : nat) (hrIndex : option nat)
    (rows : list (nat * string)) (acc : columns) :
  aligned hrIndex acc ->
  aligned hrIndex
    (fold_left (parseTrainingPeaksCSV_row powerIndex hrIndex) rows acc).
Proof.
  revert acc. induction rows as [|row rows IH]; intros acc Hacc; cbn [fold_left].
  - exact Hacc.
  - apply IH, parseTrainingPeaksCSV_row_aligned, Hacc.
Qed.

Lemma includes_tail (c : ascii) (r sub : string) :
  includes r sub = true -> includes (String c r) sub = true.
Proof.
  intros H. cbn [includes]. rewrite H. apply orb_true_r.
Qed.

Lemma includes_prefix (s sub : string) :
  String.prefix sub s = true -> includes s sub = true.
Proof.
  intros H. destruct s; cbn [includes]; rewrite H; reflexivity.
Qed.

(** A header that mentions [avg_power] mentions [power]. *)
Lemma includes_avg_power (h : string) :
  includes h "avg_power" = true -> includes h "power" = true.
Proof.
  induction h as [|c r IH]; [discriminate|].
  cbn [includes]. intros H. apply orb_true_iff in H. destruct H as [H|H].
  - apply orb_true_iff. right.
    destruct r as [|c2 [|c3 [|c4 r]]];
      cbn [String.prefix] in H;
      repeat match type of H with
             | (if ?d then _ else _) = true => destruct d; [|discriminate H]
             end;
      try discriminate H.
    do 3 apply includes_tail. apply includes_prefix. exact H.
  - apply orb_true_iff. right. exact (IH H).
Qed.

Lemma findIndex_none {A} (p : A -> bool) (xs : list A) :
  findIndex p xs = None <-> Forall (fun x => p x = false) xs.
Proof.
  induction xs as [|x xs IH]; cbn [findIndex].
  - split; [constructor | reflexivity].
  - destruct (p x) eqn:Hp.
    + split; [discriminate|]. intros H. inversion H. congruence.
    + split.
      * intros H. constructor; [exact Hp|].
        apply IH. destruct (findIndex p xs); [discriminate H | reflexivity].
      * intros H. inversion H as [|? ? _ Hxs]. apply IH in Hxs.
        rewrite Hxs. reflexivity.
Qed.

(** When the TrainingPeaks variant finds no power column, neither does the
    generic parser it falls back to. *)
Lemma no_power_column (cols : list string) :
  findIndex (fun h => includes (toLowerCase h) "power"
                      || includes (toLowerCase h) "watts"
                      || String.eqb h "Power (watts)") (map trim cols) = None ->
  findIndex (fun h => includes h "power" || includes h "watts"
                      || includes h "avg_power")
            (map (fun h => toLowerCase (trim h)) cols) = None.
Proof.
  rewrite !findIndex_none, !Forall_map.
  apply Forall_impl. intros c H.
  apply orb_false_iff in H. destruct H as [H _].
  apply orb_false_iff in H. destruct H as [Hp Hw].
  rewrite Hp, Hw. cbn [orb].
  destruct (includes (toLowerCase (trim c)) "avg_power") eqn:Ha; [|reflexivity].
  apply includes_avg_power in Ha. congruence.
Qed.

(** X2.  Every result of the TrainingPeaks variant has a time series, and a
    heart-rate series when there is one, as long as its power series. *)
Lemma parseTrainingPeaksCSV_aligned (csvContent : string) (d : ParsedData.t) :
  parseTrainingPeaksCSV csvContent = Some d ->
  List.length (ParsedData.time d) = List.length (ParsedData.power d)
  /\ forall hr, ParsedData.heartRate d = Some hr ->
                List.length hr = List.length (ParsedData.power d).
Proof.
  unfold parseTrainingPeaksCSV, try_or_null.
  destruct (List.length (split newline (trim csvContent)) <? 2)%nat eqn:Hlines;
    [discriminate|].
  destruct (findIndex _ (map trim _)) as [powerIndex|] eqn:Hpower.
  - match goal with
    | |- context [fold_left (parseTrainingPeaksCSV_row _ ?hi) ?rows _] =>
        pose proof (fold_rows_aligned powerIndex hi rows no_columns) as Hal;
        destruct hi as [hrIndex|]
    end.
    all: destruct Hal as [Ht Hh];
      [split; [reflexivity | intros _; reflexivity]|].
    all: intros [= <-];
      cbn [ParsedData.time ParsedData.power ParsedData.heartRate].
    all: split; [exact Ht|]; intros hr [= <-].
    apply Hh. discriminate.
  - apply no_power_column in Hpower.
    unfold parseCSV, try_or_null. rewrite Hlines, Hpower. discriminate.
Qed.

End CsvFacts.

Module CsvShapeFacts.
Import JS CsvParser Notions.
Import FtpAnalysis.
Local Open Scope string_scope.

Lemma findIndex_map {A B} (f : A -> B) (p : B -> bool) (xs : list A) :
  findIndex p (map f xs) = findIndex (fun x => p (f x)) xs.
Proof.
  induction xs as [|x xs IH]; cbn [map findIndex]; [reflexivity|].
  rewrite IH. reflexivity.
Qed.

Lemma findIndex_ext {A} (p q : A -> bool) (xs : list A) :
  (forall x, p x = q x) -> findIndex p xs = findIndex q xs.
Proof.
  intros H. induction xs as [|x xs IH]; cbn [findIndex]; [reflexivity|].
  rewrite H, IH. reflexivity.
Qed.

(** The three tests of the TrainingPeaks variant come to [names_power]: the
    header [Power (watts)] mentions power. *)
Lemma names_power_TrainingPeaks (h : string) :
  includes (toLowerCase h) "power" || includes (toLowerCase h) "watts"
  || String.eqb h "Power (watts)" = names_power h.
Proof.
  fold (names_power h).
  destruct (names_power h) eqn:Hn; [reflexivity|].
  destruct (String.eqb_spec h "Power (watts)") as [->|_]; [|reflexivity].
  discriminate Hn.
Qed.

(** So do the three tests of the generic parser: a header that mentions
    [avg_power] mentions [power]. *)
Lemma names_power_generic (c : string) :
  includes (toLowerCase (trim c)) "power" || includes (toLowerCase (trim c)) "watts"
  || includes (toLowerCase (trim c)) "avg_power" = names_power (trim c).
Proof.
  fold (names_power (trim c)).
  destruct (names_power (trim c)) eqn:Hn; [reflexivity|].
  destruct (includes (toLowerCase (trim c)) "avg_power") eqn:Ha; [|reflexivity].
  apply CsvFacts.includes_avg_power in Ha.
  unfold names_power in Hn. rewrite Ha in Hn. discriminate Hn.
Qed.

Lemma powerIndex_TrainingPeaks (csvContent : string) :
  findIndex (fun h => includes (toLowerCase h) "power"
                      || includes (toLowerCase h) "watts"
                      || String.eqb h "Power (watts)")
            (map trim (split comma (nth 0 (split newline (trim csvContent)) "")))
  = power_column csvContent.
Proof.
  apply findIndex_ext, names_power_TrainingPeaks.
Qed.

Lemma powerIndex_generic (csvContent : string) :
  findIndex (fun h => includes h "power" || includes h "watts"
                      || includes h "avg_power")
            (map (fun h => toLowerCase (trim h))
                 (split comma (nth 0 (split newline (trim csvContent)) "")))
  = power_column csvContent.
Proof.
  unfold power_column. rewrite !findIndex_map.
  apply findIndex_ext, names_power_generic.
Qed.

Lemma timeIndex_generic (csvContent : string) :
  findIndex (fun h => includes h "time" || includes h "elapsed"
                      || includes h "seconds")
            (map (fun h => toLowerCase (trim h))
                 (split comma (nth 0 (split newline (trim csvContent)) "")))
  = time_column csvContent.
Proof.
  unfold time_column. rewrite !findIndex_map. reflexivity.
Qed.

(** The rows of the loop are the data rows, numbered from 1. *)
Lemma length_tl {A} (xs : list A) : List.length (tl xs) = (List.length xs - 1)%nat.
Proof. destruct xs; cbn; lia. Qed.

Lemma map_snd_combine {A B} (f : A -> B) (k : nat) (xs : list A) :
  map (fun r : nat * A => f (snd r)) (combine (seq k (List.length xs)) xs)
  = map f xs.
Proof.
  revert k. induction xs as [|x xs IH]; intros k; cbn; [reflexivity|].
  rewrite IH. reflexivity.
Qed.

Lemma map_snd_data_rows {B} (f : string -> B) (lines : list string) :
  map (fun r : nat * string => f (snd r)) (data_rows lines) = map f (tl lines).
Proof.
  unfold data_rows. rewrite <- length_tl. apply map_snd_combine.
Qed.

Lemma length_data_rows (lines : list string) :
  List.length (data_rows lines) = List.length (tl lines).
Proof.
  unfold data_rows. rewrite length_combine, length_seq, length_tl. lia.
Qed.

(** *** The row loops, as one pass over the rows *)

Lemma fold_parseCSV_power (powerIndex : nat) (hrIndex timeIndex : option nat)
    (rows : list (nat * string)) (acc : columns) :
  c_power (fold_left (parseCSV_row powerIndex hrIndex timeIndex) rows acc)
  = (c_power acc
     ++ map Math_round
          (filter valid_power
             (map (fun r => power_cell powerIndex (snd r)) rows)))%list.
Proof.
  revert acc. induction rows as [|[i line] rows IH]; intros acc;
    cbn [fold_left map filter].
  - rewrite app_nil_r. reflexivity.
  - rewrite IH. unfold parseCSV_row. cbn [c_power snd].
    fold (power_cell powerIndex line).
    fold (valid_power (power_cell powerIndex line)).
    destruct (valid_power (power_cell powerIndex line)); [|reflexivity].
    unfold push. cbn [map]. rewrite <- app_assoc. reflexivity.
Qed.

Lemma fold_TrainingPeaks_power (powerIndex : nat) (hrIndex : option nat)
    (rows : list (nat * string)) (acc : columns) :
  c_power (fold_left (parseTrainingPeaksCSV_row powerIndex hrIndex) rows acc)
  = (c_power acc
     ++ map Math_round
          (filter valid_power
             (map (fun r => power_cell powerIndex (snd r)) rows)))%list.
Proof.
  revert acc. induction rows as [|[i line] rows IH]; intros acc;
    cbn [fold_left map filter].
  - rewrite app_nil_r. reflexivity.
  - rewrite IH. unfold parseTrainingPeaksCSV_row. cbn [snd].
    fold (power_cell powerIndex line).
    fold (valid_power (power_cell powerIndex line)).
    destruct (valid_power (power_cell powerIndex line)); [|reflexivity].
    cbn [c_power]. unfold push. cbn [map]. rewrite <- app_assoc. reflexivity.
Qed.

Lemma fold_parseCSV_heartRate (powerIndex hrIndex : nat) (timeIndex : option nat)
    (rows : list (nat * string)) (acc : columns) :
  List.length
    (c_heartRate (fold_left (parseCSV_row powerIndex (Some hrIndex) timeIndex)
                            rows acc))
  = (List.length (c_heartRate acc) + List.length rows)%nat.
Proof.
  revert acc. induction rows as [|[i line] rows IH]; intros acc;
    cbn [fold_left List.length]; [lia|].
  rewrite IH. unfold parseCSV_row. cbn [c_heartRate].
  destruct (negb _ && _); rewrite CsvFacts.length_push; lia.
Qed.

Lemma fold_parseCSV_time (powerIndex : nat) (hrIndex : option nat)
    (rows : list (nat * string)) (acc : columns) :
  c_time (fold_left (parseCSV_row powerIndex hrIndex None) rows acc)
  = (c_time acc ++ map (fun r => of_nat (fst r - 1)) rows)%list.
Proof.
  revert acc. induction rows as [|[i line] rows IH]; intros acc;
    cbn [fold_left map].
  - rewrite app_nil_r. reflexivity.
  - rewrite IH. unfold parseCSV_row. cbn [c_time fst].
    unfold push. rewrite <- app_assoc. reflexivity.
Qed.

Lemma counter_of_rows {A} (k : nat) (xs : list A) :
  map (fun r : nat * A => of_nat (fst r - 1)) (combine (seq (S k) (List.length xs)) xs)
  = map of_nat (seq k (List.length xs)).
Proof.
  revert k. induction xs as [|x xs IH]; intros k; cbn [List.length seq combine map];
    [reflexivity|].
  rewrite IH. cbn [fst]. replace (S k - 1)%nat with k by lia. reflexivity.
Qed.

(** The power series of both parsers: the valid power cells of the data rows,
    rounded, in the order of the rows. *)
Lemma power_of_parseCSV_rows (powerIndex : nat) (hrIndex timeIndex : option nat)
    (lines : list string) :
  c_power (fold_left (parseCSV_row powerIndex hrIndex timeIndex)
                     (data_rows lines) no_columns)
  = map Math_round (filter valid_power (map (power_cell powerIndex) (tl lines))).
Proof.
  rewrite fold_parseCSV_power, map_snd_data_rows. reflexivity.
Qed.

Lemma power_of_TrainingPeaks_rows (powerIndex : nat) (hrIndex : option nat)
    (lines : list string) :
  c_power (fold_left (parseTrainingPeaksCSV_row powerIndex hrIndex)
                     (data_rows lines) no_columns)
  = map Math_round (filter valid_power (map (power_cell powerIndex) (tl lines))).
Proof.
  rewrite fold_TrainingPeaks_power, map_snd_data_rows. reflexivity.
Qed.

(** X4.  [parseTrainingPeaksCSV] returns [null] exactly when the file has
    fewer than two lines or no header cell names power: its fallback to
    [parseCSV] never yields a result, and rows without a valid power value do
    not make it fail. *)
Theorem parseTrainingPeaksCSV_fails_iff (csvContent : string) :
  parseTrainingPeaksCSV csvContent = None
  <-> (List.length (csv_lines csvContent) < 2)%nat
      \/ power_column csvContent = None.
Proof.
  unfold parseTrainingPeaksCSV, try_or_null.
  rewrite powerIndex_TrainingPeaks. fold (csv_lines csvContent).
  destruct (Nat.ltb_spec (List.length (csv_lines csvContent)) 2) as [Hl|Hl].
  - split; [left; exact Hl | reflexivity].
  - destruct (power_column csvContent) as [powerIndex|] eqn:Hp.
    + split; [discriminate|]. intros [H|H]; [lia | discriminate H].
    + split; [right; reflexivity|]. intros _.
      unfold parseCSV, try_or_null.
      rewrite powerIndex_generic, Hp.
      destruct (_ <? _)%nat; reflexivity.
Qed.

(** X3.  [parseCSV] returns [null] exactly when the file has fewer than two
    lines, or no header cell names power, or no data row has a valid power
    value in the power column. *)
Theorem parseCSV_fails_iff (csvContent : string) :
  parseCSV csvContent = None
  <-> (List.length (csv_lines csvContent) < 2)%nat
      \/ match power_column csvContent with
         | None => True
         | Some powerIndex =>
             Forall (fun line => valid_power (power_cell powerIndex line) = false)
                    (csv_rows csvContent)
         end.
Proof.
  unfold parseCSV, try_or_null.
  rewrite powerIndex_generic. fold (csv_lines csvContent).
  destruct (Nat.ltb_spec (List.length (csv_lines csvContent)) 2) as [Hl|Hl].
  - split; [left; exact Hl | reflexivity].
  - destruct (power_column csvContent) as [powerIndex|] eqn:Hp.
    + rewrite power_of_parseCSV_rows. fold (csv_rows csvContent).
      rewrite length_map.
      destruct (filter valid_power (map (power_cell powerIndex) (csv_rows csvContent)))
        as [|v vs] eqn:Hf; cbn [List.length Nat.eqb].
      * split; [intros _; right|reflexivity].
        apply ListFacts.filter_nil_iff in Hf. rewrite Forall_map in Hf. exact Hf.
      * split; [discriminate|]. intros [H|H]; [lia|].
        assert (H' : Forall (fun v => valid_power v = false)
                       (map (power_cell powerIndex) (csv_rows csvContent)))
          by (apply Forall_map; exact H).
        apply ListFacts.filter_nil_iff in H'. congruence.
    + split; [intros _; right; exact I | reflexivity].
Qed.

(** X5.  What [parseCSV] returns: the power series holds the valid power
    cells of the data rows, rounded, in the order of the rows; a heart-rate
    series has one entry for every data row; and without a time column the
    time series counts the data rows from 0. *)
Theorem parseCSV_series (csvContent : string) (d : ParsedData.t) :
  parseCSV csvContent = Some d ->
  exists powerIndex,
    power_column csvContent = Some powerIndex
    /\ ParsedData.power d
       = map Math_round
           (filter valid_power
              (map (power_cell powerIndex) (csv_rows csvContent)))
    /\ (forall hr, ParsedData.heartRate d = Some hr ->
                   List.length hr = List.length (csv_rows csvContent))
    /\ (time_column csvContent = None ->
        ParsedData.time d
        = map of_nat (seq 0 (List.length (csv_rows csvContent)))).
Proof.
  unfold parseCSV, try_or_null.
  rewrite powerIndex_generic, timeIndex_generic. fold (csv_lines csvContent).
  destruct (_ <? _)%nat; [discriminate|].
  destruct (power_column csvContent) as [powerIndex|]; [|discriminate].
  destruct (_ =? _)%nat; [discriminate|].
  intros [= <-]. exists powerIndex. split; [reflexivity|].
  cbn [ParsedData.power ParsedData.heartRate ParsedData.time].
  split; [apply power_of_parseCSV_rows|].
  split.
  - intros hr Hhr.
    destruct (findIndex _ _) as [hrIndex|]; [|discriminate Hhr].
    injection Hhr as <-.
    rewrite fold_parseCSV_heartRate, length_data_rows. reflexivity.
  - intros ->. rewrite fold_parseCSV_time. cbn [c_time no_columns app].
    unfold data_rows, csv_rows. rewrite <- length_tl. apply counter_of_rows.
Qed.

(** X7.  Where [parseCSV] returns a result, [parseTrainingPeaksCSV] returns
    one too, with the same power series: trying [parseCSV] after the
    TrainingPeaks variant has returned [null] cannot succeed. *)
Theorem parsers_agree_on_power (csvContent : string) (d : ParsedData.t) :
  parseCSV csvContent = Some d ->
  exists d', parseTrainingPeaksCSV csvContent = Some d'
             /\ ParsedData.power d' = ParsedData.power d.
Proof.
  unfold parseCSV, parseTrainingPeaksCSV, try_or_null.
  rewrite powerIndex_generic, powerIndex_TrainingPeaks.
  destruct (_ <? _)%nat; [discriminate|].
  destruct (power_column csvContent) as [powerIndex|]; [|discriminate].
  destruct (_ =? _)%nat; [discriminate|].
  intros [= <-]. eexists. split; [reflexivity|].
  cbn [ParsedData.power].
  rewrite power_of_parseCSV_rows, power_of_TrainingPeaks_rows. reflexivity.
Qed.

Lemma fold_TrainingPeaks_time (powerIndex : nat) (hrIndex : option nat)
    (rows : list (nat * string)) (acc : columns) :
  c_time (fold_left (parseTrainingPeaksCSV_row powerIndex hrIndex) rows acc)
  = (c_time acc
     ++ map (fun r => of_nat (fst r - 1))
          (filter (fun r => valid_power (power_cell powerIndex (snd r))) rows))%list.
Proof.
  revert acc. induction rows as [|[i line] rows IH]; intros acc;
    cbn [fold_left map filter].
  - rewrite app_nil_r. reflexivity.
  - rewrite IH. unfold parseTrainingPeaksCSV_row. cbn [snd].
    fold (power_cell powerIndex line).
    fold (valid_power (power_cell powerIndex line)).
    destruct (valid_power (power_cell powerIndex line)); [|reflexivity].
    cbn [c_time]. unfold push. cbn [map fst]. rewrite <- app_assoc. reflexivity.
Qed.

Lemma numbers_of_valid_rows (f : string -> bool) (k : nat) (xs : list string) :
  map (fun r : nat * string => of_nat (fst r - 1))
      (filter (fun r => f (snd r)) (combine (seq (S k) (List.length xs)) xs))
  = map of_nat
      (map fst (filter (fun r => f (snd r)) (combine (seq k (List.length xs)) xs))).
Proof.
  revert k. induction xs as [|x xs IH]; intros k;
    cbn [List.length seq combine filter map snd]; [reflexivity|].
  destruct (f x); cbn [map fst]; rewrite IH; [|reflexivity].
  replace (S k - 1)%nat with k by lia. reflexivity.
Qed.

(** X6.  What [parseTrainingPeaksCSV] returns from a file with a power
    column: the power series holds the valid power cells of the data rows,
    rounded, in the order of the rows, and the time of a sample is the
    number of the data row it was read from, so that a row without a valid
    power value leaves a gap in the time series. *)
Theorem parseTrainingPeaksCSV_series (csvContent : string) (d : ParsedData.t) :
  parseTrainingPeaksCSV csvContent = Some d ->
  exists powerIndex,
    power_column csvContent = Some powerIndex
    /\ ParsedData.power d
       = map Math_round
           (filter valid_power
              (map (power_cell powerIndex) (csv_rows csvContent)))
    /\ ParsedData.time d
       = map of_nat (valid_row_numbers powerIndex (csv_rows csvContent)).
Proof.
  intros H.
  assert (Hsome : parseTrainingPeaksCSV csvContent <> None) by congruence.
  revert H. unfold parseTrainingPeaksCSV, try_or_null.
  rewrite powerIndex_TrainingPeaks. fold (csv_lines csvContent).
  destruct (_ <? _)%nat eqn:Hlines; [discriminate|].
  destruct (power_column csvContent) as [powerIndex|] eqn:Hp.
  - intros [= <-]. exists powerIndex. split; [reflexivity|].
    cbn [ParsedData.power ParsedData.time].
    split; [apply power_of_TrainingPeaks_rows|].
    rewrite fold_TrainingPeaks_time. cbn [c_time no_columns app].
    unfold data_rows, valid_row_numbers, csv_rows.
    rewrite <- length_tl.
    apply (numbers_of_valid_rows
             (fun line => valid_power (power_cell powerIndex line))).
  - intros H. exfalso. apply Hsome.
    unfold parseTrainingPeaksCSV, try_or_null.
    rewrite powerIndex_TrainingPeaks. fold (csv_lines csvContent).
    rewrite Hlines, Hp.
    unfold parseCSV, try_or_null. rewrite powerIndex_generic, Hp.
    destruct (_ <? _)%nat; reflexivity.
Qed.

Lemma parseCSV_power_nonempty_witness :
  (1 <= List.length [250%float])%nat.
Proof.
  apply (CsvFacts.parseCSV_power_nonempty
           (join_lines ["Power,HR"; "250,150"; "abc,151"]%string)
           {| ParsedData.power := [250%float];
              ParsedData.heartRate := Some [150%float; 151%float];
              ParsedData.speed := None;
              ParsedData.distance := None;
              ParsedData.elevation := None;
              ParsedData.time := [0%float; 1%float] |}).
  vm_compute. reflexivity.
Defined.

Lemma parseTrainingPeaksCSV_aligned_witness :
  List.length [0%float; 2%float] = List.length [250%float; 260%float]
  /\ forall hr, Some [150%float; 160%float] = Some hr ->
                List.length hr = List.length [250%float; 260%float].
Proof.
  apply (CsvFacts.parseTrainingPeaksCSV_aligned
           (join_lines ["Power,HR"; "250,150"; "abc,155"; "260,160"]%string)
           {| ParsedData.power := [250%float; 260%float];
              ParsedData.heartRate := Some [150%float; 160%float];
              ParsedData.speed := None;
              ParsedData.distance := None;
              ParsedData.elevation := None;
              ParsedData.time := [0%float; 2%float] |}).
  vm_compute. reflexivity.
Defined.

Lemma parseTrainingPeaksCSV_series_witness :
  exists powerIndex,
    power_column (join_lines ["Power"; "250"; "abc"; "260"]%string) = Some powerIndex
    /\ [250%float; 260%float]
       = map Math_round
           (filter valid_power
              (map (power_cell powerIndex)
                   (csv_rows (join_lines ["Power"; "250"; "abc"; "260"]%string))))
    /\ [0%float; 2%float]
       = map of_nat
           (valid_row_numbers powerIndex
              (csv_rows (join_lines ["Power"; "250"; "abc"; "260"]%string))).
Proof.
  apply (parseTrainingPeaksCSV_series
           (join_lines ["Power"; "250"; "abc"; "260"]%string)
           {| ParsedData.power := [250%float; 260%float];
              ParsedData.heartRate := None;
              ParsedData.speed := None;
              ParsedData.distance := None;
              ParsedData.elevation := None;
              ParsedData.time := [0%float; 2%float] |}).
  vm_compute. reflexivity.
Defined.

Lemma parseCSV_series_witness :
  exists powerIndex,
    power_column (join_lines ["Power,HR"; "250,150"; "abc,151"]%string)
    = Some powerIndex
    /\ [250%float]
       = map Math_round
           (filter valid_power
              (map (power_cell powerIndex)
                   (csv_rows (join_lines ["Power,HR"; "250,150"; "abc,151"]%string))))
    /\ (forall hr, Some [150%float; 151%float] = Some hr ->
                   List.length hr
                   = List.length
                       (csv_rows (join_lines ["Power,HR"; "250,150"; "abc,151"]%string)))
    /\ (time_column (join_lines ["Power,HR"; "250,150"; "abc,151"]%string) = None ->
        [0%float; 1%float]
        = map of_nat
            (seq 0 (List.length
                      (csv_rows (join_lines ["Power,HR"; "250,150"; "abc,151"]%string))))).
Proof.
  apply (parseCSV_series
           (join_lines ["Power,HR"; "250,150"; "abc,151"]%string)
           {| ParsedData.power := [250%float];
              ParsedData.heartRate := Some [150%float; 151%float];
              ParsedData.speed := None;
              ParsedData.distance := None;
              ParsedData.elevation := None;
              ParsedData.time := [0%float; 1%float] |}).
  vm_compute. reflexivity.
Defined.

Lemma parsers_agree_on_power_witness :
  exists d', parseTrainingPeaksCSV (join_lines ["Power,HR"; "250,150"; "abc,151"]%string)
             = Some d'
             /\ ParsedData.power d' = [250%float].
Proof.
  apply (parsers_agree_on_power
           (join_lines ["Power,HR"; "250,150"; "abc,151"]%string)
           {| ParsedData.power := [250%float];
              ParsedData.heartRate := Some [150%float; 151%float];
              ParsedData.speed := None;
              ParsedData.distance := None;
              ParsedData.elevation := None;
              ParsedData.time := [0%float; 1%float] |}).
  vm_compute. reflexivity.
Defined.
End CsvShapeFacts.

Module CsvValueFacts.
Import JS CsvParser Notions.
Import FtpAnalysis.
Local Open Scope float_scope.

Lemma valid_power_nonneg (v : number) : valid_power v = true -> (0 <=? v) = true.
Proof.
  unfold valid_power. intros H. apply andb_true_iff in H. apply H.
Qed.

Lemma rounded_valid_nonneg (vs : list number) :
  Forall (fun v => (0 <=? v) = true) (map Math_round (filter valid_power vs)).
Proof.
  apply Forall_map, Forall_forall. intros v Hv.
  apply filter_In in Hv. destruct Hv as [_ Hv].
  apply SignFacts.Math_round_nonneg, valid_power_nonneg, Hv.
Qed.

Lemma parseCSV_row_heartRate_nonneg (powerIndex : nat) (hrIndex timeIndex : option nat)
    (acc : columns) (row : nat * string) :
  Forall (fun v => (0 <=? v) = true) (c_heartRate acc) ->
  Forall (fun v => (0 <=? v) = true)
         (c_heartRate (parseCSV_row powerIndex hrIndex timeIndex acc row)).
Proof.
  intros Hacc. destruct row as [i line]. unfold parseCSV_row. cbn [c_heartRate].
  destruct hrIndex as [hrIndex|]; [|exact Hacc].
  destruct (negb _ && (_ >? 0)) eqn:Hv; unfold push; apply Forall_app;
    (split; [exact Hacc|]); repeat constructor.
  apply andb_true_iff in Hv. destruct Hv as [_ Hv].
  apply SignFacts.Math_round_nonneg, OrderFacts.ltb_leb, Hv.
Qed.

Lemma TrainingPeaks_row_heartRate_nonneg (powerIndex : nat) (hrIndex : option nat)
    (acc : columns) (row : nat * string) :
  Forall (fun v => (0 <=? v) = true) (c_heartRate acc) ->
  Forall (fun v => (0 <=? v) = true)
         (c_heartRate (parseTrainingPeaksCSV_row powerIndex hrIndex acc row)).
Proof.
  intros Hacc. destruct row as [i line]. unfold parseTrainingPeaksCSV_row.
  destruct (negb _ && (_ >=? 0)); [|exact Hacc]. cbn [c_heartRate].
  destruct hrIndex as [hrIndex|]; [|exact Hacc].
  unfold push; apply Forall_app; (split; [exact Hacc|]); repeat constructor.
  destruct (negb _ && (_ >? 0)) eqn:Hv; [|reflexivity].
  apply andb_true_iff in Hv. destruct Hv as [_ Hv].
  apply SignFacts.Math_round_nonneg, OrderFacts.ltb_leb, Hv.
Qed.

(** X8.  No parser returns a negative number or NaN: every power value and
    every heart-rate value of a result of [parseCSV] or
    [parseTrainingPeaksCSV] is zero or more. *)
Theorem parsed_values_nonneg (csvContent : string) (d : ParsedData.t) :
  parseCSV csvContent = Some d \/ parseTrainingPeaksCSV csvContent = Some d ->
  Forall (fun v => (0 <=? v) = true) (ParsedData.power d)
  /\ forall hr, ParsedData.heartRate d = Some hr ->
                Forall (fun v => (0 <=? v) = true) hr.
Proof.
  assert (Hgeneric : parseCSV csvContent = Some d ->
    Forall (fun v => (0 <=? v) = true) (ParsedData.power d)
    /\ forall hr, ParsedData.heartRate d = Some hr ->
                  Forall (fun v => (0 <=? v) = true) hr).
  { unfold parseCSV, try_or_null.
    destruct (_ <? _)%nat; [discriminate|].
    destruct (findIndex _ _) as [powerIndex|]; [|discriminate].
    destruct (_ =? _)%nat; [discriminate|].
    intros [= <-]. cbn [ParsedData.power ParsedData.heartRate]. split.
    - rewrite CsvShapeFacts.power_of_parseCSV_rows. apply rounded_valid_nonneg.
    - intros hr Hhr.
      destruct (findIndex _ _) as [hrIndex|]; [|discriminate Hhr].
      injection Hhr as <-.
      apply (ListFacts.fold_invariant
               (fun acc => Forall (fun v => (0 <=? v) = true) (c_heartRate acc)));
        [intros; apply parseCSV_row_heartRate_nonneg; assumption | constructor]. }
  intros [H|H]; [exact (Hgeneric H)|].
  revert H. unfold parseTrainingPeaksCSV, try_or_null.
  destruct (_ <? _)%nat; [discriminate|].
  destruct (findIndex _ (map trim _)) as [powerIndex|]; [|exact Hgeneric].
  intros [= <-]. cbn [ParsedData.power ParsedData.heartRate]. split.
  - rewrite CsvShapeFacts.power_of_TrainingPeaks_rows. apply rounded_valid_nonneg.
  - intros hr Hhr.
    destruct (findIndex _ _) as [hrIndex|]; [|discriminate Hhr].
    injection Hhr as <-.
    apply (ListFacts.fold_invariant
             (fun acc => Forall (fun v => (0 <=? v) = true) (c_heartRate acc)));
      [intros; apply TrainingPeaks_row_heartRate_nonneg; assumption | constructor].
Qed.

Lemma parsed_values_nonneg_witness :
  Forall (fun v => (0 <=? v) = true) [250]
  /\ forall hr, Some [150; 151] = Some hr ->
                Forall (fun v => (0 <=? v) = true) hr.
Proof.
  apply (parsed_values_nonneg
           (join_lines ["Power,HR"; "250,150"; "abc,151"]%string)
           {| ParsedData.power := [250];
              ParsedData.heartRate := Some [150; 151];
              ParsedData.speed := None;
              ParsedData.distance := None;
              ParsedData.elevation := None;
              ParsedData.time := [0; 1] |}).
  left. vm_compute. reflexivity.
Defined.
End CsvValueFacts.

Module FormFacts.
Import JS FtpAnalysis PowerInputForm Notions.
Local Open Scope float_scope.

Lemma expand_minute_counts (random : nat -> number) (counter : list nat)
    (minuteAvg : number) (st : list number * nat) :
  let step := fun (st : list number * nat) (_ : nat) =>
                let '(expanded, draws) := st in
                (push expanded (Math_round (minuteAvg + (random draws - 0.5) * 10)),
                 S draws) in
  List.length (fst (fold_left step counter st)) = (List.length (fst st) + List.length counter)%nat
  /\ snd (fold_left step counter st) = (snd st + List.length counter)%nat.
Proof.
  cbv zeta. revert st. induction counter as [|i counter IH]; intros [expanded draws];
    cbn [fold_left List.length fst snd]; [lia|].
  destruct (IH (push expanded (Math_round (minuteAvg + (random draws - 0.5) * 10)),
                S draws)) as [H1 H2].
  rewrite H1, H2. cbn [fst snd]. rewrite CsvFacts.length_push. lia.
Qed.

Lemma expand_counts (random : nat -> number) (values : list number)
    (st : list number * nat) :
  List.length (fst (fold_left (expand_minute random) values st))
  = (List.length (fst st) + 60 * List.length values)%nat
  /\ snd (fold_left (expand_minute random) values st)
     = (snd st + 60 * List.length values)%nat.
Proof.
  revert st. induction values as [|v values IH]; intros st;
    cbn [fold_left List.length]; [lia|].
  destruct (IH (expand_minute random st v)) as [H1 H2]. rewrite H1, H2.
  unfold expand_minute.
  destruct (expand_minute_counts random (seq 0 60) v st) as [H3 H4].
  cbv zeta in H3, H4. rewrite H3, H4, length_seq. lia.
Qed.

Lemma expand_size (random : nat -> number) (values : list number) (draws : nat) :
  List.length (fst (expand random values draws)) = (60 * List.length values)%nat
  /\ snd (expand random values draws) = (draws + 60 * List.length values)%nat.
Proof.
  unfold expand.
  destruct (expand_counts random values ([], draws)) as [H1 H2].
  rewrite H1, H2. cbn [fst snd List.length]. lia.
Qed.

(** X23.  For a test of [d] minutes, [validateManualData] accepts the values
    exactly when there are at least [d] of them, and what it accepts it turns
    into 60 samples a minute: 60 * d samples, drawn with 60 * d random
    numbers; it alerts the user when, and only when, values were left out. *)
Theorem validateManualData_sizes (random : nat -> number) (d : nat)
    (values : list number) (draws : nat) :
  (Z.of_nat d < 2 ^ 32)%Z -> (Z.of_nat (List.length values) < 2 ^ 32)%Z ->
  exists v alerts draws',
    validateManualData (of_nat d) random values draws = (v, alerts, draws')
    /\ Validation.isValid v = (d <=? List.length values)%nat
    /\ ((d <= List.length values)%nat ->
        exists expanded,
          Validation.processedData v = Some expanded
          /\ List.length expanded = (60 * d)%nat
          /\ draws' = (draws + 60 * d)%nat
          /\ Validation.error v = None
          /\ (alerts = [] <-> List.length values = d))
    /\ ((List.length values < d)%nat ->
        Validation.processedData v = None
        /\ Validation.error v <> None
        /\ alerts = [] /\ draws' = draws).
Proof.
  intros Hd Hlen. unfold validateManualData. cbv zeta.
  rewrite IntegerFacts.of_nat_eqb by lia.
  destruct (Nat.eqb_spec (List.length values) d) as [Heq|Hne].
  - destruct (expand_size random values draws) as [H1 H2].
    destruct (expand random values draws) as [expanded draws'].
    cbn [fst snd] in H1, H2.
    eexists _, _, _. split; [reflexivity|].
    cbn [Validation.isValid Validation.processedData Validation.error].
    split; [symmetry; apply Nat.leb_le; lia|].
    split; [|lia].
    intros _. exists expanded. subst d.
    repeat split; try assumption; reflexivity.
  - rewrite IntegerFacts.of_nat_ltb by lia.
    destruct (Nat.ltb_spec d (List.length values)) as [Hmore|Hless].
    + change 0 with (of_nat 0).
      rewrite ListFacts.slice_of_nat by lia.
      assert (Hcut : List.length (window (d - 0) 0 values) = d)
        by (rewrite ListFacts.length_window; lia).
      destruct (expand_size random (window (d - 0) 0 values) draws) as [H1 H2].
      destruct (expand random (window (d - 0) 0 values) draws)
        as [expanded draws'].
      cbn [fst snd] in H1, H2. rewrite Hcut in H1, H2.
      eexists _, _, _. split; [reflexivity|].
      cbn [Validation.isValid Validation.processedData Validation.error].
      split; [symmetry; apply Nat.leb_le; lia|].
      split; [|lia].
      intros _. exists expanded.
      repeat split; try assumption; try discriminate; lia.
    + rewrite IntegerFacts.of_nat_ltb by lia.
      destruct (Nat.ltb_spec (List.length values) d) as [Hfew|Hno]; [|lia].
      eexists _, _, _. split; [reflexivity|].
      cbn [Validation.isValid Validation.processedData Validation.error].
      split; [symmetry; apply Nat.leb_gt; lia|].
      split; [lia|].
      intros _. repeat split. discriminate.
Qed.

Lemma validateManualData_sizes_witness :
  exists v alerts draws',
    validateManualData (of_nat 2) (fun _ => 0.5) [250; 260; 270] 0
    = (v, alerts, draws')
    /\ Validation.isValid v = (2 <=? List.length [250; 260; 270])%nat
    /\ ((2 <= List.length [250; 260; 270])%nat ->
        exists expanded,
          Validation.processedData v = Some expanded
          /\ List.length expanded = (60 * 2)%nat
          /\ draws' = (0 + 60 * 2)%nat
          /\ Validation.error v = None
          /\ (alerts = [] <-> List.length [250; 260; 270] = 2%nat))
    /\ ((List.length [250; 260; 270] < 2)%nat ->
        Validation.processedData v = None
        /\ Validation.error v <> None
        /\ alerts = [] /\ draws' = 0%nat).
Proof.
  apply (validateManualData_sizes (fun _ => 0.5) 2 [250; 260; 270] 0).
  - reflexivity.
  - reflexivity.
Defined.

(** Of two numbers, one is below the other or they compare equal. *)
Lemma compares (x y : number) :
  is_nan x = false -> is_nan y = false ->
  (x =? y) = false -> (y <? x) = false -> (x <? y) = true.
Proof.
  intros Hx Hy. rewrite eqb_spec, !ltb_spec. unfold SFeqb, SFltb.
  rewrite (OrderFacts.SFcompare_antisym (Prim2SF x) (Prim2SF y)).
  destruct (OrderFacts.SFcompare_some _ _ (OrderFacts.not_nan_Prim2SF x Hx)
              (OrderFacts.not_nan_Prim2SF y Hy)) as [c ->].
  destruct c; cbn; congruence.
Qed.

(** X24.  [validateManualData] answers [Invalid data format] exactly when the
    duration of the test is NaN: with a duration that is a number, one of its
    three comparisons holds. *)
Theorem validateManualData_invalid_format (duration : number)
    (random : nat -> number) (values : list number) (draws : nat) :
  Validation.error (fst (fst (validateManualData duration random values draws)))
  = Some "Invalid data format"%string
  <-> isNaN duration = true.
Proof.
  unfold validateManualData, isNaN. cbv zeta.
  destruct (is_nan duration) eqn:Hnan.
  - rewrite (OrderFacts.is_nan_nan duration Hnan).
    replace (of_nat (List.length values) =? nan) with false
      by (symmetry; rewrite eqb_spec; change (Prim2SF nan) with S754_nan;
          destruct (Prim2SF _); reflexivity).
    rewrite OrderFacts.ltb_nan_l, OrderFacts.ltb_nan_r by reflexivity.
    split; reflexivity.
  - split; [|discriminate].
    destruct (of_nat (List.length values) =? duration) eqn:Heq.
    + destruct (expand _ _ _); discriminate.
    + destruct (duration <? of_nat (List.length values)) eqn:Hmore.
      * destruct (expand _ _ _); discriminate.
      * rewrite (compares _ _
                   (proj2 (OrderFacts.leb_true_not_nan _ _
                             (Binary64Facts.of_nat_nonneg (List.length values))))
                   Hnan Heq Hmore).
        cbn [fst Validation.error append]. discriminate.
Qed.

(** Up to 1800 samples the file is not a long one. *)
Lemma not_a_long_file (n : nat) :
  (n <= 1800)%nat -> (of_nat n / 60 >? 30) = false.
Proof.
  intros Hn.
  assert (H : forallb (fun n => negb (of_nat n / 60 >? 30)) (seq 0 1801) = true)
    by (vm_compute; reflexivity).
  rewrite forallb_forall in H.
  apply negb_true_iff, H, in_seq. lia.
Qed.

(** X25.  [handleDataAnalysis] hands the whole workout on, as given, with start
    0 and the number of samples as duration, when the workout has at most
    1800 samples, or the dialog is switched off, or the user declines. *)
Theorem handleDataAnalysis_whole_workout
    (riderWeight : option number) (confirm : bool)
    (powerData : list number) (heartRateData : option (list number))
    (showLongFileDialog : option bool)
    (speedData distanceData elevationData : option (list number)) :
  (List.length powerData <= 1800)%nat \/ showLongFileDialog = Some false
  \/ confirm = false ->
  exists call,
    handleDataAnalysis riderWeight confirm powerData heartRateData
      showLongFileDialog speedData distanceData elevationData = Some call
    /\ AnalyzeCall.powerData call = powerData
    /\ AnalyzeCall.heartRateData call = heartRateData
    /\ AnalyzeCall.speedData call = speedData
    /\ AnalyzeCall.distanceData call = distanceData
    /\ AnalyzeCall.elevationData call = elevationData
    /\ SegmentInfo.startTime (AnalyzeCall.segmentInfo call) = 0
    /\ SegmentInfo.duration (AnalyzeCall.segmentInfo call)
       = of_nat (List.length powerData).
Proof.
  intros H. unfold handleDataAnalysis. cbv zeta.
  assert (Hfull :
            (of_nat (List.length powerData) / 60 >? 30)
            && match showLongFileDialog with Some b => b | None => true end
            && confirm = false).
  { destruct H as [H|[-> | ->]].
    - rewrite (not_a_long_file _ H). reflexivity.
    - rewrite andb_false_r. reflexivity.
    - apply andb_false_r. }
  destruct (_ >? 30), (match showLongFileDialog with Some b => b | None => true end),
    confirm; try discriminate Hfull;
    cbn [andb]; eexists; (split; [reflexivity|]); repeat split.
Qed.

Lemma handleDataAnalysis_whole_workout_witness :
  exists call,
    handleDataAnalysis (Some 70) true (repeat 250 1200) (Some (repeat 150 1200))
      None None None None = Some call
    /\ AnalyzeCall.powerData call = repeat 250 1200
    /\ AnalyzeCall.heartRateData call = Some (repeat 150 1200)
    /\ AnalyzeCall.speedData call = None
    /\ AnalyzeCall.distanceData call = None
    /\ AnalyzeCall.elevationData call = None
    /\ SegmentInfo.startTime (AnalyzeCall.segmentInfo call) = 0
    /\ SegmentInfo.duration (AnalyzeCall.segmentInfo call)
       = of_nat (List.length (repeat 250 1200)).
Proof.
  apply (handleDataAnalysis_whole_workout (Some 70) true (repeat 250 1200)
           (Some (repeat 150 1200)) None None None None).
  left. rewrite repeat_length. lia.
Defined.

(** X26.  When the dialog is shown and the user accepts, [handleDataAnalysis]
    hands on 1200 power samples, and the heart rate of the same window, but
    the speed, distance and elevation series whole: a series of one entry per
    sample of the workout is then longer than the power series it goes
    with. *)
Theorem handleDataAnalysis_extracted
    (riderWeight : option number)
    (powerData : list number) (heartRateData : option (list number))
    (showLongFileDialog : option bool)
    (speedData distanceData elevationData : option (list number)) :
  (of_nat (List.length powerData) / 60 >? 30) = true ->
  showLongFileDialog <> Some false ->
  (Z.of_nat (List.length powerData) < 2 ^ 32)%Z ->
  exists call j,
    handleDataAnalysis riderWeight true powerData heartRateData
      showLongFileDialog speedData distanceData elevationData = Some call
    /\ (30 * j + 1200 <= List.length powerData)%nat
    /\ AnalyzeCall.powerData call = window 1200 (30 * j) powerData
    /\ List.length (AnalyzeCall.powerData call) = 1200%nat
    /\ AnalyzeCall.heartRateData call
       = option_map (window 1200 (30 * j)) heartRateData
    /\ SegmentInfo.startTime (AnalyzeCall.segmentInfo call) = of_nat (30 * j)
    /\ AnalyzeCall.speedData call = speedData
    /\ AnalyzeCall.distanceData call = distanceData
    /\ AnalyzeCall.elevationData call = elevationData
    /\ (forall series, (speedData = Some series \/ distanceData = Some series
                        \/ elevationData = Some series) ->
                       List.length series = List.length powerData ->
                       (List.length (AnalyzeCall.powerData call)
                        < List.length series)%nat).
Proof.
  intros Hlong Hshow Hfit.
  assert (Hn : (1800 < List.length powerData)%nat).
  { destruct (Nat.le_gt_cases (List.length powerData) 1800) as [H|H];
      [|exact H].
    rewrite (not_a_long_file _ H) in Hlong. discriminate Hlong. }
  destruct (LongWorkoutFacts.long_workout_run powerData heartRateData (Some 20)
              None None None (or_intror eq_refl) ltac:(lia) Hfit)
    as [r [j [bestAverage [Hr [Hj [Hp [Hh [_ [_ [_ [Hst _]]]]]]]]]]].
  unfold handleDataAnalysis. cbv zeta. rewrite Hlong, Hr.
  assert (Hdialog : match showLongFileDialog with Some b => b | None => true end
                    = true)
    by (destruct showLongFileDialog as [[|]|]; congruence).
  rewrite Hdialog. cbn [andb].
  eexists. exists j. split; [reflexivity|].
  cbn [AnalyzeCall.powerData AnalyzeCall.heartRateData AnalyzeCall.segmentInfo
       AnalyzeCall.speedData AnalyzeCall.distanceData AnalyzeCall.elevationData].
  assert (Hlen : List.length (Segment.power r) = 1200%nat)
    by (rewrite Hp; apply ListFacts.length_window; lia).
  repeat split; try assumption.
  intros series _ Hs. lia.
Qed.

Lemma handleDataAnalysis_extracted_witness :
  exists call j,
    handleDataAnalysis (Some 70) true (repeat 250 1900) None None
      (Some (repeat 30 1900)) None None = Some call
    /\ (30 * j + 1200 <= List.length (repeat 250 1900))%nat
    /\ AnalyzeCall.powerData call = window 1200 (30 * j) (repeat 250 1900)
    /\ List.length (AnalyzeCall.powerData call) = 1200%nat
    /\ AnalyzeCall.heartRateData call = option_map (window 1200 (30 * j)) None
    /\ SegmentInfo.startTime (AnalyzeCall.segmentInfo call) = of_nat (30 * j)
    /\ AnalyzeCall.speedData call = Some (repeat 30 1900)
    /\ AnalyzeCall.distanceData call = None
    /\ AnalyzeCall.elevationData call = None
    /\ (forall series, (Some (repeat 30 1900) = Some series
                        \/ @None (list number) = Some series
                        \/ @None (list number) = Some series) ->
                       List.length series = List.length (repeat 250 1900) ->
                       (List.length (AnalyzeCall.powerData call)
                        < List.length series)%nat).
Proof.
  apply (handleDataAnalysis_extracted (Some 70) (repeat 250 1900) None None
           (Some (repeat 30 1900)) None None).
  - vm_compute. reflexivity.
  - discriminate.
  - rewrite repeat_length. lia.
Defined.
End FormFacts.

Module AppFacts.
Import JS FtpAnalysis CsvParser PowerInputForm Notions.
Local Open Scope float_scope.

(** X27.  [handleAnalyze] leaves the page analysing, and its callback ends the
    analysis exactly when the power series is not empty: it then shows and
    stores the test data and moves to the results, with watts per kg when
    the weight is a number other than zero and heart-rate statistics when a
    heart-rate series is given; on the empty series it throws, and the page
    stays as it was left. *)
Theorem handleAnalyze_outcome (Math_pow : number -> number -> number)
    (now : string)
    (powerData : list number) (heartRateData : option (list number))
    (riderWeight : option number) (segmentInfo : option SegmentInfo.t)
    (speedData distanceData elevationData : option (list number))
    (p : App.page) :
  let waiting :=
    fst (App.handleAnalyze Math_pow now powerData heartRateData riderWeight
           segmentInfo speedData distanceData elevationData p) in
  let callback :=
    snd (App.handleAnalyze Math_pow now powerData heartRateData riderWeight
           segmentInfo speedData distanceData elevationData p) in
  App.isAnalyzing waiting = true
  /\ match powerData with
     | [] => callback waiting = Throw "Power data cannot be empty"
     | _ :: _ =>
         exists t,
           callback waiting
           = Ok {| App.testData := Some t;
                   App.isAnalyzing := false;
                   App.stored := Some t;
                   App.hash := "#results" |}
           /\ TestData.powerData t = powerData
           /\ (TestData.wattsPerKgStats t = None
               <-> or_undefined riderWeight = None)
           /\ (TestData.heartRateStats t = None <-> heartRateData = None)
     end.
Proof.
  cbv zeta. unfold App.handleAnalyze. cbn [fst snd App.isAnalyzing].
  split; [reflexivity|].
  destruct powerData as [|x powerData]; [reflexivity|].
  unfold App.analysis.
  destruct (StatsFacts.calculateStats_nonempty Math_pow (x :: powerData))
    as [s Hs]; [discriminate|].
  destruct (PacingShapeFacts.analyzePacing_nonempty Math_pow (x :: powerData))
    as [r Hr]; [discriminate|].
  rewrite Hs, Hr. cbn [bind]. eexists. split; [reflexivity|].
  cbn [TestData.powerData TestData.wattsPerKgStats TestData.heartRateStats].
  split; [reflexivity|]. split.
  - destruct riderWeight as [w|]; cbn [or_undefined]; [|tauto].
    destruct (isNaN w || (w =? 0)); split; intros H; try reflexivity;
      discriminate H.
  - destruct heartRateData; split; intros H; try reflexivity; discriminate H.
Qed.

(** X28.  A workout that is not empty gets its analysis: whatever the dialog
    and the answer of the user, [handleDataAnalysis] makes a call of
    [onAnalyze], and [handleAnalyze] with its callback, run on the arguments
    of that call, ends the analysis with test data to show. *)
Theorem analysis_of_a_workout (Math_pow : number -> number -> number)
    (now : string) (riderWeight : option number) (confirm : bool)
    (powerData : list number) (heartRateData : option (list number))
    (showLongFileDialog : option bool)
    (speedData distanceData elevationData : option (list number))
    (p : App.page) :
  powerData <> [] ->
  (Z.of_nat (List.length powerData) < 2 ^ 32)%Z ->
  exists call p',
    handleDataAnalysis riderWeight confirm powerData heartRateData
      showLongFileDialog speedData distanceData elevationData = Some call
    /\ analysed Math_pow now call p = Ok p'
    /\ App.isAnalyzing p' = false
    /\ App.testData p' <> None.
Proof.
  intros Hne Hfit.
  assert (Hcall : exists call,
             handleDataAnalysis riderWeight confirm powerData heartRateData
               showLongFileDialog speedData distanceData elevationData = Some call
             /\ AnalyzeCall.powerData call <> []).
  { unfold handleDataAnalysis. cbv zeta.
    destruct ((of_nat (List.length powerData) / 60 >? 30)
              && match showLongFileDialog with Some b => b | None => true end)
      eqn:Hdialog; [destruct confirm|].
    2, 3: eexists; split; [reflexivity | exact Hne].
    apply andb_true_iff in Hdialog. destruct Hdialog as [Hlong _].
    assert (Hn : (1800 < List.length powerData)%nat).
    { destruct (Nat.le_gt_cases (List.length powerData) 1800) as [H|H];
        [|exact H].
      rewrite (FormFacts.not_a_long_file _ H) in Hlong.
      discriminate Hlong. }
    destruct (LongWorkoutFacts.long_workout_run powerData heartRateData (Some 20)
                None None None (or_intror eq_refl) ltac:(lia) Hfit)
      as [r [j [bestAverage [Hr [Hj [Hp _]]]]]].
    rewrite Hr. eexists. split; [reflexivity|].
    cbn [AnalyzeCall.powerData]. intros Hnil.
    assert (Hlen : List.length (Segment.power r) = 1200%nat)
      by (rewrite Hp; apply ListFacts.length_window; lia).
    rewrite Hnil in Hlen. discriminate Hlen. }
  destruct Hcall as [call [Hcall Hpower]].
  exists call. unfold analysed, App.handleAnalyze, App.analysis.
  destruct (StatsFacts.calculateStats_nonempty Math_pow _ Hpower) as [s Hs].
  destruct (PacingShapeFacts.analyzePacing_nonempty Math_pow _ Hpower) as [r Hr].
  rewrite Hs, Hr. cbn [bind]. eexists. split; [exact Hcall|].
  split; [reflexivity|]. split; [reflexivity | discriminate].
Qed.

Lemma analysis_of_a_workout_witness :
  exists call p',
    handleDataAnalysis (Some 70) true [250; 255; 245] None None None None None
    = Some call
    /\ analysed Math_pow_reference "2025-01-01T00:00:00.000Z" call
         {| App.testData := None; App.isAnalyzing := false;
            App.stored := None; App.hash := "" |} = Ok p'
    /\ App.isAnalyzing p' = false
    /\ App.testData p' <> None.
Proof.
  apply (analysis_of_a_workout Math_pow_reference "2025-01-01T00:00:00.000Z"
           (Some 70) true [250; 255; 245] None None None None None).
  - discriminate.
  - reflexivity.
Defined.

(** X29.  A file that [parseTrainingPeaksCSV] accepts although no row of it
    holds a valid power value stops the analysis: the call of [onAnalyze]
    that [handleDataAnalysis] makes for its result carries an empty power
    series, on which the callback of [handleAnalyze] throws. *)
Theorem no_valid_row_stops_the_analysis (Math_pow : number -> number -> number)
    (now : string) (riderWeight : option number) (confirm : bool)
    (csvContent : string) (powerIndex : nat) (p : App.page) :
  (2 <= List.length (csv_lines csvContent))%nat ->
  power_column csvContent = Some powerIndex ->
  Forall (fun line => valid_power (power_cell powerIndex line) = false)
         (csv_rows csvContent) ->
  exists d call,
    parseTrainingPeaksCSV csvContent = Some d
    /\ handleDataAnalysis riderWeight confirm (ParsedData.power d)
         (ParsedData.heartRate d) (Some true) (ParsedData.speed d)
         (ParsedData.distance d) (ParsedData.elevation d) = Some call
    /\ analysed Math_pow now call p = Throw "Power data cannot be empty".
Proof.
  intros Hlines Hcolumn Hrows.
  unfold parseTrainingPeaksCSV, try_or_null.
  rewrite CsvShapeFacts.powerIndex_TrainingPeaks, Hcolumn.
  fold (csv_lines csvContent).
  destruct (Nat.ltb_spec (List.length (csv_lines csvContent)) 2); [lia|].
  eexists. 
  assert (Hpower :
            c_power (fold_left (parseTrainingPeaksCSV_row powerIndex
                                  (findIndex
                                     (fun h => includes (toLowerCase h) "heart rate"
                                               || includes (toLowerCase h) "hr"
                                               || String.eqb h "Heart Rate (bpm)")
                                     (map trim (split comma
                                                  (nth 0 (csv_lines csvContent) EmptyString)))))
                               (data_rows (csv_lines csvContent)) no_columns) = []).
  { rewrite CsvShapeFacts.power_of_TrainingPeaks_rows.
    fold (csv_rows csvContent).
    assert (Hf : filter valid_power (map (power_cell powerIndex) (csv_rows csvContent))
                 = [])
      by (apply ListFacts.filter_nil_iff, Forall_map; exact Hrows).
    rewrite Hf. reflexivity. }
  unfold handleDataAnalysis. cbv zeta. cbn [ParsedData.power].
  rewrite Hpower. cbn [List.length].
  change (of_nat 0 / 60 >? 30) with false. cbn [andb].
  eexists. split; [reflexivity|]. split; [reflexivity|].
  reflexivity.
Qed.

Lemma no_valid_row_stops_the_analysis_witness :
  exists d call,
    parseTrainingPeaksCSV (join_lines ["Power"; "abc"]%string) = Some d
    /\ handleDataAnalysis (Some 70) true (ParsedData.power d)
         (ParsedData.heartRate d) (Some true) (ParsedData.speed d)
         (ParsedData.distance d) (ParsedData.elevation d) = Some call
    /\ analysed Math_pow_reference "2025-01-01T00:00:00.000Z" call
         {| App.testData := None; App.isAnalyzing := false;
            App.stored := None; App.hash := "" |}
       = Throw "Power data cannot be empty".
Proof.
  apply (no_valid_row_stops_the_analysis Math_pow_reference
           "2025-01-01T00:00:00.000Z" (Some 70) true
           (join_lines ["Power"; "abc"]%string) 0).
  - vm_compute. lia.
  - reflexivity.
  - replace (csv_rows (join_lines ["Power"; "abc"]%string)) with ["abc"%string]
      by (vm_compute; reflexivity).
    constructor; [vm_compute; reflexivity | constructor].
Defined.

(** X30.  What [parseCSV] returns can be analysed: on the power series of any
    of its results [calculateStats] and [analyzePacing] return. *)
Theorem parseCSV_result_can_be_analysed (Math_pow : number -> number -> number)
    (csvContent : string) (d : ParsedData.t) :
  parseCSV csvContent = Some d ->
  (exists s, calculateStats Math_pow (ParsedData.power d) = Ok s)
  /\ (exists r, analyzePacing Math_pow (ParsedData.power d) = Ok r).
Proof.
  intros H.
  assert (Hne : ParsedData.power d <> []).
  { revert H. unfold parseCSV, try_or_null.
    destruct (_ <? _)%nat; [discriminate|].
    destruct (findIndex _ _) as [powerIndex|]; [|discriminate].
    match goal with
    | |- context [(List.length ?l =? 0)%nat] =>
        destruct (Nat.eqb_spec (List.length l) 0) as [|Hlen]
    end; [discriminate|].
    intros [= <-]. cbn [ParsedData.power]. intros Hnil.
    rewrite Hnil in Hlen. apply Hlen. reflexivity. }
  split; [apply StatsFacts.calculateStats_nonempty | apply PacingShapeFacts.analyzePacing_nonempty];
    exact Hne.
Qed.

Lemma parseCSV_result_can_be_analysed_witness :
  (exists s, calculateStats Math_pow_reference [250; 255] = Ok s)
  /\ (exists r, analyzePacing Math_pow_reference [250; 255] = Ok r).
Proof.
  apply (parseCSV_result_can_be_analysed Math_pow_reference
           (join_lines ["Power"; "250"; "255"]%string)
           {| ParsedData.power := [250; 255];
              ParsedData.heartRate := None;
              ParsedData.speed := None;
              ParsedData.distance := None;
              ParsedData.elevation := None;
              ParsedData.time := [0; 1] |}).
  vm_compute. reflexivity.
Defined.
End AppFacts.

